(** * Example scripts of the scikit-learn documentation corpus

    The repository holds rendered documentation pages and notebooks; its
    only code is the example scripts embedded in them.  This development
    embeds those scripts and states the properties the specification
    gives for them, and further properties of the scripts and of the
    output the pages document.

    - [Syntax]: the abstract syntax of the Python subset the scripts are
      written in, following the node names of Python's [ast] module.
    - [Scripts]: the six scripts whose code is present in the sources
      (the page of [plot_stock_market] only refers to its script through
      a [literalinclude] directive, so there is no code to embed for it).
    - [Analysis]: syntactic analyses over the scripts.
    - [Exec]: a control-flow semantics of scripts in which every library
      operation may raise.
    - [Numpy]: array shapes, reshaping and reduction along an axis.
    - [Grid]: the parameter grids of the two grid-search examples and
      the table of scores of [plot_compare_reduction].
    - [Py]: results of operations that may raise.
    - [Impute]: the function [get_results] of the imputation example
      over a store of arrays and a random generator.
    - [Cache]: the caching section of [plot_compare_reduction] over a
      file system.
    - [ImputePlot]: the module-level statements of the imputation
      example that call [get_results] and draw the bars.
    - [Mesh]: the meshes of the two Gaussian-process examples.
    - [Optics]: the reference lines of [plot_optics].
    - [Layout]: the positions of the bars of [plot_compare_reduction].
    - [Text], [CacheLog], [Scores]: the output documented on the pages
      of [plot_compare_reduction] and [plot_feature_stacker], and what
      the scripts imply for it.
    - [Names]: a semantics of name binding and a check that covers
      every run.

    The definitions come first; the properties follow in the second
    part. *)

From stdpp Require Import base strings list pretty gmap.
From Stdlib Require Import Ascii QArith Qround.
Local Close Scope Q_scope.

Scheme All for list.
Scheme All for prod.
Scheme All for option.

(** ** Abstract syntax *)

Module Syntax.

Inductive operator := Add | Sub | Mult | Div | Mod | Pow.
Inductive unaryop := USub | UAdd | Not.
Inductive cmpop := CmpEq | CmpNotEq | CmpLt | CmpLtE | CmpGt | CmpGtE.

(** Expressions.  Numeric literals keep their source text. *)
Inductive expr : Type :=
| Name (id : string)
| Num (literal : string)
| Str (s : string)
| Attribute (value : expr) (attr : string)
| Call (func : expr) (args : list expr) (keywords : list (string * expr))
| Subscript (value : expr) (index : expr)
| Slice (lower upper step : option expr)
| BinOp (left : expr) (op : operator) (right : expr)
| UnaryOp (op : unaryop) (operand : expr)
| Compare (left : expr) (op : cmpop) (right : expr)
| IfExp (test body orelse : expr)
| Lambda (params : list string) (body : expr)
| ListComp (elt target iter : expr) (ifs : list expr)
| ListE (elts : list expr)
| TupleE (elts : list expr)
| DictE (items : list (expr * expr)).

(** Statements.  [Magic] is an IPython line magic, the first cell of
    every notebook. *)
Inductive stmt : Type :=
| Magic (line : string)
| Import (module : string) (asname : option string)
| ImportFrom (module : string) (names : list (string * option string))
| Assign (targets : list expr) (value : expr)
| ExprStmt (value : expr)
| Return (value : option expr)
| Raise (exc : option expr)
| For (target iter : expr) (body : list stmt)
| While (test : expr) (body : list stmt)
| If (test : expr) (body orelse : list stmt)
| Try (body : list stmt) (handlers : list (option expr * list stmt))
      (finalbody : list stmt)
| With (item : expr) (body : list stmt)
| FunctionDef (name : string) (params : list string) (body : list stmt)
| ClassDef (name : string) (bases : list expr) (body : list stmt).

Record script := Script { script_name : string; script_body : list stmt }.

(** The line feed inside multi-line string literals. *)
Definition nl : string := String (Ascii.ascii_of_nat 10) EmptyString.

End Syntax.

(** ** The example scripts

    Each definition lists the statements of one script in source order;
    the comment before a statement is its first source line (string
    quotes written as apostrophes). *)

Module Scripts.
Import Syntax.

(** First notebook of [0.18/_downloads/plot_gpc_isoprobability.ipynb]. *)
Definition plot_gpc_isoprobability_body : list stmt :=
  [
    (* %matplotlib inline *)
    Magic "matplotlib inline";
    (* print(__doc__) *)
    ExprStmt (Call (Name "print") [Name "__doc__"] []);
    (* import numpy as np *)
    Import "numpy" (Some "np");
    (* from matplotlib import pyplot as plt *)
    ImportFrom "matplotlib" [("pyplot", Some "plt")];
    (* from matplotlib import cm *)
    ImportFrom "matplotlib" [("cm", None)];
    (* from sklearn.gaussian_process import GaussianProcessClassifier *)
    ImportFrom "sklearn.gaussian_process" [("GaussianProcessClassifier",
        None)];
    (* from sklearn.gaussian_process.kernels import DotProduct, ConstantKernel as C *)
    ImportFrom "sklearn.gaussian_process.kernels" [("DotProduct", None);
        ("ConstantKernel", Some "C")];
    (* lim = 8 *)
    Assign [Name "lim"] (Num "8");
    (* def g(x): *)
    FunctionDef "g" ["x"]
      [ ExprStmt (Str
          ("The function to predict (classification will then consist in predicting"
           +:+ nl +:+ "    whether g(x) <= 0 or not)"));
        Return (Some (BinOp (BinOp (Num "5.") Sub (Subscript (Name "x")
            (TupleE [Slice None None None; Num "1"]))) Sub (BinOp (Num ".5")
            Mult (BinOp (Subscript (Name "x") (TupleE [Slice None None None;
            Num "0"])) Pow (Num "2."))))) ];
    (* X = np.array([[-4.61611719, -6.00099547], *)
    Assign [Name "X"] (Call (Attribute (Name "np") "array")
        [ListE [ListE [UnaryOp USub (Num "4.61611719");
        UnaryOp USub (Num "6.00099547")]; ListE [Num "4.10469096";
        Num "5.32782448"]; ListE [Num "0.00000000";
        UnaryOp USub (Num "0.50000000")];
        ListE [UnaryOp USub (Num "6.17289014");
        UnaryOp USub (Num "4.6984743")]; ListE [Num "1.3109306";
        UnaryOp USub (Num "6.93271427")];
        ListE [UnaryOp USub (Num "5.03823144"); Num "3.10584743"];
        ListE [UnaryOp USub (Num "2.87600388"); Num "6.74310541"];
        ListE [Num "5.21301203"; Num "4.26386883"]]] []);
    (* y = np.array(g(X) > 0, dtype=int) *)
    Assign [Name "y"] (Call (Attribute (Name "np") "array")
        [Compare (Call (Name "g") [Name "X"] []) CmpGt (Num "0")] [("dtype",
        Name "int")]);
    (* kernel = C(0.1, (1e-5, np.inf)) * DotProduct(sigma_0=0.1) ** 2 *)
    Assign [Name "kernel"] (BinOp (Call (Name "C") [Num "0.1";
        TupleE [Num "1e-5"; Attribute (Name "np") "inf"]] [])
        Mult (BinOp (Call (Name "DotProduct") [] [("sigma_0", Num "0.1")])
        Pow (Num "2")));
    (* gp = GaussianProcessClassifier(kernel=kernel) *)
    Assign [Name "gp"] (Call (Name "GaussianProcessClassifier") []
        [("kernel", Name "kernel")]);
    (* gp.fit(X, y) *)
    ExprStmt (Call (Attribute (Name "gp") "fit") [Name "X"; Name "y"] []);
    (* print('Learned kernel: %s ' % gp.kernel_) *)
    ExprStmt (Call (Name "print") [BinOp (Str "Learned kernel: %s ")
        Mod (Attribute (Name "gp") "kernel_")] []);
    (* res = 50 *)
    Assign [Name "res"] (Num "50");
    (* x1, x2 = np.meshgrid(np.linspace(- lim, lim, res), *)
    Assign [TupleE [Name "x1"; Name "x2"]] (Call (Attribute (Name "np")
        "meshgrid") [Call (Attribute (Name "np") "linspace")
        [UnaryOp USub (Name "lim"); Name "lim"; Name "res"] [];
        Call (Attribute (Name "np") "linspace") [UnaryOp USub (Name "lim");
        Name "lim"; Name "res"] []] []);
    (* xx = np.vstack([x1.reshape(x1.size), x2.reshape(x2.size)]).T *)
    Assign [Name "xx"] (Attribute (Call (Attribute (Name "np") "vstack")
        [ListE [Call (Attribute (Name "x1") "reshape") [Attribute (Name "x1")
        "size"] []; Call (Attribute (Name "x2") "reshape")
        [Attribute (Name "x2") "size"] []]] []) "T");
    (* y_true = g(xx) *)
    Assign [Name "y_true"] (Call (Name "g") [Name "xx"] []);
    (* y_prob = gp.predict_proba(xx)[:, 1] *)
    Assign [Name "y_prob"] (Subscript (Call (Attribute (Name "gp")
        "predict_proba") [Name "xx"] []) (TupleE [Slice None None None;
        Num "1"]));
    (* y_true = y_true.reshape((res, res)) *)
    Assign [Name "y_true"] (Call (Attribute (Name "y_true") "reshape")
        [TupleE [Name "res"; Name "res"]] []);
    (* y_prob = y_prob.reshape((res, res)) *)
    Assign [Name "y_prob"] (Call (Attribute (Name "y_prob") "reshape")
        [TupleE [Name "res"; Name "res"]] []);
    (* fig = plt.figure(1) *)
    Assign [Name "fig"] (Call (Attribute (Name "plt") "figure") [Num "1"] []);
    (* ax = fig.gca() *)
    Assign [Name "ax"] (Call (Attribute (Name "fig") "gca") [] []);
    (* ax.axes.set_aspect('equal') *)
    ExprStmt (Call (Attribute (Attribute (Name "ax") "axes") "set_aspect")
        [Str "equal"] []);
    (* plt.xticks([]) *)
    ExprStmt (Call (Attribute (Name "plt") "xticks") [ListE []] []);
    (* plt.yticks([]) *)
    ExprStmt (Call (Attribute (Name "plt") "yticks") [ListE []] []);
    (* ax.set_xticklabels([]) *)
    ExprStmt (Call (Attribute (Name "ax") "set_xticklabels") [ListE []] []);
    (* ax.set_yticklabels([]) *)
    ExprStmt (Call (Attribute (Name "ax") "set_yticklabels") [ListE []] []);
    (* plt.xlabel('$x_1$') *)
    ExprStmt (Call (Attribute (Name "plt") "xlabel") [Str "$x_1$"] []);
    (* plt.ylabel('$x_2$') *)
    ExprStmt (Call (Attribute (Name "plt") "ylabel") [Str "$x_2$"] []);
    (* cax = plt.imshow(y_prob, cmap=cm.gray_r, alpha=0.8, *)
    Assign [Name "cax"] (Call (Attribute (Name "plt") "imshow")
        [Name "y_prob"] [("cmap", Attribute (Name "cm") "gray_r"); ("alpha",
        Num "0.8"); ("extent", TupleE [UnaryOp USub (Name "lim"); Name "lim";
        UnaryOp USub (Name "lim"); Name "lim"])]);
    (* norm = plt.matplotlib.colors.Normalize(vmin=0., vmax=0.9) *)
    Assign [Name "norm"] (Call (Attribute (Attribute (Attribute (Name "plt")
        "matplotlib") "colors") "Normalize") [] [("vmin", Num "0."); ("vmax",
        Num "0.9")]);
    (* cb = plt.colorbar(cax, ticks=[0., 0.2, 0.4, 0.6, 0.8, 1.], norm=norm) *)
    Assign [Name "cb"] (Call (Attribute (Name "plt") "colorbar") [Name "cax"]
        [("ticks", ListE [Num "0."; Num "0.2"; Num "0.4"; Num "0.6";
        Num "0.8"; Num "1."]); ("norm", Name "norm")]);
    (* cb.set_label('${\\rm \mathbb{P}}\left[\widehat{G}(\mathbf{x}) \leq 0\\right]$') *)
    ExprStmt (Call (Attribute (Name "cb") "set_label")
        [Str "${\rm \mathbb{P}}\left[\widehat{G}(\mathbf{x}) \leq 0\right]$"]
        []);
    (* plt.clim(0, 1) *)
    ExprStmt (Call (Attribute (Name "plt") "clim") [Num "0"; Num "1"] []);
    (* plt.plot(X[y <= 0, 0], X[y <= 0, 1], 'r.', markersize=12) *)
    ExprStmt (Call (Attribute (Name "plt") "plot") [Subscript (Name "X")
        (TupleE [Compare (Name "y") CmpLtE (Num "0"); Num "0"]);
        Subscript (Name "X") (TupleE [Compare (Name "y") CmpLtE (Num "0");
        Num "1"]); Str "r."] [("markersize", Num "12")]);
    (* plt.plot(X[y > 0, 0], X[y > 0, 1], 'b.', markersize=12) *)
    ExprStmt (Call (Attribute (Name "plt") "plot") [Subscript (Name "X")
        (TupleE [Compare (Name "y") CmpGt (Num "0"); Num "0"]);
        Subscript (Name "X") (TupleE [Compare (Name "y") CmpGt (Num "0");
        Num "1"]); Str "b."] [("markersize", Num "12")]);
    (* cs = plt.contour(x1, x2, y_true, [0.], colors='k', linestyles='dashdot') *)
    Assign [Name "cs"] (Call (Attribute (Name "plt") "contour") [Name "x1";
        Name "x2"; Name "y_true"; ListE [Num "0."]] [("colors", Str "k");
        ("linestyles", Str "dashdot")]);
    (* cs = plt.contour(x1, x2, y_prob, [0.666], colors='b', *)
    Assign [Name "cs"] (Call (Attribute (Name "plt") "contour") [Name "x1";
        Name "x2"; Name "y_prob"; ListE [Num "0.666"]] [("colors", Str "b");
        ("linestyles", Str "solid")]);
    (* plt.clabel(cs, fontsize=11) *)
    ExprStmt (Call (Attribute (Name "plt") "clabel") [Name "cs"]
        [("fontsize", Num "11")]);
    (* cs = plt.contour(x1, x2, y_prob, [0.5], colors='k', *)
    Assign [Name "cs"] (Call (Attribute (Name "plt") "contour") [Name "x1";
        Name "x2"; Name "y_prob"; ListE [Num "0.5"]] [("colors", Str "k");
        ("linestyles", Str "dashed")]);
    (* plt.clabel(cs, fontsize=11) *)
    ExprStmt (Call (Attribute (Name "plt") "clabel") [Name "cs"]
        [("fontsize", Num "11")]);
    (* cs = plt.contour(x1, x2, y_prob, [0.334], colors='r', *)
    Assign [Name "cs"] (Call (Attribute (Name "plt") "contour") [Name "x1";
        Name "x2"; Name "y_prob"; ListE [Num "0.334"]] [("colors", Str "r");
        ("linestyles", Str "solid")]);
    (* plt.clabel(cs, fontsize=11) *)
    ExprStmt (Call (Attribute (Name "plt") "clabel") [Name "cs"]
        [("fontsize", Num "11")]);
    (* plt.show() *)
    ExprStmt (Call (Attribute (Name "plt") "show") [] [])
  ].

(** Second notebook of the same file: Gaussian process classification
    on the iris dataset. *)
Definition plot_gpc_iris_body : list stmt :=
  [
    (* %matplotlib inline *)
    Magic "matplotlib inline";
    (* print(__doc__) *)
    ExprStmt (Call (Name "print") [Name "__doc__"] []);
    (* import numpy as np *)
    Import "numpy" (Some "np");
    (* import matplotlib.pyplot as plt *)
    Import "matplotlib.pyplot" (Some "plt");
    (* from sklearn import datasets *)
    ImportFrom "sklearn" [("datasets", None)];
    (* from sklearn.gaussian_process import GaussianProcessClassifier *)
    ImportFrom "sklearn.gaussian_process" [("GaussianProcessClassifier",
        None)];
    (* from sklearn.gaussian_process.kernels import RBF *)
    ImportFrom "sklearn.gaussian_process.kernels" [("RBF", None)];
    (* iris = datasets.load_iris() *)
    Assign [Name "iris"] (Call (Attribute (Name "datasets") "load_iris") []
        []);
    (* X = iris.data[:, :2]  # we only take the first two features. *)
    Assign [Name "X"] (Subscript (Attribute (Name "iris") "data")
        (TupleE [Slice None None None; Slice None (Some (Num "2")) None]));
    (* y = np.array(iris.target, dtype=int) *)
    Assign [Name "y"] (Call (Attribute (Name "np") "array")
        [Attribute (Name "iris") "target"] [("dtype", Name "int")]);
    (* h = .02  # step size in the mesh *)
    Assign [Name "h"] (Num ".02");
    (* kernel = 1.0 * RBF([1.0]) *)
    Assign [Name "kernel"] (BinOp (Num "1.0") Mult (Call (Name "RBF")
        [ListE [Num "1.0"]] []));
    (* gpc_rbf_isotropic = GaussianProcessClassifier(kernel=kernel).fit(X, y) *)
    Assign [Name "gpc_rbf_isotropic"]
        (Call (Attribute (Call (Name "GaussianProcessClassifier") []
        [("kernel", Name "kernel")]) "fit") [Name "X"; Name "y"] []);
    (* kernel = 1.0 * RBF([1.0, 1.0]) *)
    Assign [Name "kernel"] (BinOp (Num "1.0") Mult (Call (Name "RBF")
        [ListE [Num "1.0"; Num "1.0"]] []));
    (* gpc_rbf_anisotropic = GaussianProcessClassifier(kernel=kernel).fit(X, y) *)
    Assign [Name "gpc_rbf_anisotropic"]
        (Call (Attribute (Call (Name "GaussianProcessClassifier") []
        [("kernel", Name "kernel")]) "fit") [Name "X"; Name "y"] []);
    (* x_min, x_max = X[:, 0].min() - 1, X[:, 0].max() + 1 *)
    Assign [TupleE [Name "x_min"; Name "x_max"]]
        (TupleE [BinOp (Call (Attribute (Subscript (Name "X")
        (TupleE [Slice None None None; Num "0"])) "min") [] [])
        Sub (Num "1"); BinOp (Call (Attribute (Subscript (Name "X")
        (TupleE [Slice None None None; Num "0"])) "max") [] [])
        Add (Num "1")]);
    (* y_min, y_max = X[:, 1].min() - 1, X[:, 1].max() + 1 *)
    Assign [TupleE [Name "y_min"; Name "y_max"]]
        (TupleE [BinOp (Call (Attribute (Subscript (Name "X")
        (TupleE [Slice None None None; Num "1"])) "min") [] [])
        Sub (Num "1"); BinOp (Call (Attribute (Subscript (Name "X")
        (TupleE [Slice None None None; Num "1"])) "max") [] [])
        Add (Num "1")]);
    (* xx, yy = np.meshgrid(np.arange(x_min, x_max, h), *)
    Assign [TupleE [Name "xx"; Name "yy"]] (Call (Attribute (Name "np")
        "meshgrid") [Call (Attribute (Name "np") "arange") [Name "x_min";
        Name "x_max"; Name "h"] []; Call (Attribute (Name "np") "arange")
        [Name "y_min"; Name "y_max"; Name "h"] []] []);
    (* titles = ['Isotropic RBF', 'Anisotropic RBF'] *)
    Assign [Name "titles"] (ListE [Str "Isotropic RBF";
        Str "Anisotropic RBF"]);
    (* plt.figure(figsize=(10, 5)) *)
    ExprStmt (Call (Attribute (Name "plt") "figure") [] [("figsize",
        TupleE [Num "10"; Num "5"])]);
    (* for i, clf in enumerate((gpc_rbf_isotropic, gpc_rbf_anisotropic)): *)
    For (TupleE [Name "i"; Name "clf"]) (Call (Name "enumerate")
        [TupleE [Name "gpc_rbf_isotropic"; Name "gpc_rbf_anisotropic"]] [])
      [ ExprStmt (Call (Attribute (Name "plt") "subplot") [Num "1"; Num "2";
          BinOp (Name "i") Add (Num "1")] []);
        Assign [Name "Z"] (Call (Attribute (Name "clf") "predict_proba")
            [Subscript (Attribute (Name "np") "c_")
            (TupleE [Call (Attribute (Name "xx") "ravel") [] [];
            Call (Attribute (Name "yy") "ravel") [] []])] []);
        Assign [Name "Z"] (Call (Attribute (Name "Z") "reshape")
            [TupleE [Subscript (Attribute (Name "xx") "shape") (Num "0");
            Subscript (Attribute (Name "xx") "shape") (Num "1"); Num "3"]]
            []);
        ExprStmt (Call (Attribute (Name "plt") "imshow") [Name "Z"]
            [("extent", TupleE [Name "x_min"; Name "x_max"; Name "y_min";
            Name "y_max"]); ("origin", Str "lower")]);
        ExprStmt (Call (Attribute (Name "plt") "scatter")
            [Subscript (Name "X") (TupleE [Slice None None None; Num "0"]);
            Subscript (Name "X") (TupleE [Slice None None None; Num "1"])]
            [("c", Subscript (Call (Attribute (Name "np") "array")
            [ListE [Str "r"; Str "g"; Str "b"]] []) (Name "y"))]);
        ExprStmt (Call (Attribute (Name "plt") "xlabel") [Str "Sepal length"]
            []);
        ExprStmt (Call (Attribute (Name "plt") "ylabel") [Str "Sepal width"]
            []);
        ExprStmt (Call (Attribute (Name "plt") "xlim")
            [Call (Attribute (Name "xx") "min") [] [];
            Call (Attribute (Name "xx") "max") [] []] []);
        ExprStmt (Call (Attribute (Name "plt") "ylim")
            [Call (Attribute (Name "yy") "min") [] [];
            Call (Attribute (Name "yy") "max") [] []] []);
        ExprStmt (Call (Attribute (Name "plt") "xticks") [TupleE []] []);
        ExprStmt (Call (Attribute (Name "plt") "yticks") [TupleE []] []);
        ExprStmt (Call (Attribute (Name "plt") "title")
            [BinOp (Str "%s, LML: %.3f")
            Mod (TupleE [Subscript (Name "titles") (Name "i");
            Call (Attribute (Name "clf") "log_marginal_likelihood")
            [Attribute (Attribute (Name "clf") "kernel_") "theta"] []])] []) ];
    (* plt.tight_layout() *)
    ExprStmt (Call (Attribute (Name "plt") "tight_layout") [] []);
    (* plt.show() *)
    ExprStmt (Call (Attribute (Name "plt") "show") [] [])
  ].

(** The code block of the page [plot_feature_stacker] ([unnamed/part_000]). *)
Definition plot_feature_stacker_body : list stmt :=
  [
    (* from sklearn.pipeline import Pipeline, FeatureUnion *)
    ImportFrom "sklearn.pipeline" [("Pipeline", None); ("FeatureUnion", None)];
    (* from sklearn.model_selection import GridSearchCV *)
    ImportFrom "sklearn.model_selection" [("GridSearchCV", None)];
    (* from sklearn.svm import SVC *)
    ImportFrom "sklearn.svm" [("SVC", None)];
    (* from sklearn.datasets import load_iris *)
    ImportFrom "sklearn.datasets" [("load_iris", None)];
    (* from sklearn.decomposition import PCA *)
    ImportFrom "sklearn.decomposition" [("PCA", None)];
    (* from sklearn.feature_selection import SelectKBest *)
    ImportFrom "sklearn.feature_selection" [("SelectKBest", None)];
    (* iris = load_iris() *)
    Assign [Name "iris"] (Call (Name "load_iris") [] []);
    (* X, y = iris.data, iris.target *)
    Assign [TupleE [Name "X"; Name "y"]] (TupleE [Attribute (Name "iris")
        "data"; Attribute (Name "iris") "target"]);
    (* pca = PCA(n_components=2) *)
    Assign [Name "pca"] (Call (Name "PCA") [] [("n_components", Num "2")]);
    (* selection = SelectKBest(k=1) *)
    Assign [Name "selection"] (Call (Name "SelectKBest") [] [("k", Num "1")]);
    (* combined_features = FeatureUnion([('pca', pca), ('univ_select', selection)]) *)
    Assign [Name "combined_features"] (Call (Name "FeatureUnion")
        [ListE [TupleE [Str "pca"; Name "pca"]; TupleE [Str "univ_select";
        Name "selection"]]] []);
    (* X_features = combined_features.fit(X, y).transform(X) *)
    Assign [Name "X_features"]
        (Call (Attribute (Call (Attribute (Name "combined_features") "fit")
        [Name "X"; Name "y"] []) "transform") [Name "X"] []);
    (* svm = SVC(kernel='linear') *)
    Assign [Name "svm"] (Call (Name "SVC") [] [("kernel", Str "linear")]);
    (* pipeline = Pipeline([('features', combined_features), ('svm', svm)]) *)
    Assign [Name "pipeline"] (Call (Name "Pipeline")
        [ListE [TupleE [Str "features"; Name "combined_features"];
        TupleE [Str "svm"; Name "svm"]]] []);
    (* param_grid = dict(features__pca__n_components=[1, 2, 3], *)
    Assign [Name "param_grid"] (Call (Name "dict") []
        [("features__pca__n_components", ListE [Num "1"; Num "2"; Num "3"]);
        ("features__univ_select__k", ListE [Num "1"; Num "2"]); ("svm__C",
        ListE [Num "0.1"; Num "1"; Num "10"])]);
    (* grid_search = GridSearchCV(pipeline, param_grid=param_grid, verbose=10) *)
    Assign [Name "grid_search"] (Call (Name "GridSearchCV") [Name "pipeline"]
        [("param_grid", Name "param_grid"); ("verbose", Num "10")]);
    (* grid_search.fit(X, y) *)
    ExprStmt (Call (Attribute (Name "grid_search") "fit") [Name "X";
        Name "y"] []);
    (* print(grid_search.best_estimator_) *)
    ExprStmt (Call (Name "print") [Attribute (Name "grid_search")
        "best_estimator_"] [])
  ].

(** The imputation notebook ([unnamed/part_001]). *)
Definition plot_missing_values_body : list stmt :=
  [
    (* %matplotlib inline *)
    Magic "matplotlib inline";
    (* import numpy as np *)
    Import "numpy" (Some "np");
    (* import matplotlib.pyplot as plt *)
    Import "matplotlib.pyplot" (Some "plt");
    (* from sklearn.datasets import load_diabetes *)
    ImportFrom "sklearn.datasets" [("load_diabetes", None)];
    (* from sklearn.datasets import load_boston *)
    ImportFrom "sklearn.datasets" [("load_boston", None)];
    (* from sklearn.ensemble import RandomForestRegressor *)
    ImportFrom "sklearn.ensemble" [("RandomForestRegressor", None)];
    (* from sklearn.pipeline import make_pipeline, make_union *)
    ImportFrom "sklearn.pipeline" [("make_pipeline", None); ("make_union",
        None)];
    (* from sklearn.impute import SimpleImputer, MissingIndicator *)
    ImportFrom "sklearn.impute" [("SimpleImputer", None);
        ("MissingIndicator", None)];
    (* from sklearn.model_selection import cross_val_score *)
    ImportFrom "sklearn.model_selection" [("cross_val_score", None)];
    (* rng = np.random.RandomState(0) *)
    Assign [Name "rng"] (Call (Attribute (Attribute (Name "np") "random")
        "RandomState") [Num "0"] []);
    (* def get_results(dataset): *)
    FunctionDef "get_results" ["dataset"]
      [ Assign [TupleE [Name "X_full"; Name "y_full"]]
          (TupleE [Attribute (Name "dataset") "data";
          Attribute (Name "dataset") "target"]);
        Assign [Name "n_samples"] (Subscript (Attribute (Name "X_full")
            "shape") (Num "0"));
        Assign [Name "n_features"] (Subscript (Attribute (Name "X_full")
            "shape") (Num "1"));
        Assign [Name "estimator"] (Call (Name "RandomForestRegressor") []
            [("random_state", Num "0"); ("n_estimators", Num "100")]);
        Assign [Name "full_scores"] (Call (Name "cross_val_score")
            [Name "estimator"; Name "X_full"; Name "y_full"] [("scoring",
            Str "neg_mean_squared_error")]);
        Assign [Name "missing_rate"] (Num "0.75");
        Assign [Name "n_missing_samples"] (Call (Name "int")
            [Call (Attribute (Name "np") "floor") [BinOp (Name "n_samples")
            Mult (Name "missing_rate")] []] []);
        Assign [Name "missing_samples"] (Call (Attribute (Name "np")
            "hstack") [TupleE [Call (Attribute (Name "np") "zeros")
            [BinOp (Name "n_samples") Sub (Name "n_missing_samples")]
            [("dtype", Attribute (Name "np") "bool")];
            Call (Attribute (Name "np") "ones") [Name "n_missing_samples"]
            [("dtype", Attribute (Name "np") "bool")]]] []);
        ExprStmt (Call (Attribute (Name "rng") "shuffle")
            [Name "missing_samples"] []);
        Assign [Name "missing_features"] (Call (Attribute (Name "rng")
            "randint") [Num "0"; Name "n_features"; Name "n_missing_samples"]
            []);
        Assign [Name "X_missing"] (Call (Attribute (Name "X_full") "copy") []
            []);
        Assign [Subscript (Name "X_missing")
            (TupleE [Subscript (Call (Attribute (Name "np") "where")
            [Name "missing_samples"] []) (Num "0");
            Name "missing_features"])] (Num "0");
        Assign [Name "y_missing"] (Call (Attribute (Name "y_full") "copy") []
            []);
        Assign [Name "estimator"] (Call (Name "RandomForestRegressor") []
            [("random_state", Num "0"); ("n_estimators", Num "100")]);
        Assign [Name "zero_impute_scores"] (Call (Name "cross_val_score")
            [Name "estimator"; Name "X_missing"; Name "y_missing"]
            [("scoring", Str "neg_mean_squared_error")]);
        Assign [Name "X_missing"] (Call (Attribute (Name "X_full") "copy") []
            []);
        Assign [Subscript (Name "X_missing")
            (TupleE [Subscript (Call (Attribute (Name "np") "where")
            [Name "missing_samples"] []) (Num "0");
            Name "missing_features"])] (Num "0");
        Assign [Name "y_missing"] (Call (Attribute (Name "y_full") "copy") []
            []);
        Assign [Name "estimator"] (Call (Name "make_pipeline")
            [Call (Name "make_union") [Call (Name "SimpleImputer") []
            [("missing_values", Num "0"); ("strategy", Str "mean")];
            Call (Name "MissingIndicator") [] [("missing_values", Num "0")]]
            []; Call (Name "RandomForestRegressor") [] [("random_state",
            Num "0"); ("n_estimators", Num "100")]] []);
        Assign [Name "mean_impute_scores"] (Call (Name "cross_val_score")
            [Name "estimator"; Name "X_missing"; Name "y_missing"]
            [("scoring", Str "neg_mean_squared_error")]);
        Return (Some (TupleE [TupleE [Call (Attribute (Name "full_scores")
            "mean") [] []; Call (Attribute (Name "full_scores") "std") []
            []]; TupleE [Call (Attribute (Name "zero_impute_scores") "mean")
            [] []; Call (Attribute (Name "zero_impute_scores") "std") [] []];
            TupleE [Call (Attribute (Name "mean_impute_scores") "mean") []
            []; Call (Attribute (Name "mean_impute_scores") "std") [] []]])) ];
    (* results_diabetes = np.array(get_results(load_diabetes())) *)
    Assign [Name "results_diabetes"] (Call (Attribute (Name "np") "array")
        [Call (Name "get_results") [Call (Name "load_diabetes") [] []] []] []);
    (* mses_diabetes = results_diabetes[:, 0] * -1 *)
    Assign [Name "mses_diabetes"] (BinOp (Subscript (Name "results_diabetes")
        (TupleE [Slice None None None; Num "0"]))
        Mult (UnaryOp USub (Num "1")));
    (* stds_diabetes = results_diabetes[:, 1] *)
    Assign [Name "stds_diabetes"] (Subscript (Name "results_diabetes")
        (TupleE [Slice None None None; Num "1"]));
    (* results_boston = np.array(get_results(load_boston())) *)
    Assign [Name "results_boston"] (Call (Attribute (Name "np") "array")
        [Call (Name "get_results") [Call (Name "load_boston") [] []] []] []);
    (* mses_boston = results_boston[:, 0] * -1 *)
    Assign [Name "mses_boston"] (BinOp (Subscript (Name "results_boston")
        (TupleE [Slice None None None; Num "0"]))
        Mult (UnaryOp USub (Num "1")));
    (* stds_boston = results_boston[:, 1] *)
    Assign [Name "stds_boston"] (Subscript (Name "results_boston")
        (TupleE [Slice None None None; Num "1"]));
    (* n_bars = len(mses_diabetes) *)
    Assign [Name "n_bars"] (Call (Name "len") [Name "mses_diabetes"] []);
    (* xval = np.arange(n_bars) *)
    Assign [Name "xval"] (Call (Attribute (Name "np") "arange")
        [Name "n_bars"] []);
    (* x_labels = ['Full data', *)
    Assign [Name "x_labels"] (ListE [Str "Full data"; Str "Zero imputation";
        Str "Mean Imputation"]);
    (* colors = ['r', 'g', 'b', 'orange'] *)
    Assign [Name "colors"] (ListE [Str "r"; Str "g"; Str "b"; Str "orange"]);
    (* plt.figure(figsize=(12, 6)) *)
    ExprStmt (Call (Attribute (Name "plt") "figure") [] [("figsize",
        TupleE [Num "12"; Num "6"])]);
    (* ax1 = plt.subplot(121) *)
    Assign [Name "ax1"] (Call (Attribute (Name "plt") "subplot") [Num "121"]
        []);
    (* for j in xval: *)
    For (Name "j") (Name "xval")
      [ ExprStmt (Call (Attribute (Name "ax1") "barh") [Name "j";
          Subscript (Name "mses_diabetes") (Name "j")] [("xerr",
          Subscript (Name "stds_diabetes") (Name "j")); ("color",
          Subscript (Name "colors") (Name "j")); ("alpha", Num "0.6");
          ("align", Str "center")]) ];
    (* ax1.set_title('Imputation Techniques with Diabetes Data') *)
    ExprStmt (Call (Attribute (Name "ax1") "set_title")
        [Str "Imputation Techniques with Diabetes Data"] []);
    (* ax1.set_xlim(left=np.min(mses_diabetes) * 0.9, *)
    ExprStmt (Call (Attribute (Name "ax1") "set_xlim") [] [("left",
        BinOp (Call (Attribute (Name "np") "min") [Name "mses_diabetes"] [])
        Mult (Num "0.9")); ("right", BinOp (Call (Attribute (Name "np")
        "max") [Name "mses_diabetes"] []) Mult (Num "1.1"))]);
    (* ax1.set_yticks(xval) *)
    ExprStmt (Call (Attribute (Name "ax1") "set_yticks") [Name "xval"] []);
    (* ax1.set_xlabel('MSE') *)
    ExprStmt (Call (Attribute (Name "ax1") "set_xlabel") [Str "MSE"] []);
    (* ax1.invert_yaxis() *)
    ExprStmt (Call (Attribute (Name "ax1") "invert_yaxis") [] []);
    (* ax1.set_yticklabels(x_labels) *)
    ExprStmt (Call (Attribute (Name "ax1") "set_yticklabels")
        [Name "x_labels"] []);
    (* ax2 = plt.subplot(122) *)
    Assign [Name "ax2"] (Call (Attribute (Name "plt") "subplot") [Num "122"]
        []);
    (* for j in xval: *)
    For (Name "j") (Name "xval")
      [ ExprStmt (Call (Attribute (Name "ax2") "barh") [Name "j";
          Subscript (Name "mses_boston") (Name "j")] [("xerr",
          Subscript (Name "stds_boston") (Name "j")); ("color",
          Subscript (Name "colors") (Name "j")); ("alpha", Num "0.6");
          ("align", Str "center")]) ];
    (* ax2.set_title('Imputation Techniques with Boston Data') *)
    ExprStmt (Call (Attribute (Name "ax2") "set_title")
        [Str "Imputation Techniques with Boston Data"] []);
    (* ax2.set_yticks(xval) *)
    ExprStmt (Call (Attribute (Name "ax2") "set_yticks") [Name "xval"] []);
    (* ax2.set_xlabel('MSE') *)
    ExprStmt (Call (Attribute (Name "ax2") "set_xlabel") [Str "MSE"] []);
    (* ax2.invert_yaxis() *)
    ExprStmt (Call (Attribute (Name "ax2") "invert_yaxis") [] []);
    (* ax2.set_yticklabels([''] * n_bars) *)
    ExprStmt (Call (Attribute (Name "ax2") "set_yticklabels")
        [BinOp (ListE [Str EmptyString]) Mult (Name "n_bars")] []);
    (* plt.show() *)
    ExprStmt (Call (Attribute (Name "plt") "show") [] [])
  ].

(** The three code blocks of the page
    [0.19/_sources/auto_examples/plot_compare_reduction.rst.txt], in page order. *)
Definition plot_compare_reduction_body : list stmt :=
  [
    (* from __future__ import print_function, division *)
    ImportFrom "__future__" [("print_function", None); ("division", None)];
    (* import numpy as np *)
    Import "numpy" (Some "np");
    (* import matplotlib.pyplot as plt *)
    Import "matplotlib.pyplot" (Some "plt");
    (* from sklearn.datasets import load_digits *)
    ImportFrom "sklearn.datasets" [("load_digits", None)];
    (* from sklearn.model_selection import GridSearchCV *)
    ImportFrom "sklearn.model_selection" [("GridSearchCV", None)];
    (* from sklearn.pipeline import Pipeline *)
    ImportFrom "sklearn.pipeline" [("Pipeline", None)];
    (* from sklearn.svm import LinearSVC *)
    ImportFrom "sklearn.svm" [("LinearSVC", None)];
    (* from sklearn.decomposition import PCA, NMF *)
    ImportFrom "sklearn.decomposition" [("PCA", None); ("NMF", None)];
    (* from sklearn.feature_selection import SelectKBest, chi2 *)
    ImportFrom "sklearn.feature_selection" [("SelectKBest", None); ("chi2",
        None)];
    (* print(__doc__) *)
    ExprStmt (Call (Name "print") [Name "__doc__"] []);
    (* pipe = Pipeline([ *)
    Assign [Name "pipe"] (Call (Name "Pipeline")
        [ListE [TupleE [Str "reduce_dim"; Call (Name "PCA") [] []];
        TupleE [Str "classify"; Call (Name "LinearSVC") [] []]]] []);
    (* N_FEATURES_OPTIONS = [2, 4, 8] *)
    Assign [Name "N_FEATURES_OPTIONS"] (ListE [Num "2"; Num "4"; Num "8"]);
    (* C_OPTIONS = [1, 10, 100, 1000] *)
    Assign [Name "C_OPTIONS"] (ListE [Num "1"; Num "10"; Num "100";
        Num "1000"]);
    (* param_grid = [ *)
    Assign [Name "param_grid"] (ListE [DictE [(Str "reduce_dim",
        ListE [Call (Name "PCA") [] [("iterated_power", Num "7")];
        Call (Name "NMF") [] []]); (Str "reduce_dim__n_components",
        Name "N_FEATURES_OPTIONS"); (Str "classify__C", Name "C_OPTIONS")];
        DictE [(Str "reduce_dim", ListE [Call (Name "SelectKBest")
        [Name "chi2"] []]); (Str "reduce_dim__k", Name "N_FEATURES_OPTIONS");
        (Str "classify__C", Name "C_OPTIONS")]]);
    (* reducer_labels = ['PCA', 'NMF', 'KBest(chi2)'] *)
    Assign [Name "reducer_labels"] (ListE [Str "PCA"; Str "NMF";
        Str "KBest(chi2)"]);
    (* grid = GridSearchCV(pipe, cv=3, n_jobs=1, param_grid=param_grid) *)
    Assign [Name "grid"] (Call (Name "GridSearchCV") [Name "pipe"] [("cv",
        Num "3"); ("n_jobs", Num "1"); ("param_grid", Name "param_grid")]);
    (* digits = load_digits() *)
    Assign [Name "digits"] (Call (Name "load_digits") [] []);
    (* grid.fit(digits.data, digits.target) *)
    ExprStmt (Call (Attribute (Name "grid") "fit") [Attribute (Name "digits")
        "data"; Attribute (Name "digits") "target"] []);
    (* mean_scores = np.array(grid.cv_results_['mean_test_score']) *)
    Assign [Name "mean_scores"] (Call (Attribute (Name "np") "array")
        [Subscript (Attribute (Name "grid") "cv_results_")
        (Str "mean_test_score")] []);
    (* mean_scores = mean_scores.reshape(len(C_OPTIONS), -1, len(N_FEATURES_OPTIONS)) *)
    Assign [Name "mean_scores"] (Call (Attribute (Name "mean_scores")
        "reshape") [Call (Name "len") [Name "C_OPTIONS"] [];
        UnaryOp USub (Num "1"); Call (Name "len") [Name "N_FEATURES_OPTIONS"]
        []] []);
    (* mean_scores = mean_scores.max(axis=0) *)
    Assign [Name "mean_scores"] (Call (Attribute (Name "mean_scores") "max")
        [] [("axis", Num "0")]);
    (* bar_offsets = (np.arange(len(N_FEATURES_OPTIONS)) * *)
    Assign [Name "bar_offsets"] (BinOp (BinOp (Call (Attribute (Name "np")
        "arange") [Call (Name "len") [Name "N_FEATURES_OPTIONS"] []] [])
        Mult (BinOp (Call (Name "len") [Name "reducer_labels"] [])
        Add (Num "1"))) Add (Num ".5"));
    (* plt.figure() *)
    ExprStmt (Call (Attribute (Name "plt") "figure") [] []);
    (* COLORS = 'bgrcmyk' *)
    Assign [Name "COLORS"] (Str "bgrcmyk");
    (* for i, (label, reducer_scores) in enumerate(zip(reducer_labels, mean_scores)): *)
    For (TupleE [Name "i"; TupleE [Name "label"; Name "reducer_scores"]])
        (Call (Name "enumerate") [Call (Name "zip") [Name "reducer_labels";
        Name "mean_scores"] []] [])
      [ ExprStmt (Call (Attribute (Name "plt") "bar")
          [BinOp (Name "bar_offsets") Add (Name "i"); Name "reducer_scores"]
          [("label", Name "label"); ("color", Subscript (Name "COLORS")
          (Name "i"))]) ];
    (* plt.title('Comparing feature reduction techniques') *)
    ExprStmt (Call (Attribute (Name "plt") "title")
        [Str "Comparing feature reduction techniques"] []);
    (* plt.xlabel('Reduced number of features') *)
    ExprStmt (Call (Attribute (Name "plt") "xlabel")
        [Str "Reduced number of features"] []);
    (* plt.xticks(bar_offsets + len(reducer_labels) / 2, N_FEATURES_OPTIONS) *)
    ExprStmt (Call (Attribute (Name "plt") "xticks")
        [BinOp (Name "bar_offsets") Add (BinOp (Call (Name "len")
        [Name "reducer_labels"] []) Div (Num "2"));
        Name "N_FEATURES_OPTIONS"] []);
    (* plt.ylabel('Digit classification accuracy') *)
    ExprStmt (Call (Attribute (Name "plt") "ylabel")
        [Str "Digit classification accuracy"] []);
    (* plt.ylim((0, 1)) *)
    ExprStmt (Call (Attribute (Name "plt") "ylim") [TupleE [Num "0";
        Num "1"]] []);
    (* plt.legend(loc='upper left') *)
    ExprStmt (Call (Attribute (Name "plt") "legend") [] [("loc",
        Str "upper left")]);
    (* from tempfile import mkdtemp *)
    ImportFrom "tempfile" [("mkdtemp", None)];
    (* from shutil import rmtree *)
    ImportFrom "shutil" [("rmtree", None)];
    (* from sklearn.externals.joblib import Memory *)
    ImportFrom "sklearn.externals.joblib" [("Memory", None)];
    (* cachedir = mkdtemp() *)
    Assign [Name "cachedir"] (Call (Name "mkdtemp") [] []);
    (* memory = Memory(cachedir=cachedir, verbose=10) *)
    Assign [Name "memory"] (Call (Name "Memory") [] [("cachedir",
        Name "cachedir"); ("verbose", Num "10")]);
    (* cached_pipe = Pipeline([('reduce_dim', PCA()), *)
    Assign [Name "cached_pipe"] (Call (Name "Pipeline")
        [ListE [TupleE [Str "reduce_dim"; Call (Name "PCA") [] []];
        TupleE [Str "classify"; Call (Name "LinearSVC") [] []]]] [("memory",
        Name "memory")]);
    (* grid = GridSearchCV(cached_pipe, cv=3, n_jobs=1, param_grid=param_grid) *)
    Assign [Name "grid"] (Call (Name "GridSearchCV") [Name "cached_pipe"]
        [("cv", Num "3"); ("n_jobs", Num "1"); ("param_grid",
        Name "param_grid")]);
    (* digits = load_digits() *)
    Assign [Name "digits"] (Call (Name "load_digits") [] []);
    (* grid.fit(digits.data, digits.target) *)
    ExprStmt (Call (Attribute (Name "grid") "fit") [Attribute (Name "digits")
        "data"; Attribute (Name "digits") "target"] []);
    (* rmtree(cachedir) *)
    ExprStmt (Call (Name "rmtree") [Name "cachedir"] []);
    (* plt.show() *)
    ExprStmt (Call (Attribute (Name "plt") "show") [] [])
  ].

(** The OPTICS notebook stored after that page in the same file. *)
Definition plot_optics_body : list stmt :=
  [
    (* %matplotlib inline *)
    Magic "matplotlib inline";
    (* from sklearn.cluster import OPTICS *)
    ImportFrom "sklearn.cluster" [("OPTICS", None)];
    (* import matplotlib.gridspec as gridspec *)
    Import "matplotlib.gridspec" (Some "gridspec");
    (* import numpy as np *)
    Import "numpy" (Some "np");
    (* import matplotlib.pyplot as plt *)
    Import "matplotlib.pyplot" (Some "plt");
    (* np.random.seed(0) *)
    ExprStmt (Call (Attribute (Attribute (Name "np") "random") "seed")
        [Num "0"] []);
    (* n_points_per_cluster = 250 *)
    Assign [Name "n_points_per_cluster"] (Num "250");
    (* C1 = [-5, -2] + .8 * np.random.randn(n_points_per_cluster, 2) *)
    Assign [Name "C1"] (BinOp (ListE [UnaryOp USub (Num "5");
        UnaryOp USub (Num "2")]) Add (BinOp (Num ".8")
        Mult (Call (Attribute (Attribute (Name "np") "random") "randn")
        [Name "n_points_per_cluster"; Num "2"] [])));
    (* C2 = [4, -1] + .1 * np.random.randn(n_points_per_cluster, 2) *)
    Assign [Name "C2"] (BinOp (ListE [Num "4"; UnaryOp USub (Num "1")])
        Add (BinOp (Num ".1") Mult (Call (Attribute (Attribute (Name "np")
        "random") "randn") [Name "n_points_per_cluster"; Num "2"] [])));
    (* C3 = [1, -2] + .2 * np.random.randn(n_points_per_cluster, 2) *)
    Assign [Name "C3"] (BinOp (ListE [Num "1"; UnaryOp USub (Num "2")])
        Add (BinOp (Num ".2") Mult (Call (Attribute (Attribute (Name "np")
        "random") "randn") [Name "n_points_per_cluster"; Num "2"] [])));
    (* C4 = [-2, 3] + .3 * np.random.randn(n_points_per_cluster, 2) *)
    Assign [Name "C4"] (BinOp (ListE [UnaryOp USub (Num "2"); Num "3"])
        Add (BinOp (Num ".3") Mult (Call (Attribute (Attribute (Name "np")
        "random") "randn") [Name "n_points_per_cluster"; Num "2"] [])));
    (* C5 = [3, -2] + 1.6 * np.random.randn(n_points_per_cluster, 2) *)
    Assign [Name "C5"] (BinOp (ListE [Num "3"; UnaryOp USub (Num "2")])
        Add (BinOp (Num "1.6") Mult (Call (Attribute (Attribute (Name "np")
        "random") "randn") [Name "n_points_per_cluster"; Num "2"] [])));
    (* C6 = [5, 6] + 2 * np.random.randn(n_points_per_cluster, 2) *)
    Assign [Name "C6"] (BinOp (ListE [Num "5"; Num "6"]) Add (BinOp (Num "2")
        Mult (Call (Attribute (Attribute (Name "np") "random") "randn")
        [Name "n_points_per_cluster"; Num "2"] [])));
    (* X = np.vstack((C1, C2, C3, C4, C5, C6)) *)
    Assign [Name "X"] (Call (Attribute (Name "np") "vstack")
        [TupleE [Name "C1"; Name "C2"; Name "C3"; Name "C4"; Name "C5";
        Name "C6"]] []);
    (* clust = OPTICS(min_samples=9, rejection_ratio=0.5) *)
    Assign [Name "clust"] (Call (Name "OPTICS") [] [("min_samples", Num "9");
        ("rejection_ratio", Num "0.5")]);
    (* clust.fit(X) *)
    ExprStmt (Call (Attribute (Name "clust") "fit") [Name "X"] []);
    (* _, labels_025 = clust.extract_dbscan(0.25) *)
    Assign [TupleE [Name "_"; Name "labels_025"]]
        (Call (Attribute (Name "clust") "extract_dbscan") [Num "0.25"] []);
    (* _, labels_075 = clust.extract_dbscan(0.75) *)
    Assign [TupleE [Name "_"; Name "labels_075"]]
        (Call (Attribute (Name "clust") "extract_dbscan") [Num "0.75"] []);
    (* space = np.arange(len(X)) *)
    Assign [Name "space"] (Call (Attribute (Name "np") "arange")
        [Call (Name "len") [Name "X"] []] []);
    (* reachability = clust.reachability_[clust.ordering_] *)
    Assign [Name "reachability"] (Subscript (Attribute (Name "clust")
        "reachability_") (Attribute (Name "clust") "ordering_"));
    (* labels = clust.labels_[clust.ordering_] *)
    Assign [Name "labels"] (Subscript (Attribute (Name "clust") "labels_")
        (Attribute (Name "clust") "ordering_"));
    (* plt.figure(figsize=(10, 7)) *)
    ExprStmt (Call (Attribute (Name "plt") "figure") [] [("figsize",
        TupleE [Num "10"; Num "7"])]);
    (* G = gridspec.GridSpec(2, 3) *)
    Assign [Name "G"] (Call (Attribute (Name "gridspec") "GridSpec")
        [Num "2"; Num "3"] []);
    (* ax1 = plt.subplot(G[0, :]) *)
    Assign [Name "ax1"] (Call (Attribute (Name "plt") "subplot")
        [Subscript (Name "G") (TupleE [Num "0"; Slice None None None])] []);
    (* ax2 = plt.subplot(G[1, 0]) *)
    Assign [Name "ax2"] (Call (Attribute (Name "plt") "subplot")
        [Subscript (Name "G") (TupleE [Num "1"; Num "0"])] []);
    (* ax3 = plt.subplot(G[1, 1]) *)
    Assign [Name "ax3"] (Call (Attribute (Name "plt") "subplot")
        [Subscript (Name "G") (TupleE [Num "1"; Num "1"])] []);
    (* ax4 = plt.subplot(G[1, 2]) *)
    Assign [Name "ax4"] (Call (Attribute (Name "plt") "subplot")
        [Subscript (Name "G") (TupleE [Num "1"; Num "2"])] []);
    (* color = ['g.', 'r.', 'b.', 'y.', 'c.'] *)
    Assign [Name "color"] (ListE [Str "g."; Str "r."; Str "b."; Str "y.";
        Str "c."]);
    (* for k, c in zip(range(0, 5), color): *)
    For (TupleE [Name "k"; Name "c"]) (Call (Name "zip") [Call (Name "range")
        [Num "0"; Num "5"] []; Name "color"] [])
      [ Assign [Name "Xk"] (Subscript (Name "space") (Compare (Name "labels")
          CmpEq (Name "k")));
        Assign [Name "Rk"] (Subscript (Name "reachability")
            (Compare (Name "labels") CmpEq (Name "k")));
        ExprStmt (Call (Attribute (Name "ax1") "plot") [Name "Xk"; Name "Rk";
            Name "c"] [("alpha", Num "0.3")]) ];
    (* ax1.plot(space[labels == -1], reachability[labels == -1], 'k.', alpha=0.3) *)
    ExprStmt (Call (Attribute (Name "ax1") "plot") [Subscript (Name "space")
        (Compare (Name "labels") CmpEq (UnaryOp USub (Num "1")));
        Subscript (Name "reachability") (Compare (Name "labels")
        CmpEq (UnaryOp USub (Num "1"))); Str "k."] [("alpha", Num "0.3")]);
    (* ax1.plot(space, np.full_like(space, 0.75), 'k-', alpha=0.5) *)
    ExprStmt (Call (Attribute (Name "ax1") "plot") [Name "space";
        Call (Attribute (Name "np") "full_like") [Name "space"; Num "0.75"]
        []; Str "k-"] [("alpha", Num "0.5")]);
    (* ax1.plot(space, np.full_like(space, 0.25), 'k-.', alpha=0.5) *)
    ExprStmt (Call (Attribute (Name "ax1") "plot") [Name "space";
        Call (Attribute (Name "np") "full_like") [Name "space"; Num "0.25"]
        []; Str "k-."] [("alpha", Num "0.5")]);
    (* ax1.set_ylabel('Reachability (epsilon distance)') *)
    ExprStmt (Call (Attribute (Name "ax1") "set_ylabel")
        [Str "Reachability (epsilon distance)"] []);
    (* ax1.set_title('Reachability Plot') *)
    ExprStmt (Call (Attribute (Name "ax1") "set_title")
        [Str "Reachability Plot"] []);
    (* color = ['g.', 'r.', 'b.', 'y.', 'c.'] *)
    Assign [Name "color"] (ListE [Str "g."; Str "r."; Str "b."; Str "y.";
        Str "c."]);
    (* for k, c in zip(range(0, 5), color): *)
    For (TupleE [Name "k"; Name "c"]) (Call (Name "zip") [Call (Name "range")
        [Num "0"; Num "5"] []; Name "color"] [])
      [ Assign [Name "Xk"] (Subscript (Name "X")
          (Compare (Attribute (Name "clust") "labels_") CmpEq (Name "k")));
        ExprStmt (Call (Attribute (Name "ax2") "plot") [Subscript (Name "Xk")
            (TupleE [Slice None None None; Num "0"]); Subscript (Name "Xk")
            (TupleE [Slice None None None; Num "1"]); Name "c"] [("alpha",
            Num "0.3")]) ];
    (* ax2.plot(X[clust.labels_ == -1, 0], X[clust.labels_ == -1, 1], 'k+', alpha=0.1) *)
    ExprStmt (Call (Attribute (Name "ax2") "plot") [Subscript (Name "X")
        (TupleE [Compare (Attribute (Name "clust") "labels_")
        CmpEq (UnaryOp USub (Num "1")); Num "0"]); Subscript (Name "X")
        (TupleE [Compare (Attribute (Name "clust") "labels_")
        CmpEq (UnaryOp USub (Num "1")); Num "1"]); Str "k+"] [("alpha",
        Num "0.1")]);
    (* ax2.set_title('Automatic Clustering\nOPTICS') *)
    ExprStmt (Call (Attribute (Name "ax2") "set_title")
        [Str ("Automatic Clustering" +:+ nl +:+ "OPTICS")] []);
    (* color = ['g', 'greenyellow', 'olive', 'r', 'b', 'c'] *)
    Assign [Name "color"] (ListE [Str "g"; Str "greenyellow"; Str "olive";
        Str "r"; Str "b"; Str "c"]);
    (* for k, c in zip(range(0, 6), color): *)
    For (TupleE [Name "k"; Name "c"]) (Call (Name "zip") [Call (Name "range")
        [Num "0"; Num "6"] []; Name "color"] [])
      [ Assign [Name "Xk"] (Subscript (Name "X") (Compare (Name "labels_025")
          CmpEq (Name "k")));
        ExprStmt (Call (Attribute (Name "ax3") "plot") [Subscript (Name "Xk")
            (TupleE [Slice None None None; Num "0"]); Subscript (Name "Xk")
            (TupleE [Slice None None None; Num "1"]); Name "c"] [("alpha",
            Num "0.3"); ("marker", Str ".")]) ];
    (* ax3.plot(X[labels_025 == -1, 0], X[labels_025 == -1, 1], 'k+', alpha=0.1) *)
    ExprStmt (Call (Attribute (Name "ax3") "plot") [Subscript (Name "X")
        (TupleE [Compare (Name "labels_025") CmpEq (UnaryOp USub (Num "1"));
        Num "0"]); Subscript (Name "X") (TupleE [Compare (Name "labels_025")
        CmpEq (UnaryOp USub (Num "1")); Num "1"]); Str "k+"] [("alpha",
        Num "0.1")]);
    (* ax3.set_title('Clustering at 0.25 epsilon cut\nDBSCAN') *)
    ExprStmt (Call (Attribute (Name "ax3") "set_title")
        [Str ("Clustering at 0.25 epsilon cut" +:+ nl +:+ "DBSCAN")] []);
    (* color = ['g.', 'm.', 'y.', 'c.'] *)
    Assign [Name "color"] (ListE [Str "g."; Str "m."; Str "y."; Str "c."]);
    (* for k, c in zip(range(0, 4), color): *)
    For (TupleE [Name "k"; Name "c"]) (Call (Name "zip") [Call (Name "range")
        [Num "0"; Num "4"] []; Name "color"] [])
      [ Assign [Name "Xk"] (Subscript (Name "X") (Compare (Name "labels_075")
          CmpEq (Name "k")));
        ExprStmt (Call (Attribute (Name "ax4") "plot") [Subscript (Name "Xk")
            (TupleE [Slice None None None; Num "0"]); Subscript (Name "Xk")
            (TupleE [Slice None None None; Num "1"]); Name "c"] [("alpha",
            Num "0.3")]) ];
    (* ax4.plot(X[labels_075 == -1, 0], X[labels_075 == -1, 1], 'k+', alpha=0.1) *)
    ExprStmt (Call (Attribute (Name "ax4") "plot") [Subscript (Name "X")
        (TupleE [Compare (Name "labels_075") CmpEq (UnaryOp USub (Num "1"));
        Num "0"]); Subscript (Name "X") (TupleE [Compare (Name "labels_075")
        CmpEq (UnaryOp USub (Num "1")); Num "1"]); Str "k+"] [("alpha",
        Num "0.1")]);
    (* ax4.set_title('Clustering at 0.75 epsilon cut\nDBSCAN') *)
    ExprStmt (Call (Attribute (Name "ax4") "set_title")
        [Str ("Clustering at 0.75 epsilon cut" +:+ nl +:+ "DBSCAN")] []);
    (* plt.tight_layout() *)
    ExprStmt (Call (Attribute (Name "plt") "tight_layout") [] []);
    (* plt.show() *)
    ExprStmt (Call (Attribute (Name "plt") "show") [] [])
  ].

Definition plot_gpc_isoprobability : script :=
  Script "plot_gpc_isoprobability" plot_gpc_isoprobability_body.
Definition plot_gpc_iris : script :=
  Script "plot_gpc_iris" plot_gpc_iris_body.
Definition plot_feature_stacker : script :=
  Script "plot_feature_stacker" plot_feature_stacker_body.
Definition plot_missing_values : script :=
  Script "plot_missing_values" plot_missing_values_body.
Definition plot_compare_reduction : script :=
  Script "plot_compare_reduction" plot_compare_reduction_body.
Definition plot_optics : script :=
  Script "plot_optics" plot_optics_body.

(** Every script whose code the sources contain. *)
Definition scripts : list script :=
  [ plot_gpc_isoprobability; plot_gpc_iris; plot_feature_stacker;
    plot_missing_values; plot_compare_reduction; plot_optics ].

End Scripts.

(** ** Syntactic analyses *)

Module Analysis.
Import Syntax.

Definition opt_nodes {A B} (f : A -> list B) (o : option A) : list B :=
  match o with Some a => f a | None => [] end.

(** Every node of an expression, the expression itself first. *)
Fixpoint expr_nodes (e : expr) : list expr :=
  e ::
  match e with
  | Name _ | Num _ | Str _ => []
  | Attribute v _ => expr_nodes v
  | Call f args kws =>
      expr_nodes f ++ flat_map expr_nodes args
        ++ flat_map (fun kv => expr_nodes (snd kv)) kws
  | Subscript v i => expr_nodes v ++ expr_nodes i
  | Slice a b c =>
      opt_nodes expr_nodes a ++ opt_nodes expr_nodes b
        ++ opt_nodes expr_nodes c
  | BinOp l _ r => expr_nodes l ++ expr_nodes r
  | UnaryOp _ x => expr_nodes x
  | Compare l _ r => expr_nodes l ++ expr_nodes r
  | IfExp c a b => expr_nodes c ++ expr_nodes a ++ expr_nodes b
  | Lambda _ b => expr_nodes b
  | ListComp x t i ifs =>
      expr_nodes x ++ expr_nodes t ++ expr_nodes i
        ++ flat_map expr_nodes ifs
  | ListE l | TupleE l => flat_map expr_nodes l
  | DictE items =>
      flat_map (fun kv => expr_nodes (fst kv) ++ expr_nodes (snd kv)) items
  end.

(** Every statement nested in a statement, the statement itself first. *)
Fixpoint stmt_nodes (s : stmt) : list stmt :=
  s ::
  match s with
  | For _ _ b | While _ b | With _ b | FunctionDef _ _ b | ClassDef _ _ b =>
      flat_map stmt_nodes b
  | If _ b o => flat_map stmt_nodes b ++ flat_map stmt_nodes o
  | Try b hs f =>
      flat_map stmt_nodes b
        ++ flat_map (fun h => flat_map stmt_nodes (snd h)) hs
        ++ flat_map stmt_nodes f
  | _ => []
  end.

(** The expressions a statement holds directly (not those of nested
    statements). *)
Definition stmt_exprs (s : stmt) : list expr :=
  match s with
  | Assign ts v => ts ++ [v]
  | ExprStmt v => [v]
  | Return o | Raise o => opt_nodes (fun v => [v]) o
  | For t i _ => [t; i]
  | While c _ | If c _ _ | With c _ => [c]
  | Try _ hs _ => flat_map (fun h => opt_nodes (fun v => [v]) (fst h)) hs
  | ClassDef _ bases _ => bases
  | Magic _ | Import _ _ | ImportFrom _ _ | FunctionDef _ _ _ => []
  end.

Definition all_stmts (body : list stmt) : list stmt :=
  flat_map stmt_nodes body.

Definition all_exprs (body : list stmt) : list expr :=
  flat_map expr_nodes (flat_map stmt_exprs (all_stmts body)).

(** *** Control flow and abstraction *)

Definition is_branch (s : stmt) : bool :=
  match s with If _ _ _ | While _ _ => true | _ => false end.

Definition is_conditional_expr (e : expr) : bool :=
  match e with
  | IfExp _ _ _ => true
  | ListComp _ _ _ (_ :: _) => true
  | _ => false
  end.

Definition is_loop (s : stmt) : bool :=
  match s with For _ _ _ | While _ _ => true | _ => false end.

(** Statements that can intercept an exception or raise one of the
    script's own. *)
Definition is_handler (s : stmt) : bool :=
  match s with Try _ _ _ | With _ _ | Raise _ => true | _ => false end.

Definition is_definition (s : stmt) : bool :=
  match s with FunctionDef _ _ _ | ClassDef _ _ _ => true | _ => false end.

Definition no_branching (body : list stmt) : bool :=
  forallb (fun s => negb (is_branch s)) (all_stmts body)
  && forallb (fun e => negb (is_conditional_expr e)) (all_exprs body).

Definition no_error_handling (body : list stmt) : bool :=
  forallb (fun s => negb (is_handler s)) (all_stmts body).

Definition no_abstraction (body : list stmt) : bool :=
  forallb (fun s => negb (is_definition s)) (all_stmts body).

(** A script in the sense of the specification: no branch, no handler,
    no function or class of its own. *)
Definition straight_line (sc : script) : bool :=
  no_branching (script_body sc) && no_error_handling (script_body sc)
  && no_abstraction (script_body sc).

Definition defined_functions (body : list stmt) : list string :=
  flat_map (fun s => match s with FunctionDef f _ _ => [f] | _ => [] end)
           (all_stmts body).

Definition defined_classes (body : list stmt) : list string :=
  flat_map (fun s => match s with ClassDef c _ _ => [c] | _ => [] end)
           (all_stmts body).

Definition loop_count (body : list stmt) : nat :=
  length (filter (fun s => is_loop s = true) (all_stmts body)).

(** *** Imports *)

(** The part of a dotted module path before its first dot. *)
Fixpoint root_package (m : string) : string :=
  match m with
  | EmptyString => EmptyString
  | String c rest =>
      if Ascii.eqb c "."%char then EmptyString
      else String c (root_package rest)
  end.

Definition imported_modules (body : list stmt) : list string :=
  flat_map (fun s => match s with
                     | Import m _ | ImportFrom m _ => [m]
                     | _ => []
                     end) (all_stmts body).

(** The names that imports bind, each with the module it comes from:
    [import a.b as c] binds [c], [import a.b] binds [a], and
    [from m import n as c] binds [c]. *)
Definition imported_names (body : list stmt) : list (string * string) :=
  flat_map (fun s => match s with
                     | Import m a => [(default (root_package m) a, m)]
                     | ImportFrom m names =>
                         map (fun na => (default (fst na) (snd na), m)) names
                     | _ => []
                     end) (all_stmts body).

(** The packages that do not belong to this repository: the libraries
    the examples demonstrate and the Python standard library. *)
Definition external_packages : list string :=
  ["sklearn"; "numpy"; "matplotlib"; "tempfile"; "shutil"; "__future__"].

(** Modules of the Python standard library and of the scientific stack
    through which a program starts threads or processes itself. *)
Definition concurrency_packages : list string :=
  ["threading"; "_thread"; "thread"; "multiprocessing"; "concurrent";
   "asyncio"; "subprocess"; "os"; "signal"; "queue"; "sched"].

(** *** Calls *)

Definition keyword (k : string) (kws : list (string * expr)) : option expr :=
  snd <$> find (fun kv => String.eqb (fst kv) k) kws.

(** The argument lists of every call [f(...)] of the plain name [f]. *)
Definition calls_to (f : string) (body : list stmt)
  : list (list expr * list (string * expr)) :=
  flat_map (fun e => match e with
                     | Call (Name g) a k =>
                         if String.eqb g f then [(a, k)] else []
                     | _ => []
                     end) (all_exprs body).

(** The last component of what each call invokes: [f] for [f(...)] and
    [m] for [obj.m(...)]. *)
Definition called_heads (body : list stmt) : list string :=
  flat_map (fun e => match e with
                     | Call (Name f) _ _ => [f]
                     | Call (Attribute _ m) _ _ => [m]
                     | _ => []
                     end) (all_exprs body).

Definition called_names (body : list stmt) : list string :=
  flat_map (fun e => match e with Call (Name f) _ _ => [f] | _ => [] end)
           (all_exprs body).

(** Names by which Python libraries create threads, processes or
    worker pools. *)
Definition concurrency_constructors : list string :=
  ["Thread"; "Timer"; "Process"; "Pool"; "ThreadPool"; "ThreadPoolExecutor";
   "ProcessPoolExecutor"; "Parallel"; "delayed"; "fork"; "Popen"; "system";
   "start_new_thread"; "run_in_executor"; "create_task"].

(** *** Name binding *)

(** The names an assignment target binds. *)
Fixpoint target_names (t : expr) : list string :=
  match t with
  | Name x => [x]
  | TupleE l | ListE l => flat_map target_names l
  | _ => []
  end.

(** The expressions an assignment target reads: [a[i] = v] reads [a] and
    [i], [a.f = v] reads [a], a plain name reads nothing. *)
Fixpoint target_loads (t : expr) : list expr :=
  match t with
  | TupleE l | ListE l => flat_map target_loads l
  | Subscript v i => [v; i]
  | Attribute v _ => [v]
  | _ => []
  end.

(** The variables a statement binds in the scope it is executed in;
    the bodies of nested functions and classes are scopes of their own. *)
Fixpoint bound_names (s : stmt) : list string :=
  match s with
  | Assign ts _ => flat_map target_names ts
  | For t _ b => target_names t ++ flat_map bound_names b
  | While _ b | With _ b => flat_map bound_names b
  | If _ b o => flat_map bound_names b ++ flat_map bound_names o
  | Try b hs f =>
      flat_map bound_names b
        ++ flat_map (fun h => flat_map bound_names (snd h)) hs
        ++ flat_map bound_names f
  | _ => []
  end.

(** The variables assigned at module level. *)
Definition module_variables (body : list stmt) : list string :=
  flat_map bound_names body.

Definition stmt_loads (s : stmt) : list expr :=
  match s with
  | Assign ts v => flat_map target_loads ts ++ [v]
  | For t i _ => target_loads t ++ [i]
  | _ => stmt_exprs s
  end.

Definition loaded_exprs (body : list stmt) : list expr :=
  flat_map expr_nodes (flat_map stmt_loads (all_stmts body)).

(** The names a block reads. *)
Definition names_read (body : list stmt) : list string :=
  flat_map (fun e => match e with Name x => [x] | _ => [] end)
           (loaded_exprs body).

Definition functions (body : list stmt)
  : list (string * list string * list stmt) :=
  flat_map (fun s => match s with
                     | FunctionDef f ps b => [(f, ps, b)]
                     | _ => []
                     end) (all_stmts body).

(** A name is local to a function when it is a parameter or assigned
    anywhere in the body. *)
Definition local_names (params : list string) (fbody : list stmt)
  : list string :=
  params ++ flat_map bound_names fbody.

Definition is_global_in (body : list stmt) (params : list string)
    (fbody : list stmt) (x : string) : bool :=
  bool_decide (x ∈ module_variables body)
  && negb (bool_decide (x ∈ local_names params fbody)).

(** Module-level variables read inside the functions of a script, as
    pairs (function, variable). *)
Definition global_reads (body : list stmt) : list (string * string) :=
  flat_map (fun f => let '(name, ps, fb) := f in
              map (pair name)
                  (remove_dups (filter (fun x => is_global_in body ps fb x = true)
                                       (names_read fb))))
           (functions body).

(** Methods invoked on module-level variables inside the functions of a
    script, as triples (function, variable, method). *)
Definition global_method_calls (body : list stmt)
  : list (string * string * string) :=
  flat_map (fun f => let '(name, ps, fb) := f in
              flat_map (fun e => match e with
                                 | Call (Attribute (Name x) m) _ _ =>
                                     if is_global_in body ps fb x
                                     then [(name, x, m)] else []
                                 | _ => []
                                 end) (loaded_exprs fb))
           (functions body).

(** No function of the script touches a module-level variable. *)
Definition no_global_state (sc : script) : bool :=
  bool_decide (global_reads (script_body sc) = [])
  && bool_decide (global_method_calls (script_body sc) = []).

(** Where the name of a called function comes from. *)
Inductive origin :=
| Imported (module : string)
| Builtin
| Local
| Variable_
| Unbound.

#[global] Instance origin_eq_dec : EqDecision origin.
Proof. solve_decision. Defined.

Definition builtins : list string :=
  ["print"; "dict"; "zip"; "enumerate"; "range"; "len"; "int"].

Definition origin_of (body : list stmt) (f : string) : origin :=
  if bool_decide (f ∈ defined_functions body ++ defined_classes body)
  then Local
  else if bool_decide (f ∈ flat_map bound_names (all_stmts body))
  then Variable_
  else match snd <$> find (fun nm => String.eqb (fst nm) f)
                          (imported_names body) with
       | Some m => Imported m
       | None => if bool_decide (f ∈ builtins) then Builtin else Unbound
       end.

(** The name comes from the package [pkg]. *)
Definition is_from (pkg : string) (o : origin) : bool :=
  match o with
  | Imported m => String.eqb (root_package m) pkg
  | _ => false
  end.

(** The name is bound to something callable the script did not write
    an algorithm for: an import, a builtin, or a helper of the script. *)
Definition resolved (o : origin) : bool :=
  match o with
  | Imported _ | Builtin | Local => true
  | Variable_ | Unbound => false
  end.

(** The library entry points of the computations the examples show:
    PCA, NMF, SVM, OPTICS, Gaussian process classification and
    cross-validation. *)
Definition algorithm_names : list string :=
  ["PCA"; "NMF"; "SVC"; "LinearSVC"; "OPTICS"; "GaussianProcessClassifier";
   "GridSearchCV"; "cross_val_score"].

End Analysis.

(** ** Control flow under failing library operations

    A semantics of the statements that keeps only what matters for the
    propagation of exceptions.  Values are not computed.  Every
    operation that runs library or object code (a call, an operator, a
    subscript, an attribute access, an import, an unpacking, a step of
    an iteration) consults an oracle that says whether this operation,
    the [k]-th of the run, raises.  The oracle also fixes how often
    each loop iterates and which way each condition goes, so a run is a
    function of the oracle. *)

Module Exec.
Import Syntax Analysis.

Inductive exn :=
| LibraryError (code : nat)   (* raised inside a library operation *)
| ScriptError.                (* raised by a [raise] statement of the script *)

Inductive outcome :=
| Normal
| Returned
| Raised (e : exn)
| OutOfFuel.

Record oracle := Oracle {
  fails : nat -> option nat;
  trips : nat -> nat;
  choice : nat -> bool
}.

(** The state of a run: the operations performed so far, the loop and
    branch decisions taken so far, and the functions defined so far. *)
Record world := World {
  ops : nat;
  decisions : nat;
  defs : list (string * list stmt)
}.

Definition M : Type := world -> outcome * world.

Definition ret : M := fun w => (Normal, w).

Definition finish (o : outcome) : M := fun w => (o, w).

(** Sequencing: the second computation runs only if the first one
    completes normally. *)
Definition andthen (m1 m2 : M) : M :=
  fun w => match m1 w with
           | (Normal, w') => m2 w'
           | r => r
           end.

Declare Scope exec_scope.
Delimit Scope exec_scope with exec.
Notation "m1 ;; m2" := (andthen m1 m2)
  (at level 100, m2 at level 200, right associativity) : exec_scope.
Local Open Scope exec_scope.

Fixpoint mseq {A} (f : A -> M) (l : list A) : M :=
  match l with
  | [] => ret
  | a :: l' => f a ;; mseq f l'
  end.

Definition mopt {A} (f : A -> M) (o : option A) : M :=
  match o with Some a => f a | None => ret end.

Fixpoint repeat_m (n : nat) (m : M) : M :=
  match n with
  | 0 => ret
  | S n' => m ;; repeat_m n' m
  end.

Definition lookup_def (g : string) (w : world) : option (list stmt) :=
  snd <$> find (fun d => String.eqb (fst d) g) (defs w).

Section Semantics.
Variable O : oracle.

(** One library operation. *)
Definition operation : M :=
  fun w =>
    let w' := World (S (ops w)) (decisions w) (defs w) in
    match fails O (ops w) with
    | Some c => (Raised (LibraryError c), w')
    | None => (Normal, w')
    end.

Definition decide_trips (k : nat -> M) : M :=
  fun w => k (trips O (decisions w))
             (World (ops w) (S (decisions w)) (defs w)).

Definition decide_choice (k : bool -> M) : M :=
  fun w => k (choice O (decisions w))
             (World (ops w) (S (decisions w)) (defs w)).

Definition define (f : string) (b : list stmt) : M :=
  fun w => (Normal, World (ops w) (decisions w) ((f, b) :: defs w)).

(** [try: m except: h]: a raised exception enters the handler when the
    handler matches it. *)
Definition catch (m : M) (h : option M) : M :=
  fun w => match m w with
           | (Raised e, w') =>
               match h with
               | Some hm =>
                   decide_choice
                     (fun b => if b then hm else finish (Raised e)) w'
               | None => (Raised e, w')
               end
           | r => r
           end.

(** [finally: f] runs however [m] ended. *)
Definition finally (m f : M) : M :=
  fun w => match m w with
           | (OutOfFuel, w') => (OutOfFuel, w')
           | (o, w') => match f w' with
                        | (Normal, w'') => (o, w'')
                        | r => r
                        end
           end.

(** [with]: the context manager may swallow an exception of the body. *)
Definition suppress (m : M) : M :=
  fun w => match m w with
           | (Raised e, w') =>
               decide_choice
                 (fun b => if b then ret else finish (Raised e)) w'
           | r => r
           end.

(** The interpretation of the bodies of called functions, one level of
    the call stack further down. *)
Variable callee : list stmt -> M.

(** Applying what [f] evaluates to: a function of the script runs its
    body, anything else is a library operation. *)
Definition invoke (f : expr) : M :=
  fun w =>
    match f with
    | Name g =>
        match lookup_def g w with
        | Some body =>
            match callee body w with
            | (Returned, w') => (Normal, w')
            | r => r
            end
        | None => operation w
        end
    | _ => operation w
    end.

Fixpoint eval (e : expr) : M :=
  match e with
  | Name _ | Num _ | Str _ => ret
  | Attribute v _ => eval v ;; operation
  | Call f args kws =>
      eval f ;; mseq eval args ;; mseq (fun kv => eval (snd kv)) kws ;;
      invoke f
  | Subscript v i => eval v ;; eval i ;; operation
  | Slice a b c => mopt eval a ;; mopt eval b ;; mopt eval c
  | BinOp l _ r => eval l ;; eval r ;; operation
  | UnaryOp _ x => eval x ;; operation
  | Compare l _ r => eval l ;; eval r ;; operation
  | IfExp c a b =>
      eval c ;; decide_choice (fun t => if t then eval a else eval b)
  | Lambda _ _ => ret
  | ListComp x _ i ifs =>
      eval i ;; operation ;;
      decide_trips (fun n => repeat_m n (operation ;; mseq eval ifs ;; eval x) ;;
                             operation)
  | ListE l | TupleE l => mseq eval l
  | DictE items => mseq (fun kv => eval (fst kv) ;; eval (snd kv)) items
  end.

(** Binding the value of an assignment to a target. *)
Fixpoint store (t : expr) : M :=
  match t with
  | TupleE l | ListE l => operation ;; mseq store l
  | Subscript v i => eval v ;; eval i ;; operation
  | Attribute v _ => eval v ;; operation
  | _ => ret
  end.

(** A [for] loop evaluates the iterable, asks it for an iterator, and
    asks the iterator for the next element before every iteration and
    once more at the end; each of these is an operation. *)
Fixpoint exec (s : stmt) : M :=
  match s with
  | Magic _ => ret
  | Import _ _ | ImportFrom _ _ => operation
  | Assign ts v => eval v ;; mseq store ts
  | ExprStmt v => eval v
  | Return o => mopt eval o ;; finish Returned
  | Raise o => mopt eval o ;; finish (Raised ScriptError)
  | For t i b =>
      eval i ;; operation ;;
      decide_trips (fun n => repeat_m n (operation ;; store t ;; mseq exec b) ;;
                             operation)
  | While c b =>
      decide_trips (fun n => repeat_m n (eval c ;; mseq exec b) ;; eval c)
  | If c b o =>
      eval c ;;
      decide_choice (fun t => if t then mseq exec b else mseq exec o)
  | Try b hs f =>
      finally (catch (mseq exec b)
                     (match hs with
                      | [] => None
                      | h :: _ => Some (mseq exec (snd h))
                      end))
              (mseq exec f)
  | With i b => eval i ;; suppress (mseq exec b)
  | FunctionDef f _ b => define f b
  | ClassDef _ bases b => mseq eval bases ;; mseq exec b
  end.

Definition exec_block (b : list stmt) : M := mseq exec b.
End Semantics.

(** Running a block with a bound on the depth of the call stack. *)
Fixpoint run_block (O : oracle) (fuel : nat) (b : list stmt) : M :=
  match fuel with
  | 0 => finish OutOfFuel
  | S n => exec_block O (run_block O n) b
  end.

Definition initial : world := World 0 0 [].

Definition run (O : oracle) (fuel : nat) (sc : script) : outcome * world :=
  run_block O fuel (script_body sc) initial.

(** *** The discipline the propagation result relies on *)

(** [node_ok ps pe s]: every statement nested in [s] satisfies [ps] and
    every expression node it holds satisfies [pe]. *)
Definition node_ok (ps : stmt -> bool) (pe : expr -> bool) (s : stmt) : bool :=
  forallb (fun n => ps n && forallb pe (flat_map expr_nodes (stmt_exprs n)))
          (stmt_nodes s).

Section Discipline.
(** The names of the functions a script defines. *)
Variable U : list string.

(** Function bodies: no handler, no definition, no call of a function
    of the script. *)
Definition leaf_stmt (s : stmt) : bool :=
  negb (is_handler s) && negb (is_definition s).

Definition leaf_expr (e : expr) : bool :=
  match e with
  | Call (Name g) _ _ => negb (bool_decide (g ∈ U))
  | _ => true
  end.

Definition leaf_block (b : list stmt) : bool :=
  forallb (node_ok leaf_stmt leaf_expr) b.

(** Module level: no handler, no class, and the functions defined have
    bodies of the kind above. *)
Definition top_stmt (s : stmt) : bool :=
  negb (is_handler s)
  && match s with
     | FunctionDef f _ fb => bool_decide (f ∈ U) && leaf_block fb
     | ClassDef _ _ _ => false
     | _ => true
     end.

Definition top_block (b : list stmt) : bool :=
  forallb (node_ok top_stmt (fun _ => true)) b.
End Discipline.

(** A script without handlers whose functions do not call one another. *)
Definition handler_free (sc : script) : bool :=
  top_block (defined_functions (script_body sc)) (script_body sc).

(** *** What propagation means *)

(** No operation before the [n]-th fails. *)
Definition clean (O : oracle) (n : nat) : Prop :=
  forall k, k < n -> fails O k = None.

(** Operation [k] is the first that fails, and it raises [c]. *)
Definition first_failure (O : oracle) (k c : nat) : Prop :=
  fails O k = Some c /\ clean O k.

(** The result of a run agrees with the oracle: a run that ends
    normally has met no failure; a run that ends with an exception ends
    with the one the first failing operation raised, and that operation
    is the last one performed. *)
Definition propagated (O : oracle) (r : outcome * world) : Prop :=
  match fst r with
  | Normal | Returned => clean O (ops (snd r))
  | Raised e =>
      exists c, e = LibraryError c /\ 1 <= ops (snd r)
                /\ first_failure O (ops (snd r) - 1) c
  | OutOfFuel => False
  end.

(** When operation [k] is the first to fail, with [c], the run either
    ends before reaching it or ends at it with [c]. *)
Definition stops_at (k c : nat) (r : outcome * world) : Prop :=
  match fst r with
  | Normal | Returned => ops (snd r) <= k
  | Raised e => e = LibraryError c /\ ops (snd r) = S k
  | OutOfFuel => False
  end.

(** Every function defined so far is one of [U] and has a body that
    calls none of them. *)
Definition defs_ok (U : list string) (w : world) : Prop :=
  Forall (fun d => fst d ∈ U /\ leaf_block U (snd d) = true) (defs w).

(** What a computation started in [w] guarantees about its result. *)
Definition post (O : oracle) (U : list string) (w : world)
    (r : outcome * world) : Prop :=
  ops w <= ops (snd r) /\ defs_ok U (snd r) /\
  match fst r with
  | Normal | Returned => clean O (ops (snd r))
  | Raised e =>
      ops w < ops (snd r) /\ clean O (ops (snd r) - 1) /\
      exists c, fails O (ops (snd r) - 1) = Some c /\ e = LibraryError c
  | OutOfFuel => False
  end.

Definition spec (O : oracle) (U : list string) (m : M) : Prop :=
  forall w, defs_ok U w -> clean O (ops w) -> post O U w (m w).

(** An oracle under which no operation fails. *)
Definition quiet : oracle :=
  Oracle (fun _ => None) (fun _ => 2) (fun _ => true).

(** An oracle under which operation [k] raises the exception [c]. *)
Definition failing_at (k c : nat) : oracle :=
  Oracle (fun i => if Nat.eqb i k then Some c else None)
         (fun _ => 2) (fun _ => true).

End Exec.

(** ** Arrays

    The operations of NumPy arrays the scripts apply to scores and
    datasets: an array is a shape and its elements in row-major order. *)

Module Numpy.

Record ndarray (A : Type) := NdArray { shape : list nat; data : list A }.
Arguments NdArray {A} shape data.
Arguments shape {A} _.
Arguments data {A} _.

Definition size_of (shp : list nat) : nat := foldr Nat.mul 1 shp.

(** [np.array(l)] of a flat list. *)
Definition array1 {A} (l : list A) : ndarray A := NdArray [length l] l.

(** The shape [reshape] gives an array of [size] elements when asked for
    [newshape], in which one dimension may be [-1]: that dimension is
    inferred from the others, which must divide the size.  [None] stands
    for the [ValueError] of NumPy. *)
Definition infer_shape (size : nat) (newshape : list Z) : option (list nat) :=
  let known := filter (fun d => d ≠ (-1)%Z) newshape in
  if bool_decide (Forall (fun d => (0 <= d)%Z) known) then
    let p := size_of (map Z.to_nat known) in
    match length newshape - length known with
    | 0 => if bool_decide (p = size) then Some (map Z.to_nat newshape) else None
    | 1 =>
        if bool_decide (p ≠ 0 ∧ size `mod` p = 0) then
          Some (map (fun d => if bool_decide (d = (-1)%Z) then size `div` p
                              else Z.to_nat d) newshape)
        else None
    | _ => None
    end
  else None.

Definition reshape {A} (a : ndarray A) (newshape : list Z)
  : option (ndarray A) :=
  shp ← infer_shape (length (data a)) newshape;
  Some (NdArray shp (data a)).

(** [chunks n k l]: the first [k] consecutive blocks of [n] elements. *)
Fixpoint chunks {A} (n k : nat) (l : list A) : list (list A) :=
  match k with
  | 0 => []
  | S k' => take n l :: chunks n k' (drop n l)
  end.

(** The sub-arrays along the first axis, as iterating over an array
    yields them.  A 0-dimensional array cannot be iterated. *)
Definition iter_rows {A} (a : ndarray A) : option (list (ndarray A)) :=
  match shape a with
  | [] => None
  | d0 :: rest => Some (map (NdArray rest) (chunks (size_of rest) d0 (data a)))
  end.

(** [a.max(axis=0)]: the element-wise maximum of the sub-arrays along
    the first axis; an empty first axis has no maximum. *)
Definition max_axis0 {A} (maxA : A -> A -> A) (a : ndarray A)
  : option (ndarray A) :=
  match shape a with
  | [] => None
  | d0 :: rest =>
      match chunks (size_of rest) d0 (data a) with
      | [] => None
      | c :: cs => Some (NdArray rest (foldl (zip_with maxA) c cs))
      end
  end.

End Numpy.

(** ** Parameter grids *)

Module Grid.
Import Syntax Analysis.

(** *** Constants of a script *)

(** The expression last assigned to the plain name [x] at module level. *)
Definition assigned (x : string) (body : list stmt) : option expr :=
  last (flat_map (fun s => match s with
                           | Assign [Name y] v =>
                               if String.eqb y x then [v] else []
                           | _ => []
                           end) body).

(** A list display, or a name bound to one. *)
Definition list_literal (body : list stmt) (e : expr) : option (list expr) :=
  match e with
  | ListE l => Some l
  | Name x => match assigned x body with
              | Some (ListE l) => Some l
              | _ => None
              end
  | _ => None
  end.

(** A mapping from parameter names to value lists, written either as
    [dict(k=[...], ...)] or as a dict display with string keys. *)
Definition dict_literal (body : list stmt) (e : expr)
  : option (list (string * list expr)) :=
  match e with
  | Call (Name f) [] kws =>
      if String.eqb f "dict"
      then mapM (fun kv => pair (fst kv) <$> list_literal body (snd kv)) kws
      else None
  | DictE items =>
      mapM (fun kv => match fst kv with
                      | Str k => pair k <$> list_literal body (snd kv)
                      | _ => None
                      end) items
  | _ => None
  end.

(** The value of a [param_grid] argument: a list of mappings; a single
    mapping stands for the list holding it. *)
Definition param_grid_literal (body : list stmt) (e : expr)
  : option (list (list (string * list expr))) :=
  match (match e with Name x => assigned x body | _ => Some e end) with
  | Some (ListE ds) => mapM (dict_literal body) ds
  | Some d => (fun p => [p]) <$> dict_literal body d
  | None => None
  end.

Fixpoint parse_nat (s : string) (acc : nat) : option nat :=
  match s with
  | EmptyString => Some acc
  | String c r =>
      let n := nat_of_ascii c in
      if (48 <=? n) && (n <=? 57) then parse_nat r (10 * acc + (n - 48))
      else None
  end.

Definition nat_literal (e : expr) : option nat :=
  match e with
  | Num (String c r) => parse_nat (String c r) 0
  | _ => None
  end.

(** *** The library's grid enumeration

    [ParameterGrid] iterates over the mappings in order and, in each,
    over the product of the value lists taken in the order of the sorted
    parameter names, the last name varying fastest. *)

Section SortedItems.
Context {V : Type}.

Fixpoint insert_item (kv : string * V) (l : list (string * V))
  : list (string * V) :=
  match l with
  | [] => [kv]
  | h :: t =>
      if String.leb (fst kv) (fst h) then kv :: l
      else h :: insert_item kv t
  end.

Definition sorted_items (p : list (string * V)) : list (string * V) :=
  foldr insert_item [] p.
End SortedItems.

Section ParameterGrid.
Context {V : Type}.

Fixpoint product (vals : list (list V)) : list (list V) :=
  match vals with
  | [] => [[]]
  | v :: rest => flat_map (fun x => map (cons x) (product rest)) v
  end.

Definition dict_points (p : list (string * list V))
  : list (list (string * V)) :=
  let items := sorted_items p in
  map (zip (map fst items)) (product (map snd items)).

Definition ParameterGrid (grid : list (list (string * list V)))
  : list (list (string * V)) :=
  flat_map dict_points grid.

(** [len(ParameterGrid(grid))]: the sum over the mappings of the
    product of the numbers of values. *)
Definition grid_size (grid : list (list (string * list V))) : nat :=
  list_sum (map (fun p => foldr Nat.mul 1 (map (fun kv => length (snd kv)) p))
                grid).
End ParameterGrid.

(** *** Grid searches of the scripts *)

(** Number of folds when [GridSearchCV] gets no [cv] argument, in the
    releases these pages were built with. *)
Definition default_cv : nat := 3.

Record grid_search := GridSearch {
  gs_param_grid : list (list (string * list expr));
  gs_cv : nat;
  gs_n_jobs : option expr
}.

(** The [GridSearchCV(...)] constructions of a script, in source
    order. *)
Definition grid_searches (body : list stmt) : list (option grid_search) :=
  map (fun c =>
         pg ← keyword "param_grid" (snd c);
         g ← param_grid_literal body pg;
         cv ← match keyword "cv" (snd c) with
              | Some e => nat_literal e
              | None => Some default_cv
              end;
         Some (GridSearch g cv (keyword "n_jobs" (snd c))))
      (calls_to "GridSearchCV" body).

Definition candidates (gs : grid_search) : list (list (string * expr)) :=
  ParameterGrid (gs_param_grid gs).

(** The first line a verbose grid search prints. *)
Definition fit_message (n_splits n_candidates : nat) : string :=
  "Fitting " +:+ pretty n_splits +:+ " folds for each of "
    +:+ pretty n_candidates +:+ " candidates, totalling "
    +:+ pretty (n_candidates * n_splits) +:+ " fits".

Definition show_literal (e : expr) : string :=
  match e with Num s | Str s | Name s => s | _ => "?" end.

Definition show_candidate (c : list (string * expr)) : string :=
  String.concat ", " (map (fun kv => fst kv +:+ "=" +:+ show_literal (snd kv)) c).

(** The line printed when the fit of a candidate on one fold starts. *)
Definition cv_start_line (c : list (string * expr)) : string :=
  "[CV] " +:+ show_candidate c +:+ " ".

(** The start lines of a whole search run sequentially: candidates in
    grid order, the folds of a candidate one after the other. *)
Definition cv_start_lines (gs : grid_search) : list string :=
  flat_map (fun c => replicate (gs_cv gs) (cv_start_line c)) (candidates gs).

(** *** The page of [plot_feature_stacker] *)

(** First line of the [Out::] block of the page. *)
Definition documented_header : string :=
  "Fitting 3 folds for each of 18 candidates, totalling 54 fits".

(** The lines of the [Out::] block that announce a fit, in page order
    (each ends in a space). *)
Definition documented_cv_starts : list string :=
  [ "[CV] features__pca__n_components=1, features__univ_select__k=1, svm__C=0.1 ";
    "[CV] features__pca__n_components=1, features__univ_select__k=1, svm__C=0.1 ";
    "[CV] features__pca__n_components=1, features__univ_select__k=1, svm__C=0.1 ";
    "[CV] features__pca__n_components=1, features__univ_select__k=1, svm__C=1 ";
    "[CV] features__pca__n_components=1, features__univ_select__k=1, svm__C=1 ";
    "[CV] features__pca__n_components=1, features__univ_select__k=1, svm__C=1 ";
    "[CV] features__pca__n_components=1, features__univ_select__k=1, svm__C=10 ";
    "[CV] features__pca__n_components=1, features__univ_select__k=1, svm__C=10 ";
    "[CV] features__pca__n_components=1, features__univ_select__k=1, svm__C=10 ";
    "[CV] features__pca__n_components=1, features__univ_select__k=2, svm__C=0.1 ";
    "[CV] features__pca__n_components=1, features__univ_select__k=2, svm__C=0.1 ";
    "[CV] features__pca__n_components=1, features__univ_select__k=2, svm__C=0.1 ";
    "[CV] features__pca__n_components=1, features__univ_select__k=2, svm__C=1 ";
    "[CV] features__pca__n_components=1, features__univ_select__k=2, svm__C=1 ";
    "[CV] features__pca__n_components=1, features__univ_select__k=2, svm__C=1 ";
    "[CV] features__pca__n_components=1, features__univ_select__k=2, svm__C=10 ";
    "[CV] features__pca__n_components=1, features__univ_select__k=2, svm__C=10 ";
    "[CV] features__pca__n_components=1, features__univ_select__k=2, svm__C=10 ";
    "[CV] features__pca__n_components=2, features__univ_select__k=1, svm__C=0.1 ";
    "[CV] features__pca__n_components=2, features__univ_select__k=1, svm__C=0.1 ";
    "[CV] features__pca__n_components=2, features__univ_select__k=1, svm__C=0.1 ";
    "[CV] features__pca__n_components=2, features__univ_select__k=1, svm__C=1 ";
    "[CV] features__pca__n_components=2, features__univ_select__k=1, svm__C=1 ";
    "[CV] features__pca__n_components=2, features__univ_select__k=1, svm__C=1 ";
    "[CV] features__pca__n_components=2, features__univ_select__k=1, svm__C=10 ";
    "[CV] features__pca__n_components=2, features__univ_select__k=1, svm__C=10 ";
    "[CV] features__pca__n_components=2, features__univ_select__k=1, svm__C=10 ";
    "[CV] features__pca__n_components=2, features__univ_select__k=2, svm__C=0.1 ";
    "[CV] features__pca__n_components=2, features__univ_select__k=2, svm__C=0.1 ";
    "[CV] features__pca__n_components=2, features__univ_select__k=2, svm__C=0.1 ";
    "[CV] features__pca__n_components=2, features__univ_select__k=2, svm__C=1 ";
    "[CV] features__pca__n_components=2, features__univ_select__k=2, svm__C=1 ";
    "[CV] features__pca__n_components=2, features__univ_select__k=2, svm__C=1 ";
    "[CV] features__pca__n_components=2, features__univ_select__k=2, svm__C=10 ";
    "[CV] features__pca__n_components=2, features__univ_select__k=2, svm__C=10 ";
    "[CV] features__pca__n_components=2, features__univ_select__k=2, svm__C=10 ";
    "[CV] features__pca__n_components=3, features__univ_select__k=1, svm__C=0.1 ";
    "[CV] features__pca__n_components=3, features__univ_select__k=1, svm__C=0.1 ";
    "[CV] features__pca__n_components=3, features__univ_select__k=1, svm__C=0.1 ";
    "[CV] features__pca__n_components=3, features__univ_select__k=1, svm__C=1 ";
    "[CV] features__pca__n_components=3, features__univ_select__k=1, svm__C=1 ";
    "[CV] features__pca__n_components=3, features__univ_select__k=1, svm__C=1 ";
    "[CV] features__pca__n_components=3, features__univ_select__k=1, svm__C=10 ";
    "[CV] features__pca__n_components=3, features__univ_select__k=1, svm__C=10 ";
    "[CV] features__pca__n_components=3, features__univ_select__k=1, svm__C=10 ";
    "[CV] features__pca__n_components=3, features__univ_select__k=2, svm__C=0.1 ";
    "[CV] features__pca__n_components=3, features__univ_select__k=2, svm__C=0.1 ";
    "[CV] features__pca__n_components=3, features__univ_select__k=2, svm__C=0.1 ";
    "[CV] features__pca__n_components=3, features__univ_select__k=2, svm__C=1 ";
    "[CV] features__pca__n_components=3, features__univ_select__k=2, svm__C=1 ";
    "[CV] features__pca__n_components=3, features__univ_select__k=2, svm__C=1 ";
    "[CV] features__pca__n_components=3, features__univ_select__k=2, svm__C=10 ";
    "[CV] features__pca__n_components=3, features__univ_select__k=2, svm__C=10 ";
    "[CV] features__pca__n_components=3, features__univ_select__k=2, svm__C=10 " ].

(** *** The score table of [plot_compare_reduction] *)

Definition compare_reduction := Scripts.plot_compare_reduction_body.

Definition N_FEATURES_OPTIONS : list expr :=
  default [] (list_literal compare_reduction (Name "N_FEATURES_OPTIONS")).
Definition C_OPTIONS : list expr :=
  default [] (list_literal compare_reduction (Name "C_OPTIONS")).
Definition reducer_labels : list expr :=
  default [] (list_literal compare_reduction (Name "reducer_labels")).

Section Scores.
Context {A : Type} (maxA : A -> A -> A).
Import Numpy.

(** The statements from [mean_scores = np.array(...)] to the [zip] of
    the plotting loop: reshape the scores of the candidates, take the
    maximum over the first axis, pair the rows with the labels. *)
Definition mean_scores_reshaped (mean_test_score : list A)
  : option (ndarray A) :=
  reshape (array1 mean_test_score)
          [Z.of_nat (length C_OPTIONS); (-1)%Z;
           Z.of_nat (length N_FEATURES_OPTIONS)].

Definition mean_scores_best (mean_test_score : list A)
  : option (ndarray A) :=
  mean_scores_reshaped mean_test_score ≫= max_axis0 maxA.

Definition labelled_scores (mean_test_score : list A)
  : option (list (expr * ndarray A)) :=
  m ← mean_scores_best mean_test_score;
  rows ← iter_rows m;
  Some (zip reducer_labels rows).
End Scores.

End Grid.

(** ** Results of fallible operations *)

Module Py.

(** The exceptions the modelled operations raise, and, by the name of
    its class, any other exception a library call may raise. *)
Inductive error :=
| IndexError
| ValueError
| KeyError
| FileExistsError
| FileNotFoundError
| OtherError (name : string).

Inductive result (A : Type) :=
| Ok (a : A)
| Error (e : error).
Arguments Ok {A} a.
Arguments Error {A} e.

End Py.

(** ** The imputation example

    The function [get_results] of the imputation notebook, over a store
    of arrays.  The arrays of the dataset and the copies the function
    makes are objects in the store, so that assigning into a copy is an
    update of one object.  The module-level generator [rng] is part of
    the state the function runs in. *)

Module Impute.
Import Numpy Py.

(** *** The random generator

    [np.random.RandomState].  To draw a value in [[0, max]] the library
    searches the raw outputs of the generator, masked to the bits of
    [max], for the first one that is not above [max]; how many outputs
    a search consumes depends on the outputs it meets.  A generator is
    modelled by what its searches answer: [search max s] is the value
    that a search for at most [max], begun in the internal state [s],
    ends with, and the internal state it leaves.  Internal states are
    numbered.  The properties proved hold for every generator. *)

Record RandomState := MkRandomState {
  search : nat -> nat -> nat * nat;
  internal_state : nat;
  search_le : forall max s, (search max s).1 <= max
}.

(** [rk_interval(max, state)]: a value in [[0, max]]; for [max = 0]
    nothing is drawn. *)
Definition rk_interval (max : nat) (r : RandomState) : nat * RandomState :=
  match max with
  | 0 => (0, r)
  | S _ => let '(value, s) := search r max (internal_state r) in
           (value, MkRandomState (search r) s (search_le r))
  end.

Definition swap {A} (i j : nat) (l : list A) : list A :=
  match l !! i, l !! j with
  | Some a, Some b => <[j := a]> (<[i := b]> l)
  | _, _ => l
  end.

(** [rng.shuffle(x)]: for [i] from the last index down to 1, exchange
    [x[i]] with [x[j]] for a drawn [j <= i]. *)
Fixpoint shuffle_from {A} (i : nat) (l : list A) (r : RandomState)
  : list A * RandomState :=
  match i with
  | 0 => (l, r)
  | S i' => let '(j, r') := rk_interval i r in
            shuffle_from i' (swap i j l) r'
  end.

Definition shuffle {A} (l : list A) (r : RandomState) : list A * RandomState :=
  shuffle_from (length l - 1) l r.

(** [size] values in [[0, max]], drawn one after the other. *)
Fixpoint draws (size max : nat) (r : RandomState) : list nat * RandomState :=
  match size with
  | 0 => ([], r)
  | S size' => let '(x, r1) := rk_interval max r in
               let '(xs, r2) := draws size' max r1 in
               (x :: xs, r2)
  end.

(** [rng.randint(low, high, size)]: [size] integers in [[low, high)],
    each [low] plus a value in [[0, high - low - 1]]. *)
Definition randint (low high size : Z) (r : RandomState)
  : result (list Z * RandomState) :=
  if (high <=? low)%Z then Error ValueError
  else if (size <? 0)%Z then Error ValueError
  else let '(xs, r') := draws (Z.to_nat size) (Z.to_nat (high - low - 1)) r in
       Ok (map (fun x => (low + Z.of_nat x)%Z) xs, r').

(** A generator for the examples: the search begun in state [s] answers
    with entry [s] of a table, reduced to the range asked for, and
    leaves state [s + 1]. *)
Definition answering (table : nat -> nat) (s : nat) : RandomState :=
  MkRandomState
    (fun max s => (table s `mod` S max, S s)) s
    (fun max s => proj1 (Nat.lt_succ_r _ _)
                    (Nat.mod_upper_bound (table s) (S max)
                                         (Nat.neq_succ_0 max))).

(** *** Array construction and indexing *)

Definition np_full {A} (n : Z) (x : A) : result (list A) :=
  if (n <? 0)%Z then Error ValueError else Ok (replicate (Z.to_nat n) x).

(** [np.where(mask)[0]]: the indices of the true entries, ascending. *)
Fixpoint where_from (i : Z) (mask : list bool) : list Z :=
  match mask with
  | [] => []
  | b :: rest => (if b then [i] else []) ++ where_from (i + 1) rest
  end.

Definition np_where (mask : list bool) : list Z := where_from 0 mask.

(** The number of true entries of a mask. *)
Definition count_true (mask : list bool) : nat :=
  list_sum (Nat.b2n <$> mask).

(** An index into an axis of length [n]; negative indices count from
    the end. *)
Definition norm_index (n : nat) (i : Z) : option nat :=
  if bool_decide (0 <= i < Z.of_nat n)%Z then Some (Z.to_nat i)
  else if bool_decide (- Z.of_nat n <= i < 0)%Z then Some (Z.to_nat (i + Z.of_nat n))
  else None.

(** Two index arrays used together are paired element by element; an
    array of length one is repeated to the length of the other. *)
Definition broadcast_pairs (rows cols : list Z) : result (list (Z * Z)) :=
  if bool_decide (length rows = length cols) then Ok (zip rows cols)
  else match rows, cols with
       | [r], _ => Ok (map (pair r) cols)
       | _, [c] => Ok (map (fun r => (r, c)) rows)
       | _, _ => Error IndexError
       end.

(** [a[rows, cols] = v] on a two-dimensional array: all index pairs are
    checked before anything is written. *)
Definition setitem_pairs {A} (a : ndarray A) (rows cols : list Z) (v : A)
  : result (ndarray A) :=
  match shape a with
  | [n; d] =>
      match broadcast_pairs rows cols with
      | Ok pairs =>
          match mapM (fun rc => r ← norm_index n (fst rc);
                                c ← norm_index d (snd rc);
                                Some (r * d + c)) pairs with
          | Some offsets =>
              Ok (NdArray [n; d]
                          (foldl (fun dat k => <[k := v]> dat) (data a) offsets))
          | None => Error IndexError
          end
      | Error e => Error e
      end
  | _ => Error IndexError
  end.

Definition missing_rate : Q := 0.75%Q.

(** The estimators the function builds. *)
Inductive estimator :=
| RandomForest          (* RandomForestRegressor(random_state=0, n_estimators=100) *)
| ImputeThenForest.     (* make_pipeline(make_union(SimpleImputer, MissingIndicator), forest) *)

Definition loc := positive.

Record Bunch := MkBunch { bunch_data : loc; bunch_target : loc }.

(** A library function that returns on every input. *)
Definition returning {A B C D} (f : A -> B -> C -> D)
  : A -> B -> C -> result D :=
  fun a b c => Ok (f a b c).

Section GetResults.
(** The element type of the arrays, its zero, and the library
    functions whose results the function only passes on:
    [cross_val_score], which returns scores or raises, and the methods
    [mean] and [std] of the scores. *)
Context {F Scores : Type} (zero : F).
Variable cross_val_score :
  estimator -> ndarray F -> ndarray F -> result Scores.
Variables mean std : Scores -> F.

(** The generator, the store of arrays, and the arguments of the calls
    of [cross_val_score] that have returned so far. *)
Record state := State {
  rng : RandomState;
  heap : gmap loc (ndarray F);
  cv_calls : list (estimator * ndarray F * ndarray F)
}.

Definition M (A : Type) : Type := state -> result (A * state).

#[export] Instance M_ret : MRet M := fun A a st => Ok (a, st).
#[export] Instance M_bind : MBind M :=
  fun A B f m st => match m st with
                    | Ok (a, st') => f a st'
                    | Error e => Error e
                    end.

Definition raise {A} (e : error) : M A := fun _ => Error e.

Definition lift {A} (r : result A) : M A :=
  fun st => match r with Ok a => Ok (a, st) | Error e => Error e end.

Definition read (l : loc) : M (ndarray F) :=
  fun st => match heap st !! l with
            | Some a => Ok (a, st)
            | None => Error KeyError
            end.

Definition alloc (a : ndarray F) : M loc :=
  fun st => let l := fresh (dom (heap st)) in
            Ok (l, State (rng st) (<[l := a]> (heap st)) (cv_calls st)).

Definition write (l : loc) (a : ndarray F) : M unit :=
  fun st => Ok (tt, State (rng st) (<[l := a]> (heap st)) (cv_calls st)).

(** [a.shape[i]] *)
Definition shape_at (l : loc) (i : nat) : M Z :=
  a ← read l;
  match shape a !! i with
  | Some n => mret (Z.of_nat n)
  | None => raise IndexError
  end.

(** [a.copy()]: a new array object with the same contents. *)
Definition copy (l : loc) : M loc := a ← read l; alloc a.

(** [a[rows, cols] = v], in place. *)
Definition setitem (l : loc) (rows cols : list Z) (v : F) : M unit :=
  a ← read l;
  a' ← lift (setitem_pairs a rows cols v);
  write l a'.

Definition rng_shuffle (x : list bool) : M (list bool) :=
  fun st => let '(x', r') := shuffle x (rng st) in
            Ok (x', State r' (heap st) (cv_calls st)).

Definition rng_randint (low high size : Z) : M (list Z) :=
  fun st => match randint low high size (rng st) with
            | Ok (xs, r') => Ok (xs, State r' (heap st) (cv_calls st))
            | Error e => Error e
            end.

(** [cross_val_score(estimator, X, y, ...)]: an exception of the library
    ends the run. *)
Definition call_cross_val_score (est : estimator) (lX ly : loc) : M Scores :=
  X ← read lX;
  y ← read ly;
  scores ← lift (cross_val_score est X y);
  fun st => Ok (scores,
                State (rng st) (heap st) (cv_calls st ++ [(est, X, y)])).

Definition get_results (dataset : Bunch)
  : M ((F * F) * (F * F) * (F * F)) :=
  let X_full := bunch_data dataset in
  let y_full := bunch_target dataset in
  n_samples ← shape_at X_full 0;
  n_features ← shape_at X_full 1;
  (* Estimate the score on the entire dataset, with no missing values *)
  let estimator := RandomForest in
  full_scores ← call_cross_val_score estimator X_full y_full;
  (* Add missing values in 75% of the lines *)
  let n_missing_samples := Qfloor (inject_Z n_samples * missing_rate) in
  zeros ← lift (np_full (n_samples - n_missing_samples) false);
  ones ← lift (np_full n_missing_samples true);
  (* the mask has no other reference, so shuffling it in place is
     rendered as rebinding the name *)
  missing_samples ← rng_shuffle (zeros ++ ones);
  missing_features ← rng_randint 0 n_features n_missing_samples;
  (* Estimate the score after replacing missing values by 0 *)
  X_missing ← copy X_full;
  setitem X_missing (np_where missing_samples) missing_features zero;;
  y_missing ← copy y_full;
  let estimator := RandomForest in
  zero_impute_scores ← call_cross_val_score estimator X_missing y_missing;
  (* Estimate the score after imputation (mean strategy) of the missing values *)
  X_missing ← copy X_full;
  setitem X_missing (np_where missing_samples) missing_features zero;;
  y_missing ← copy y_full;
  let estimator := ImputeThenForest in
  mean_impute_scores ← call_cross_val_score estimator X_missing y_missing;
  mret ((mean full_scores, std full_scores),
        (mean zero_impute_scores, std zero_impute_scores),
        (mean mean_impute_scores, std mean_impute_scores)).

(** The two calls of the script, one after the other on the same
    generator. *)
Definition both_results (diabetes boston : Bunch) :=
  results_diabetes ← get_results diabetes;
  results_boston ← get_results boston;
  mret (results_diabetes, results_boston).
End GetResults.

(** The corrupted copy of the data: the result of the indexed assignment
    of [v] for the drawn samples and features. *)
Definition corrupted {F} (v : F) (aX : ndarray F) (missing_samples : list bool)
    (missing_features : list Z) : result (ndarray F) :=
  setitem_pairs aX (np_where missing_samples) missing_features v.

Arguments State {F} rng heap cv_calls.
Arguments rng {F} _.
Arguments heap {F} _.
Arguments cv_calls {F} _.

(** *** A small run

    A dataset of four samples with two features over the integers, in a
    store that holds nothing else, with a scoring function that adds up
    the data. *)

Definition example_X : ndarray Z :=
  NdArray [4; 2] [11; 12; 21; 22; 31; 32; 41; 42]%Z.

Definition example_y : ndarray Z := NdArray [4] [1; 2; 3; 4]%Z.

Definition example_dataset : Bunch := MkBunch 1%positive 2%positive.

Definition example_state : @state Z :=
  State (answering (fun k => 7 * k + 3) 0)
        (<[2%positive := example_y]> (<[1%positive := example_X]> ∅)) [].

Definition example_score (est : estimator) (X y : ndarray Z) : Z :=
  foldr Z.add 0%Z (data X).

Definition example_run :=
  get_results 0%Z (returning example_score) id (fun _ => 0%Z)
    example_dataset example_state.

End Impute.

(** ** The caching section of [plot_compare_reduction]

    The second code block of the page creates a temporary directory,
    hands it to the pipeline as its cache, runs the grid search and
    removes the directory.  The file system is the set of the paths
    that exist (the root, the empty path, always does); a path is the
    list of its components. *)

Module Cache.
Import Py.

Abbreviation path := (list string).

Definition parent (p : path) : path := take (length p - 1) p.

Definition present (fs : gset path) (p : path) : Prop := p = [] \/ p ∈ fs.

(** [os.mkdir(p)] *)
Definition mkdir (p : path) (fs : gset path) : result (gset path) :=
  if bool_decide (present fs p) then Error FileExistsError
  else if bool_decide (present fs (parent p)) then Ok ({[p]} ∪ fs)
  else Error FileNotFoundError.

(** The non-empty prefixes of a path: the path and its ancestors. *)
Definition prefixes (p : path) : list path :=
  (fun k => take k p) <$> seq 1 (length p).

(** [os.makedirs(p, exist_ok=True)] *)
Definition makedirs (p : path) (fs : gset path) : gset path :=
  list_to_set (prefixes p) ∪ fs.

(** [shutil.rmtree(p)]: [p] and everything below it. *)
Definition rmtree_fs (p : path) (fs : gset path) : result (gset path) :=
  if bool_decide (p ∈ fs) then Ok (filter (fun q => ¬ p `prefix_of` q) fs)
  else Error FileNotFoundError.

(** [tempfile.TMP_MAX], the number of names [tempfile] tries: the
    [TMP_MAX] of the C library where the platform defines one, here
    that of Linux, where the output shown on the page was produced. *)
Definition TMP_MAX : nat := 62 * 62 * 62.

(** [tempfile.mkdtemp()]: the first candidate name that does not exist
    in the temporary directory [dir] becomes a new directory. *)
Fixpoint mkdtemp_try (names : list string) (dir : path) (fs : gset path)
  : result (path * gset path) :=
  match names with
  | [] => Error FileExistsError
  | name :: rest =>
      match mkdir (dir ++ [name]) fs with
      | Ok fs' => Ok (dir ++ [name], fs')
      | Error FileExistsError => mkdtemp_try rest dir fs
      | Error e => Error e
      end
  end.

(** The library calls of the section whose outcome the paths that
    exist do not decide. *)
Inductive library_call :=
| Memory_call
| load_digits_call
| fit_call.

Section Script.
(** The environment of a run: the system's temporary directory, the
    candidate names [tempfile] draws, the paths, relative to its
    directory, of the entries the cache stores during the search, and
    the exception, if any, that a library call raises. *)
Variable tempdir : path.
Variable names : list string.
Variable entries : list path.
Variable raises : library_call -> option error.

(** A statement returns or raises; either way it leaves a file
    system. *)
Definition M (A : Type) : Type := gset path -> result A * gset path.

#[export] Instance M_ret : MRet M := fun A a fs => (Ok a, fs).
#[export] Instance M_bind : MBind M :=
  fun A B f m fs => match m fs with
                    | (Ok a, fs') => f a fs'
                    | (Error e, fs') => (Error e, fs')
                    end.

Definition outcome_of (c : library_call) : result unit :=
  match raises c with Some e => Error e | None => Ok tt end.

Definition mkdtemp : M path :=
  fun fs => match mkdtemp_try (take TMP_MAX names) tempdir fs with
            | Ok (p, fs') => (Ok p, fs')
            | Error e => (Error e, fs)
            end.

Definition rmtree (p : path) : M unit :=
  fun fs => match rmtree_fs p fs with
            | Ok fs' => (Ok tt, fs')
            | Error e => (Error e, fs)
            end.

(** [Memory(cachedir=...)]: the cache lives in the sub-directory
    [joblib], which the constructor creates as its last step. *)
Record Memory_ := { location : path }.

Definition Memory (cachedir : path) : M Memory_ :=
  fun fs => match outcome_of Memory_call with
            | Ok _ => (Ok {| location := cachedir ++ ["joblib"] |},
                       makedirs (cachedir ++ ["joblib"]) fs)
            | Error e => (Error e, fs)
            end.

(** A pipeline keeps the cache it was given; a grid search keeps its
    estimator. *)
Record Pipeline_ := { memory_of : Memory_ }.
Record GridSearchCV_ := { estimator_of : Pipeline_ }.

(** [load_digits()] reads the data shipped with the library. *)
Definition load_digits : M unit :=
  fun fs => (outcome_of load_digits_call, fs).

(** [grid.fit(...)]: fitting stores the transformers in the cache of
    the pipeline; [entries] is what has been stored when the call
    returns or raises. *)
Definition fit (grid : GridSearchCV_) (digits : unit) : M unit :=
  fun fs =>
    let base := location (memory_of (estimator_of grid)) in
    (outcome_of fit_call, foldr (fun e => makedirs (base ++ e)) fs entries).

Definition caching_section : M unit :=
  (* Create a temporary folder to store the transformers of the pipeline *)
  cachedir ← mkdtemp;
  memory ← Memory cachedir;
  let cached_pipe := {| memory_of := memory |} in
  (* This time, a cached pipeline will be used within the grid search *)
  let grid := {| estimator_of := cached_pipe |} in
  digits ← load_digits;
  fit grid digits;;
  (* Delete the temporary cache before exiting *)
  rmtree cachedir.
End Script.

(** No library call raises. *)
Definition none_raises : library_call -> option error := fun _ => None.


(** A file system in which every path has its parent. *)
Definition well_formed (fs : gset path) : Prop :=
  forall p, p ∈ fs -> p ≠ [] /\ present fs (parent p).

(** While the cache directory [c] exists, a file system [S] that grew
    out of [fs] differs from it only below [c]. *)
Definition grown (fs : gset path) (c : path) (S : gset path) : Prop :=
  fs ⊆ S /\ c ∈ S /\ forall x, x ∈ S -> x ∈ fs \/ c `prefix_of` x.

(** A small file system: a temporary directory in which the first
    candidate name is taken, and a cache of three entries. *)
Definition example_fs : gset path := {[ ["tmp"]; ["tmp"; "tmpa"]; ["home"] ]}.
Definition example_names : list string := ["tmpa"; "tmpb"].
Definition example_entries : list path :=
  [["sklearn"; "pipeline"; "a"]; ["sklearn"; "pipeline"; "b"]; ["x"]].

(** Functions and methods through which the libraries used by the
    scripts create files or directories. *)
Definition filesystem_writers : list string :=
  ["mkdtemp"; "mkstemp"; "NamedTemporaryFile"; "TemporaryDirectory";
   "Memory"; "open"; "mkdir"; "makedirs"; "savefig"; "imsave"; "save";
   "savez"; "savetxt"; "tofile"; "dump"; "to_csv"; "write"].

End Cache.

(** ** The figure of the imputation example

    The module-level statements of the notebook after [get_results]:
    both calls, the columns of the two result arrays, and the two loops
    that draw the bars.  A two-dimensional array of results is the list
    of its rows.  Calls that only decorate the axes are left out. *)

Module ImputePlot.
Import Syntax Numpy Py Impute.

#[export] Instance result_ret : MRet result := fun A a => Ok a.
#[export] Instance result_bind : MBind result :=
  fun A B f r => match r with Ok a => f a | Error e => Error e end.
#[export] Instance result_fmap : FMap result :=
  fun A B f r => match r with Ok a => Ok (f a) | Error e => Error e end.

Fixpoint mapR {A B} (f : A -> result B) (l : list A) : result (list B) :=
  match l with
  | [] => Ok []
  | a :: l' => b ← f a; bs ← mapR f l'; Ok (b :: bs)
  end.

(** [l[j]] on a list or a one-dimensional array. *)
Definition getitem {A} (l : list A) (j : Z) : result A :=
  match norm_index (length l) j with
  | Some k => match l !! k with Some a => Ok a | None => Error IndexError end
  | None => Error IndexError
  end.

(** [a[:, j]] on a two-dimensional array. *)
Definition column {A} (a : list (list A)) (j : Z) : result (list A) :=
  mapR (fun row => getitem row j) a.

(** [np.arange(n)] *)
Definition arange (n : nat) : list Z := Z.of_nat <$> seq 0 n.

Definition imputation := Scripts.plot_missing_values_body.

Definition x_labels : list expr :=
  default [] (Grid.list_literal imputation (Name "x_labels")).
Definition colors : list expr :=
  default [] (Grid.list_literal imputation (Name "colors")).

(** One call of [barh]: position, width, error bar and colour. *)
Record bar (F : Type) := Bar {
  bar_y : Z; bar_width : F; bar_xerr : F; bar_color : expr
}.
Arguments Bar {F} bar_y bar_width bar_xerr bar_color.
Arguments bar_y {F} _.
Arguments bar_width {F} _.
Arguments bar_xerr {F} _.
Arguments bar_color {F} _.

(** What is drawn on one pair of axes. *)
Record axes (F : Type) := Axes {
  bars : list (bar F); yticks : list Z; yticklabels : list expr
}.
Arguments Axes {F} bars yticks yticklabels.
Arguments bars {F} _.
Arguments yticks {F} _.
Arguments yticklabels {F} _.

(** The scores [get_results] returns for the data [aX], its corrupted
    copy [Xm] and the targets [ay], when [cross_val_score] returns. *)
Definition scores_of {F Scores : Type}
    (cross_val_score : estimator -> ndarray F -> ndarray F -> Scores)
    (mean std : Scores -> F) (aX Xm ay : ndarray F)
  : (F * F) * (F * F) * (F * F) :=
  ((mean (cross_val_score RandomForest aX ay),
    std (cross_val_score RandomForest aX ay)),
   (mean (cross_val_score RandomForest Xm ay),
    std (cross_val_score RandomForest Xm ay)),
   (mean (cross_val_score ImputeThenForest Xm ay),
    std (cross_val_score ImputeThenForest Xm ay))).

Section Figure.
Context {F Scores : Type} (zero : F).
Variable cross_val_score :
  estimator -> ndarray F -> ndarray F -> result Scores.
Variables mean std : Scores -> F.
(** Multiplication by [-1]. *)
Variable neg : F -> F.

(** [np.array(t)] of the triple of pairs [get_results] returns. *)
Definition np_array (t : (F * F) * (F * F) * (F * F)) : list (list F) :=
  let '((a0, b0), (a1, b1), (a2, b2)) := t in [[a0; b0]; [a1; b1]; [a2; b2]].

(** [for j in xval: ax.barh(j, mses[j], xerr=stds[j], color=colors[j], ...)] *)
Definition barh_loop (xval : list Z) (mses stds : list F)
  : result (list (bar F)) :=
  mapR (fun j => w ← getitem mses j;
                 e ← getitem stds j;
                 c ← getitem colors j;
                 Ok (Bar j w e c)) xval.

Definition figure (diabetes boston : Bunch) : @M F (axes F * axes F) :=
  r ← get_results zero cross_val_score mean std diabetes;
  let results_diabetes := np_array r in
  mses_diabetes ← lift (F:=F) (map neg <$> column results_diabetes 0);
  stds_diabetes ← lift (F:=F) (column results_diabetes 1);
  r ← get_results zero cross_val_score mean std boston;
  let results_boston := np_array r in
  mses_boston ← lift (F:=F) (map neg <$> column results_boston 0);
  stds_boston ← lift (F:=F) (column results_boston 1);
  let n_bars := length mses_diabetes in
  let xval := arange n_bars in
  (* plot diabetes results *)
  bars1 ← lift (F:=F) (barh_loop xval mses_diabetes stds_diabetes);
  let ax1 := Axes bars1 xval x_labels in
  (* plot boston results *)
  bars2 ← lift (F:=F) (barh_loop xval mses_boston stds_boston);
  let ax2 := Axes bars2 xval (replicate n_bars (Str EmptyString)) in
  mret (ax1, ax2).
End Figure.

(** *** Small runs

    A second dataset of two samples with three features beside the one
    of [example_state], and a store in which the data of the first
    dataset is one-dimensional. *)

Definition example_boston : Bunch := MkBunch 3%positive 4%positive.

Definition example_boston_X : ndarray Z :=
  NdArray [2; 3] [5; 6; 7; 8; 9; 10]%Z.

Definition example_boston_y : ndarray Z := NdArray [2] [1; 0]%Z.

Definition example_two_state : @state Z :=
  State (rng example_state)
        (<[4%positive := example_boston_y]>
           (<[3%positive := example_boston_X]> (heap example_state))) [].

Definition example_flat_X : ndarray Z := NdArray [8] (data example_X).

Definition example_flat_state : @state Z :=
  State (rng example_state)
        (<[1%positive := example_flat_X]> (heap example_state)) [].

End ImputePlot.

(** ** Meshes

    The array operations with which the two Gaussian-process examples
    build the points of a mesh, evaluate a function on them and bring
    the values back into the shape of the mesh. *)

Module Mesh.
Import Numpy.

Section Arrays.
Context {A : Type}.

(** [np.meshgrid(x, y)]: two arrays of shape [(len(y), len(x))]; the
    first repeats [x] in every row, the second repeats [y] in every
    column. *)
Definition meshgrid (x y : list A) : ndarray A * ndarray A :=
  (NdArray [length y; length x] (concat (replicate (length y) x)),
   NdArray [length y; length x] (flat_map (replicate (length x)) y)).

(** [a.size] *)
Definition size (a : ndarray A) : nat := size_of (shape a).

(** [a.ravel()] *)
Definition ravel (a : ndarray A) : ndarray A := NdArray [size a] (data a).

(** [np.atleast_2d(a)] *)
Definition atleast_2d (a : ndarray A) : ndarray A :=
  match shape a with
  | [] => NdArray [1; 1] (data a)
  | [n] => NdArray [1; n] (data a)
  | _ => a
  end.

(** [np.vstack(l)]: the arrays, made at least two-dimensional, one below
    the other.  They must agree in every dimension but the first;
    [None] stands for the [ValueError] raised otherwise, and for an
    empty list. *)
Definition vstack (l : list (ndarray A)) : option (ndarray A) :=
  match atleast_2d <$> l with
  | [] => None
  | a :: rest =>
      if bool_decide (Forall (fun b => tail (shape b) = tail (shape a)) rest)
      then Some (NdArray (list_sum ((fun b => hd 0 (shape b)) <$> a :: rest)
                            :: tail (shape a))
                         (concat (data <$> a :: rest)))
      else None
  end.

(** The multi-index of the element at position [k] of an array of shape
    [shp] in row-major order, and the position of a multi-index. *)
Fixpoint unravel_index (shp : list nat) (k : nat) : list nat :=
  match shp with
  | [] => []
  | _ :: rest => k `div` size_of rest :: unravel_index rest (k `mod` size_of rest)
  end.

Fixpoint ravel_index (shp idx : list nat) : nat :=
  match shp, idx with
  | _ :: rest, i :: idx' => i * size_of rest + ravel_index rest idx'
  | _, _ => 0
  end.

(** [a.T]: the axes in reverse order. *)
Definition T (a : ndarray A) : ndarray A :=
  let shp := reverse (shape a) in
  NdArray shp
    (omap (fun k => data a !! ravel_index (shape a)
                               (reverse (unravel_index shp k)))
          (seq 0 (size_of shp))).

(** [a[:, j]]: the entries with index [j] on the second axis; [None]
    stands for the [IndexError] of an array with fewer than two axes or
    of an index outside the axis. *)
Definition getitem_col (a : ndarray A) (j : Z) : option (ndarray A) :=
  match shape a with
  | n :: d :: rest =>
      c ← Impute.norm_index d j;
      Some (NdArray (n :: rest)
              (flat_map (fun r => take (size_of rest)
                                    (drop ((r * d + c) * size_of rest) (data a)))
                        (seq 0 n)))
  | _ => None
  end.

(** [a[mask, j]] on a two-dimensional array: the entries at [j] of the
    rows the boolean array [mask] selects.  [None] stands for the
    [IndexError] of a mask whose length is not the number of rows or of
    an index outside the axis; arrays of other dimensions are not
    modelled. *)
Definition getitem_mask_col (a : ndarray A) (mask : list bool) (j : Z)
  : option (ndarray A) :=
  match shape a with
  | [n; d] =>
      if bool_decide (length mask = n) then
        c ← Impute.norm_index d j;
        Some (array1 (omap (fun r => data a !! (Z.to_nat r * d + c))
                           (Impute.np_where mask)))
      else None
  | _ => None
  end.

(** [np.c_[a, b]] of two one-dimensional arrays: the array whose rows
    are the pairs of their elements; [None] stands for the [ValueError]
    of different lengths.  Arguments of other dimensions are not
    modelled. *)
Definition c_ (a b : ndarray A) : option (ndarray A) :=
  match shape a, shape b with
  | [n], [m] =>
      if bool_decide (n = m)
      then Some (NdArray [n; 2]
                   (flat_map (fun p => [fst p; snd p]) (zip (data a) (data b))))
      else None
  | _, _ => None
  end.

(** [np.array(l)] of a list of pairs: one row per pair. *)
Definition array_of_pairs (l : list (A * A)) : ndarray A :=
  NdArray [length l; 2] (flat_map (fun p => [fst p; snd p]) l).

(** The points of the mesh over [x] and [y], row by row: all of [x]
    with the first of [y], then all of [x] with the second, and so
    on. *)
Definition mesh (x y : list A) : list (A * A) :=
  flat_map (fun v => (fun u => (u, v)) <$> x) y.
End Arrays.

(** *** [plot_gpc_isoprobability] *)

Section Isoprobability.
Context {A : Type}.
(** The arithmetic of the numbers, the constants [5.], [.5] and [2.],
    the test [v > 0], and [np.linspace(- lim, lim, num)]. *)
Variables sub mul pow : A -> A -> A.
Variables five half two : A.
Variable positive : A -> bool.
Variable linspace : nat -> list A.

(** The function to predict at one point. *)
Definition g_at (p : A * A) : A :=
  sub (sub five (snd p)) (mul half (pow (fst p) two)).

(** [def g(x): return 5. - x[:, 1] - .5 * x[:, 0] ** 2.] *)
Definition g (x : ndarray A) : option (ndarray A) :=
  x1 ← getitem_col x 1;
  x0 ← getitem_col x 0;
  Some (NdArray (shape x1)
          (zip_with (fun b a => sub (sub five b) (mul half (pow a two)))
                    (data x1) (data x0))).

(** The observations and the two groups of design points drawn in red
    and in blue:
    [y = np.array(g(X) > 0, dtype=int)], then [X[y <= 0, 0]],
    [X[y <= 0, 1]], [X[y > 0, 0]] and [X[y > 0, 1]]. *)
Definition observations (X : ndarray A) : option (list Z) :=
  v ← g X;
  Some ((fun t => if positive t then 1%Z else 0%Z) <$> data v).

Definition design_points (X : ndarray A)
  : option (ndarray A * ndarray A * (ndarray A * ndarray A)) :=
  y ← observations X;
  r0 ← getitem_mask_col X ((fun t => bool_decide (t <= 0)%Z) <$> y) 0;
  r1 ← getitem_mask_col X ((fun t => bool_decide (t <= 0)%Z) <$> y) 1;
  b0 ← getitem_mask_col X ((fun t => bool_decide (0 < t)%Z) <$> y) 0;
  b1 ← getitem_mask_col X ((fun t => bool_decide (0 < t)%Z) <$> y) 1;
  Some (r0, r1, (b0, b1)).

(** The mesh and the true values on it: [x1], [x2], [xx] and the
    reshaped [y_true]. *)
Definition true_values (res : nat)
  : option (ndarray A * ndarray A * ndarray A * ndarray A) :=
  let '(x1, x2) := meshgrid (linspace res) (linspace res) in
  a ← reshape x1 [Z.of_nat (size x1)];
  b ← reshape x2 [Z.of_nat (size x2)];
  v ← vstack [a; b];
  let xx := T v in
  y_true ← g xx;
  y_true ← reshape y_true [Z.of_nat res; Z.of_nat res];
  Some (x1, x2, xx, y_true).
End Isoprobability.

(** *** [plot_gpc_iris] *)

Section Iris.
Context {A : Type}.
Variable predict_proba : ndarray A -> ndarray A.

(** The body of the loop up to [imshow], for the mesh over [x] =
    [np.arange(x_min, x_max, h)] and [y] = [np.arange(y_min, y_max, h)]:
    the points handed to [predict_proba], and the reshaped [Z]. *)
Definition probabilities (x y : list A) : option (ndarray A * ndarray A) :=
  let '(xx, yy) := meshgrid x y in
  q ← c_ (ravel xx) (ravel yy);
  let Z := predict_proba q in
  n0 ← shape xx !! 0;
  n1 ← shape xx !! 1;
  Z ← reshape Z [Z.of_nat n0; Z.of_nat n1; 3%Z];
  Some (q, Z).
End Iris.

(** *** Small instances

    The numbers as rationals, with [np.linspace(-8, 8, num)], and a
    classifier that is sure of the first class. *)

Definition linspace_Q (num : nat) : list Q :=
  (fun k => (-8) + 16 * inject_Z (Z.of_nat k)
                    / inject_Z (Z.of_nat (num - 1)))%Q <$> seq 0 num.

Definition pow_Q (a b : Q) : Q := Qpower a (Qfloor b).

Definition sure_of_first (q : ndarray Z) : ndarray Z :=
  NdArray [hd 0 (shape q); 3]
          (flat_map (fun _ => [1; 0; 0]%Z) (seq 0 (hd 0 (shape q)))).

End Mesh.

(** ** The reference lines of [plot_optics]

    The positions [space] and the two lines drawn across the
    reachability plot.  An array carries the type of its elements:
    writing a number into an integer array keeps its integral part. *)

Module Optics.
Import Numpy.

Inductive dtype := Int64 | Float64.

(** The integral part of a rational, rounding towards zero. *)
Definition truncate (v : Q) : Z :=
  if bool_decide (0 <= Qnum v)%Z then Qfloor v else Qceiling v.

(** The value an array of type [t] stores for [v]. *)
Definition cast (t : dtype) (v : Q) : Q :=
  match t with
  | Int64 => inject_Z (truncate v)
  | Float64 => v
  end.

Record typed_array := TypedArray { dtype_of : dtype; values : ndarray Q }.

(** [np.arange(n)] for an integer [n]. *)
Definition arange (n : nat) : typed_array :=
  TypedArray Int64 (array1 ((fun k => inject_Z (Z.of_nat k)) <$> seq 0 n)).

(** [np.full_like(a, fill_value)]: the shape and the type of [a]. *)
Definition full_like (a : typed_array) (fill_value : Q) : typed_array :=
  TypedArray (dtype_of a)
    (NdArray (shape (values a))
             (replicate (length (data (values a)))
                        (cast (dtype_of a) fill_value))).

(** [space = np.arange(len(X))] and the two lines drawn across the
    plot, [np.full_like(space, 0.75)] and [np.full_like(space, 0.25)],
    for an [X] of [len_X] rows. *)
Definition reference_lines (len_X : nat)
  : typed_array * typed_array * typed_array :=
  let space := arange len_X in
  (space, full_like space 0.75%Q, full_like space 0.25%Q).

End Optics.

(** ** The bar chart of [plot_compare_reduction]

    Where the plotting loop puts the bars: one group per number of
    features, one bar per reducer in every group. *)

Module Layout.
Import Syntax.

(** [np.arange(n_options) * (n_labels + 1) + .5], for
    [n_options = len(N_FEATURES_OPTIONS)] and
    [n_labels = len(reducer_labels)]. *)
Definition bar_offsets (n_options n_labels : nat) : list Q :=
  (fun k => inject_Z (Z.of_nat k) * inject_Z (Z.of_nat (n_labels + 1)) + 0.5)%Q
    <$> seq 0 n_options.

(** [bar_offsets + i], the positions of the bars of the [i]-th
    reducer. *)
Definition bar_positions (n_options n_labels i : nat) : list Q :=
  (fun o => o + inject_Z (Z.of_nat i))%Q <$> bar_offsets n_options n_labels.

(** The calls of [plt.bar] the loop over
    [enumerate(zip(reducer_labels, mean_scores))] makes: positions,
    heights, label and colour. *)
Definition bar_calls {A} (n_options : nat) (labels : list expr)
    (rows : list (list A)) (colors : string)
  : option (list (list Q * list A * expr * ascii)) :=
  mapM (fun ilr => let '(i, (label, reducer_scores)) := ilr in
          c ← String.get i colors;
          Some (bar_positions n_options (length labels) i,
                reducer_scores, label, c))
       (imap pair (zip labels rows)).

End Layout.

(** ** Reading the documented output *)

Module Text.

(** The pieces of [s] between the occurrences of [sep]. *)
Fixpoint split_aux (sep s : string) (skip : nat) (cur : string) : list string :=
  match s with
  | EmptyString => [cur]
  | String c rest =>
      match skip with
      | S k => split_aux sep rest k cur
      | 0 =>
          if String.prefix sep s
          then cur :: split_aux sep rest (String.length sep - 1) EmptyString
          else split_aux sep rest 0 (cur +:+ String c EmptyString)
      end
  end.

Definition split (sep s : string) : list string :=
  split_aux sep s 0 EmptyString.

(** The text before the first occurrence of [sep], and the text after
    it; without an occurrence, all of [s] and nothing. *)
Definition before (sep s : string) : string :=
  match String.index 0 sep s with
  | Some n => String.substring 0 n s
  | None => s
  end.

Definition after (sep s : string) : string :=
  match String.index 0 sep s with
  | Some n => String.substring (n + String.length sep)
                (String.length s - (n + String.length sep)) s
  | None => EmptyString
  end.

Fixpoint parse_digits (s : string) (acc : Z) : option Z :=
  match s with
  | EmptyString => Some acc
  | String c r =>
      let n := Z.of_nat (nat_of_ascii c) in
      if bool_decide (48 <= n <= 57)%Z then parse_digits r (10 * acc + (n - 48))%Z
      else None
  end.

(** A decimal numeral such as [0.9791666666666666] or [1.0]. *)
Definition parse_decimal (s : string) : option Q :=
  match split "." s with
  | [i] => inject_Z <$> parse_digits i 0
  | [i; f] =>
      a ← parse_digits i 0;
      b ← parse_digits f 0;
      Some (inject_Z a + inject_Z b / inject_Z (10 ^ Z.of_nat (String.length f)))%Q
  | _ => None
  end.

End Text.

(** ** The cache log of [plot_compare_reduction]

    The page shows what the cache of the pipeline printed during the
    second grid search: an entry for every transformer it fitted and an
    entry for every fitted transformer it loaded instead. *)

Module CacheLog.
Import Syntax Analysis Grid.



(** *** What a cached pipeline does

    Fitting a pipeline fits every step but the last through the cache.
    What is looked up is the transformer, with its parameters, and the
    data; the data is one fold of the cross-validation or, for the
    final fit of the best candidate, all of it. *)

Record key := Key {
  key_class : string;
  key_params : list string;
  key_fold : option nat
}.

#[global] Instance key_eq_dec : EqDecision key.
Proof. solve_decision. Defined.











(** *** Comparing with the page *)






End CacheLog.

(** ** The scores on the page of [plot_feature_stacker] *)

Module Scores.
Import Syntax Analysis Grid.

(** The lines of the [Out::] block that report a finished fit, in page
    order. *)
Definition documented_cv_ends : list string :=
  [ "[CV]  features__pca__n_components=1, features__univ_select__k=1, svm__C=0.1, score=0.9607843137254902, total=   0.0s";
    "[CV]  features__pca__n_components=1, features__univ_select__k=1, svm__C=0.1, score=0.9019607843137255, total=   0.0s";
    "[CV]  features__pca__n_components=1, features__univ_select__k=1, svm__C=0.1, score=0.9791666666666666, total=   0.0s";
    "[CV]  features__pca__n_components=1, features__univ_select__k=1, svm__C=1, score=0.9411764705882353, total=   0.0s";
    "[CV]  features__pca__n_components=1, features__univ_select__k=1, svm__C=1, score=0.9215686274509803, total=   0.0s";
    "[CV]  features__pca__n_components=1, features__univ_select__k=1, svm__C=1, score=0.9791666666666666, total=   0.0s";
    "[CV]  features__pca__n_components=1, features__univ_select__k=1, svm__C=10, score=0.9607843137254902, total=   0.0s";
    "[CV]  features__pca__n_components=1, features__univ_select__k=1, svm__C=10, score=0.9215686274509803, total=   0.0s";
    "[CV]  features__pca__n_components=1, features__univ_select__k=1, svm__C=10, score=0.9791666666666666, total=   0.0s";
    "[CV]  features__pca__n_components=1, features__univ_select__k=2, svm__C=0.1, score=0.9607843137254902, total=   0.0s";
    "[CV]  features__pca__n_components=1, features__univ_select__k=2, svm__C=0.1, score=0.9215686274509803, total=   0.0s";
    "[CV]  features__pca__n_components=1, features__univ_select__k=2, svm__C=0.1, score=0.9791666666666666, total=   0.0s";
    "[CV]  features__pca__n_components=1, features__univ_select__k=2, svm__C=1, score=0.9607843137254902, total=   0.0s";
    "[CV]  features__pca__n_components=1, features__univ_select__k=2, svm__C=1, score=0.9215686274509803, total=   0.0s";
    "[CV]  features__pca__n_components=1, features__univ_select__k=2, svm__C=1, score=1.0, total=   0.0s";
    "[CV]  features__pca__n_components=1, features__univ_select__k=2, svm__C=10, score=0.9803921568627451, total=   0.0s";
    "[CV]  features__pca__n_components=1, features__univ_select__k=2, svm__C=10, score=0.9019607843137255, total=   0.0s";
    "[CV]  features__pca__n_components=1, features__univ_select__k=2, svm__C=10, score=1.0, total=   0.0s";
    "[CV]  features__pca__n_components=2, features__univ_select__k=1, svm__C=0.1, score=0.9607843137254902, total=   0.0s";
    "[CV]  features__pca__n_components=2, features__univ_select__k=1, svm__C=0.1, score=0.9019607843137255, total=   0.0s";
    "[CV]  features__pca__n_components=2, features__univ_select__k=1, svm__C=0.1, score=0.9791666666666666, total=   0.0s";
    "[CV]  features__pca__n_components=2, features__univ_select__k=1, svm__C=1, score=0.9803921568627451, total=   0.0s";
    "[CV]  features__pca__n_components=2, features__univ_select__k=1, svm__C=1, score=0.9411764705882353, total=   0.0s";
    "[CV]  features__pca__n_components=2, features__univ_select__k=1, svm__C=1, score=0.9791666666666666, total=   0.0s";
    "[CV]  features__pca__n_components=2, features__univ_select__k=1, svm__C=10, score=0.9803921568627451, total=   0.0s";
    "[CV]  features__pca__n_components=2, features__univ_select__k=1, svm__C=10, score=0.9411764705882353, total=   0.0s";
    "[CV]  features__pca__n_components=2, features__univ_select__k=1, svm__C=10, score=0.9791666666666666, total=   0.0s";
    "[CV]  features__pca__n_components=2, features__univ_select__k=2, svm__C=0.1, score=0.9803921568627451, total=   0.0s";
    "[CV]  features__pca__n_components=2, features__univ_select__k=2, svm__C=0.1, score=0.9411764705882353, total=   0.0s";
    "[CV]  features__pca__n_components=2, features__univ_select__k=2, svm__C=0.1, score=0.9791666666666666, total=   0.0s";
    "[CV]  features__pca__n_components=2, features__univ_select__k=2, svm__C=1, score=1.0, total=   0.0s";
    "[CV]  features__pca__n_components=2, features__univ_select__k=2, svm__C=1, score=0.9607843137254902, total=   0.0s";
    "[CV]  features__pca__n_components=2, features__univ_select__k=2, svm__C=1, score=0.9791666666666666, total=   0.0s";
    "[CV]  features__pca__n_components=2, features__univ_select__k=2, svm__C=10, score=0.9803921568627451, total=   0.0s";
    "[CV]  features__pca__n_components=2, features__univ_select__k=2, svm__C=10, score=0.9215686274509803, total=   0.0s";
    "[CV]  features__pca__n_components=2, features__univ_select__k=2, svm__C=10, score=1.0, total=   0.0s";
    "[CV]  features__pca__n_components=3, features__univ_select__k=1, svm__C=0.1, score=0.9803921568627451, total=   0.0s";
    "[CV]  features__pca__n_components=3, features__univ_select__k=1, svm__C=0.1, score=0.9411764705882353, total=   0.0s";
    "[CV]  features__pca__n_components=3, features__univ_select__k=1, svm__C=0.1, score=0.9791666666666666, total=   0.0s";
    "[CV]  features__pca__n_components=3, features__univ_select__k=1, svm__C=1, score=1.0, total=   0.0s";
    "[CV]  features__pca__n_components=3, features__univ_select__k=1, svm__C=1, score=0.9411764705882353, total=   0.0s";
    "[CV]  features__pca__n_components=3, features__univ_select__k=1, svm__C=1, score=0.9791666666666666, total=   0.0s";
    "[CV]  features__pca__n_components=3, features__univ_select__k=1, svm__C=10, score=1.0, total=   0.0s";
    "[CV]  features__pca__n_components=3, features__univ_select__k=1, svm__C=10, score=0.9215686274509803, total=   0.0s";
    "[CV]  features__pca__n_components=3, features__univ_select__k=1, svm__C=10, score=1.0, total=   0.0s";
    "[CV]  features__pca__n_components=3, features__univ_select__k=2, svm__C=0.1, score=0.9803921568627451, total=   0.0s";
    "[CV]  features__pca__n_components=3, features__univ_select__k=2, svm__C=0.1, score=0.9411764705882353, total=   0.0s";
    "[CV]  features__pca__n_components=3, features__univ_select__k=2, svm__C=0.1, score=0.9791666666666666, total=   0.0s";
    "[CV]  features__pca__n_components=3, features__univ_select__k=2, svm__C=1, score=1.0, total=   0.0s";
    "[CV]  features__pca__n_components=3, features__univ_select__k=2, svm__C=1, score=0.9607843137254902, total=   0.0s";
    "[CV]  features__pca__n_components=3, features__univ_select__k=2, svm__C=1, score=0.9791666666666666, total=   0.0s";
    "[CV]  features__pca__n_components=3, features__univ_select__k=2, svm__C=10, score=1.0, total=   0.0s";
    "[CV]  features__pca__n_components=3, features__univ_select__k=2, svm__C=10, score=0.9215686274509803, total=   0.0s";
    "[CV]  features__pca__n_components=3, features__univ_select__k=2, svm__C=10, score=1.0, total=   0.0s" ].

(** The printed best estimator, lines 137 to 143 of the page. *)
Definition documented_best_estimator : list string :=
  [ "Pipeline(memory=None,";
    "     steps=[('features', FeatureUnion(n_jobs=1,";
    "       transformer_list=[('pca', PCA(copy=True, iterated_power='auto', n_components=2, random_state=None,";
    "  svd_solver='auto', tol=0.0, whiten=False)), ('univ_select', SelectKBest(k=2, score_func=<function f_classif at 0x2b60c14cbea0>))],";
    "       transformer...,";
    "  max_iter=-1, probability=False, random_state=None, shrinking=True,";
    "  tol=0.001, verbose=False))])" ].

(** The candidate and the score a line reports. *)
Definition reported (line : string) : option (string * Q) :=
  let rest := Text.after "[CV]  " line in
  s ← Text.parse_decimal (Text.before ", total=" (Text.after ", score=" rest));
  Some (Text.before ", score=" rest, s).

(** [mean_test_score] of the candidates: the scores of the folds of a
    candidate follow one another; the mean weighs every fold with the
    given weight. *)
Definition weighted_mean (weights scores : list Q) : Q :=
  (foldr Qplus 0 (zip_with Qmult weights scores) / foldr Qplus 0 weights)%Q.

Definition mean_test_scores (weights : list Q) (scores : list Q) : list Q :=
  weighted_mean weights
    <$> Numpy.chunks (length weights) (length scores / length weights) scores.

(** [best_index_]: the first position of the highest mean. *)
Fixpoint best_index_from (i : nat) (best : option (nat * Q)) (means : list Q)
  : option nat :=
  match means with
  | [] => fst <$> best
  | m :: rest =>
      let best' := match best with
                   | Some (j, b) => if Qlt_le_dec b m then Some (i, m)
                                    else Some (j, b)
                   | None => Some (i, m)
                   end in
      best_index_from (S i) best' rest
  end.

Definition best_index (means : list Q) : option nat :=
  best_index_from 0 None means.

(** The candidate [print(grid_search.best_estimator_)] shows, from the
    reported scores. *)
Definition best_candidate (gs : grid_search) (weights : list Q)
    (lines : list string) : option (list (string * expr)) :=
  rs ← mapM reported lines;
  i ← best_index (mean_test_scores weights (snd <$> rs));
  candidates gs !! i.

(** The printed estimator shows the value [v] for the parameter [p] of
    the class [cls]. *)
Definition prints (printed : list string) (cls p v : string) : bool :=
  let text := String.concat " " printed in
  bool_decide (p +:+ "=" +:+ v
               ∈ Text.split ", " (Text.before ")" (Text.after (cls +:+ "(") text))).

End Scores.

(** ** Names

    A semantics of the statements that keeps only which names are
    bound.  Reading a name that is not bound raises [NameError].  The
    scripts use assignments, imports, expressions, [for] loops and
    functions defined at module level that do not call one another;
    other statements are outside this semantics.  How often a loop iterates is fixed by an oracle, as
    in the semantics of failures. *)

Module Names.
Import Syntax Analysis.

(** The names Python provides without an import, as far as the scripts
    use them. *)
Definition predefined : list string := "__doc__" :: builtins.

(** The names the evaluation of an expression reads.  The parameters of
    a [lambda] and the targets of a comprehension are bound inside
    it. *)
Fixpoint free_names (e : expr) : list string :=
  match e with
  | Name x => [x]
  | Num _ | Str _ => []
  | Attribute v _ => free_names v
  | Call f args kws =>
      free_names f ++ flat_map free_names args
        ++ flat_map (fun kv => free_names (snd kv)) kws
  | Subscript v i => free_names v ++ free_names i
  | Slice a b c =>
      opt_nodes free_names a ++ opt_nodes free_names b
        ++ opt_nodes free_names c
  | BinOp l _ r => free_names l ++ free_names r
  | UnaryOp _ x => free_names x
  | Compare l _ r => free_names l ++ free_names r
  | IfExp c a b => free_names c ++ free_names a ++ free_names b
  | Lambda ps b => filter (fun x => x ∉ ps) (free_names b)
  | ListComp x t i ifs =>
      free_names i
        ++ filter (fun y => y ∉ target_names t)
                  (free_names t ++ free_names x
                     ++ flat_map free_names ifs)
  | ListE l | TupleE l => flat_map free_names l
  | DictE items =>
      flat_map (fun kv => free_names (fst kv) ++ free_names (snd kv)) items
  end.

(** The plain names an expression calls. *)
Definition called (e : expr) : list string :=
  flat_map (fun n => match n with Call (Name g) _ _ => [g] | _ => [] end)
           (expr_nodes e).

Record state := State {
  env : list string;     (* the names bound in the scope that is running *)
  decisions : nat        (* the loops met so far *)
}.

Inductive outcome :=
| Normal (st : state)
| Returned (st : state)
| NameError (x : string)
| Unsupported.

Definition M : Type := state -> outcome.

Definition ret : M := Normal.

Definition andthen (m1 m2 : M) : M :=
  fun st => match m1 st with
            | Normal st' => m2 st'
            | o => o
            end.

Declare Scope names_scope.
Delimit Scope names_scope with names.
Notation "m1 ;; m2" := (andthen m1 m2)
  (at level 100, m2 at level 200, right associativity) : names_scope.
Local Open Scope names_scope.

Fixpoint mseq {A} (f : A -> M) (l : list A) : M :=
  match l with
  | [] => ret
  | a :: l' => f a ;; mseq f l'
  end.

Fixpoint repeat_m (n : nat) (m : M) : M :=
  match n with
  | 0 => ret
  | S n' => m ;; repeat_m n' m
  end.

(** Reading names: the first one that is not bound raises. *)
Definition reads (xs : list string) : M :=
  fun st => match find (fun x => negb (bool_decide (x ∈ env st))) xs with
            | Some x => NameError x
            | None => Normal st
            end.

Definition binds (xs : list string) : M :=
  fun st => Normal (State (xs ++ env st) (decisions st)).

(** A loop whose body runs as often as the oracle says. *)
Definition iterate (trips : nat -> nat) (body : M) : M :=
  fun st => repeat_m (trips (decisions st)) body
                     (State (env st) (S (decisions st))).

(** A loop checked once: the body must run from the names bound before
    the loop, and what it binds is forgotten, since the loop may not
    iterate at all.  A body that returns is not accepted. *)
Definition once (body : M) : M :=
  fun st => match body st with
            | Normal _ => Normal st
            | Returned _ => Unsupported
            | o => o
            end.

Section Semantics.
(** The functions of the script, how a loop runs its body, and the
    interpretation of the bodies of called functions. *)
Variable fns : list (string * list string * list stmt).
Variable loop : M -> M.
Variable callee : list stmt -> M.

Definition lookup_fn (g : string) : option (list string * list stmt) :=
  (fun f => (snd (fst f), snd f))
    <$> find (fun f => String.eqb (fst (fst f)) g) fns.

(** A call of a function of the script runs its body in a scope of its
    own: the parameters are bound, the names the function assigns are
    its own, every other name is the one of the caller's scope at the
    time of the call.  The scope of the caller is as before when the
    call returns. *)
Definition call (g : string) : M :=
  match lookup_fn g with
  | Some (ps, body) =>
      fun st =>
        match callee body
                (State (ps ++ filter (fun x => x ∉ local_names ps body) (env st))
                       (decisions st)) with
        | Normal st' | Returned st' => Normal (State (env st) (decisions st'))
        | o => o
        end
  | None => ret
  end.

Definition eval (e : expr) : M := reads (free_names e) ;; mseq call (called e).

Fixpoint exec (s : stmt) : M :=
  match s with
  | Magic _ => ret
  | Import m a => binds [default (root_package m) a]
  | ImportFrom _ names => binds ((fun na => default (fst na) (snd na)) <$> names)
  | Assign ts v =>
      eval v ;; mseq eval (flat_map target_loads ts) ;;
      binds (flat_map target_names ts)
  | ExprStmt v => eval v
  | Return o => mseq eval (opt_nodes (fun v => [v]) o) ;; Returned
  | For t i b =>
      eval i ;;
      loop (mseq eval (target_loads t) ;; binds (target_names t) ;; mseq exec b)
  | FunctionDef f _ _ => binds [f]
  | Raise _ | While _ _ | If _ _ _ | Try _ _ _ | With _ _ | ClassDef _ _ _ =>
      fun _ => Unsupported
  end.

Definition exec_block (b : list stmt) : M := mseq exec b.
End Semantics.

(** A function of the script that calls a function of the script is
    outside this semantics: the body of a called function runs with
    such calls unsupported. *)
Definition no_calls : list stmt -> M := fun _ _ => Unsupported.

(** The run of a block under an oracle, and its check, in which every
    loop is checked once. *)
Definition run_block (fns : list (string * list string * list stmt))
    (trips : nat -> nat) (b : list stmt) : M :=
  exec_block fns (iterate trips)
             (exec_block fns (iterate trips) no_calls) b.

Definition check_block (fns : list (string * list string * list stmt))
    (b : list stmt) : M :=
  exec_block fns once (exec_block fns once no_calls) b.

Definition initial : state := State predefined 0.

Definition run (trips : nat -> nat) (sc : script) : outcome :=
  run_block (functions (script_body sc)) trips (script_body sc) initial.

Definition check (sc : script) : outcome :=
  check_block (functions (script_body sc)) (script_body sc) initial.

Definition completes (o : outcome) : bool :=
  match o with Normal _ => true | _ => false end.

(** A check simulates every run: from a scope that binds at least the
    names the check has bound, a run ends as the check does, binds at
    least what the check binds, and loses no name. *)
Definition sim (ma mc : M) : Prop :=
  forall sa sc, env sa ⊆ env sc ->
    match ma sa with
    | Normal sa' =>
        exists sc', mc sc = Normal sc' /\ env sa' ⊆ env sc' /\ env sc ⊆ env sc'
    | Returned _ => exists sc', mc sc = Returned sc'
    | _ => True
    end.

End Names.

(** * Properties *)

(** ** Propagation of exceptions *)

Section PropagationFacts.
Import Syntax Analysis Exec.
Local Open Scope exec_scope.

Variable O : oracle.
Variable U : list string.

#[local] Abbreviation spec := (Exec.spec O U).

Lemma spec_ret : spec ret.
Proof. intros w Hd Hc. unfold ret, post; simpl. auto. Qed.

Lemma spec_finish_returned : spec (finish Returned).
Proof. intros w Hd Hc. unfold finish, post; simpl. auto. Qed.

Lemma spec_operation : spec (operation O).
Proof.
  intros w Hd Hc. unfold operation, post.
  destruct (fails O (ops w)) as [c|] eqn:E; simpl.
  - repeat split; try lia; auto.
    + intros k Hk. apply Hc. lia.
    + exists c. rewrite Nat.sub_0_r. auto.
  - repeat split; try lia; auto.
    intros k Hk. destruct (decide (k = ops w)) as [->|]; [done|].
    apply Hc. lia.
Qed.

Lemma spec_andthen m1 m2 : spec m1 -> spec m2 -> spec (m1 ;; m2).
Proof.
  intros H1 H2 w Hd Hc. unfold andthen.
  specialize (H1 w Hd Hc). destruct (m1 w) as [o w1].
  destruct H1 as (Hle & Hd1 & Ho). simpl in *.
  destruct o; try (unfold post; simpl; auto; fail).
  specialize (H2 w1 Hd1 Ho). destruct (m2 w1) as [o2 w2].
  destruct H2 as (Hle2 & Hd2 & Ho2). simpl in *.
  unfold post; simpl. repeat split; [lia|auto|].
  destruct o2; auto. destruct Ho2 as (? & ? & ?). repeat split; auto. lia.
Qed.

Lemma spec_mseq {A} (f : A -> M) (l : list A) :
  Forall (fun a => spec (f a)) l -> spec (mseq f l).
Proof.
  induction 1; simpl; [apply spec_ret | apply spec_andthen; auto].
Qed.

Lemma spec_mopt {A} (f : A -> M) (o : option A) :
  (forall a, o = Some a -> spec (f a)) -> spec (mopt f o).
Proof. destruct o; simpl; intros H; [auto | apply spec_ret]. Qed.

Lemma spec_repeat n m : spec m -> spec (repeat_m n m).
Proof.
  intros H. induction n; simpl; [apply spec_ret | apply spec_andthen; auto].
Qed.

Lemma spec_decide_trips k :
  (forall n, spec (k n)) -> spec (decide_trips O k).
Proof.
  intros H w Hd Hc. unfold decide_trips.
  apply (H _ (World (ops w) (S (decisions w)) (defs w))); auto.
Qed.

Lemma spec_decide_choice k :
  (forall b, spec (k b)) -> spec (decide_choice O k).
Proof.
  intros H w Hd Hc. unfold decide_choice.
  apply (H _ (World (ops w) (S (decisions w)) (defs w))); auto.
Qed.

(** Node-wise conditions and the induction hypotheses of the nested
    syntax. *)

Lemma forallb_flat_map {A B} (p : B -> bool) (g : A -> list B) (l : list A) :
  forallb p (flat_map g l) = true ->
  Forall (fun a => forallb p (g a) = true) l.
Proof.
  induction l as [|a l IH]; simpl; [constructor|].
  rewrite forallb_app, andb_true_iff. intros [? ?]. constructor; auto.
Qed.

Lemma list_all_Forall {A} (P Q : A -> Prop) (l : list A) :
  list_all A (fun a => Q a -> P a) l -> Forall Q l -> Forall P l.
Proof.
  induction 1 as [|a Ha l Hl IH]; intros HQ; [constructor|].
  inversion HQ; subst. constructor; auto.
Qed.

Lemma list_all_snd {A B} (P Q : B -> Prop) (l : list (A * B)) :
  list_all (A * B) (prod_all A (fun _ => unit) B (fun b => Q b -> P b)) l ->
  Forall (fun kv => Q (snd kv)) l -> Forall (fun kv => P (snd kv)) l.
Proof.
  induction 1 as [|a Ha l Hl IH]; intros HQ; [constructor|].
  inversion HQ; subst. constructor; auto.
  destruct Ha; simpl in *; auto.
Qed.

Lemma list_all_pair {A} (P Q : A -> Prop) (l : list (A * A)) :
  list_all (A * A)
           (prod_all A (fun b => Q b -> P b) A (fun b => Q b -> P b)) l ->
  Forall (fun kv => Q (fst kv) /\ Q (snd kv)) l ->
  Forall (fun kv => P (fst kv) /\ P (snd kv)) l.
Proof.
  induction 1 as [|a Ha l Hl IH]; intros HQ; [constructor|].
  inversion HQ; subst. constructor; auto.
  destruct Ha; simpl in *; tauto.
Qed.

Lemma option_all_Some {A} (P Q : A -> Prop) (o : option A) :
  option_all A (fun a => Q a -> P a) o ->
  (forall a, o = Some a -> Q a) -> forall a, o = Some a -> P a.
Proof. destruct 1; intros HQ b [= <-]; auto. Qed.

Section Interpreter.
Variable callee : list stmt -> M.
Variables (ps : stmt -> bool) (pe : expr -> bool).

Hypothesis ps_top : forall s, ps s = true -> top_stmt U s = true.
Hypothesis pe_call :
  forall g a k, pe (Call (Name g) a k) = true ->
  forall w fb, defs_ok U w -> lookup_def g w = Some fb -> spec (callee fb).

#[local] Abbreviation good_expr := (fun e => forallb pe (expr_nodes e) = true).
#[local] Abbreviation good_stmt := (fun s => node_ok ps pe s = true).

Lemma spec_invoke f a k : pe (Call f a k) = true -> spec (invoke O callee f).
Proof.
  intros Hpe w Hd Hc. unfold invoke.
  destruct f; try (apply spec_operation; auto).
  destruct (lookup_def id w) as [fb|] eqn:E; [|apply spec_operation; auto].
  pose proof (pe_call _ _ _ Hpe w fb Hd E w Hd Hc) as H.
  destruct (callee fb w) as [o w']. unfold post in *; simpl in *.
  destruct o; auto.
Qed.

Ltac split_good H :=
  simpl in H; rewrite ?forallb_app, ?andb_true_iff in H.

Lemma eval_spec e : good_expr e -> spec (eval O callee e).
Proof.
  induction e as
    [ id | lit | s | v IHv attr | f IHf args IHargs kws IHkws
    | v IHv i IHi | a IHa b IHb c IHc | l IHl op r IHr | op x IHx
    | l IHl op r IHr | c IHc a IHa b IHb | params b IHb
    | x IHx t IHt i IHi ifs IHifs | l IHl | l IHl | items IHitems ];
    intros H; split_good H; simpl.
  - apply spec_ret.
  - apply spec_ret.
  - apply spec_ret.
  - destruct H. apply spec_andthen; [auto | apply spec_operation].
  - destruct H as (Hpe & Hf & Ha & Hk).
    apply forallb_flat_map in Ha, Hk.
    repeat apply spec_andthen; auto.
    + apply spec_mseq. eapply (list_all_Forall _ good_expr); eauto.
    + apply spec_mseq.
      eapply (list_all_snd (fun e => spec (eval O callee e)) good_expr); eauto.
    + eapply spec_invoke; eauto.
  - destruct H as (Hpe & Hv & Hi).
    repeat apply spec_andthen; auto using spec_operation.
  - destruct H as (Hpe & Ha & Hb & Hc).
    repeat apply spec_andthen; apply spec_mopt.
    + eapply (option_all_Some _ good_expr); eauto. intros ? ->. auto.
    + eapply (option_all_Some _ good_expr); eauto. intros ? ->. auto.
    + eapply (option_all_Some _ good_expr); eauto. intros ? ->. auto.
  - destruct H as (Hpe & Hl & Hr).
    repeat apply spec_andthen; auto using spec_operation.
  - destruct H as (Hpe & Hx).
    repeat apply spec_andthen; auto using spec_operation.
  - destruct H as (Hpe & Hl & Hr).
    repeat apply spec_andthen; auto using spec_operation.
  - destruct H as (Hpe & Hc & Ha & Hb).
    apply spec_andthen; auto. apply spec_decide_choice. intros []; auto.
  - apply spec_ret.
  - destruct H as (Hpe & Hx & Ht & Hi & Hifs).
    apply forallb_flat_map in Hifs.
    apply spec_andthen; auto.
    apply spec_andthen; [apply spec_operation|].
    apply spec_decide_trips. intros n.
    apply spec_andthen; [|apply spec_operation].
    apply spec_repeat. repeat apply spec_andthen; auto using spec_operation.
    apply spec_mseq. eapply (list_all_Forall _ good_expr); eauto.
  - destruct H as (Hpe & Hl). apply forallb_flat_map in Hl.
    apply spec_mseq. eapply (list_all_Forall _ good_expr); eauto.
  - destruct H as (Hpe & Hl). apply forallb_flat_map in Hl.
    apply spec_mseq. eapply (list_all_Forall _ good_expr); eauto.
  - destruct H as (Hpe & Hl). apply forallb_flat_map in Hl.
    apply spec_mseq.
    assert (Forall (fun kv => good_expr (fst kv) /\ good_expr (snd kv)) items)
      as HQ.
    { eapply Forall_impl; [exact Hl|]. intros [k v] Hkv; simpl in *.
      rewrite forallb_app, andb_true_iff in Hkv. exact Hkv. }
    pose proof (list_all_pair (fun e => spec (eval O callee e)) good_expr
                              _ IHitems HQ) as HP.
    eapply Forall_impl; [exact HP|]. intros [k v] [? ?]; simpl in *.
    apply spec_andthen; auto.
Qed.

Lemma store_spec t : good_expr t -> spec (store O callee t).
Proof.
  induction t as
    [ id | lit | s | v IHv attr | f IHf args IHargs kws IHkws
    | v IHv i IHi | a IHa b IHb c IHc | l IHl op r IHr | op x IHx
    | l IHl op r IHr | c IHc a IHa b IHb | params b IHb
    | x IHx t IHt i IHi ifs IHifs | l IHl | l IHl | items IHitems ];
    intros H; split_good H; simpl; try apply spec_ret.
  - destruct H.
    apply spec_andthen; [apply eval_spec; auto | apply spec_operation].
  - destruct H as (Hpe & Hv & Hi).
    repeat apply spec_andthen; auto using spec_operation, eval_spec.
  - destruct H as (Hpe & Hl). apply forallb_flat_map in Hl.
    apply spec_andthen; [apply spec_operation|].
    apply spec_mseq. eapply (list_all_Forall _ good_expr); eauto.
  - destruct H as (Hpe & Hl). apply forallb_flat_map in Hl.
    apply spec_andthen; [apply spec_operation|].
    apply spec_mseq. eapply (list_all_Forall _ good_expr); eauto.
Qed.

Lemma good_block b :
  forallb (fun n => ps n && forallb pe (flat_map expr_nodes (stmt_exprs n)))
          (flat_map stmt_nodes b) = true ->
  Forall good_stmt b.
Proof. apply forallb_flat_map. Qed.

Lemma spec_block b :
  list_all stmt (fun s => good_stmt s -> spec (exec O callee s)) b ->
  Forall good_stmt b -> spec (mseq (exec O callee) b).
Proof.
  intros IH H. apply spec_mseq. eapply (list_all_Forall _ good_stmt); eauto.
Qed.

Lemma exec_spec s : good_stmt s -> spec (exec O callee s).
Proof.
  induction s as
    [ line | m a | m names | ts v | v | o | o | t i b IHb | c b IHb
    | c b IHb o IHo | b IHb hs IHhs f IHf | i b IHb | f params b IHb
    | c bases b IHb ];
    unfold node_ok; simpl;
    rewrite ?app_nil_r, ?forallb_app, ?andb_true_iff; intros H.
  - apply spec_ret.
  - apply spec_operation.
  - apply spec_operation.
  - destruct H as ((_ & H) & _).
    apply forallb_flat_map, Forall_app in H as [Hts Hv].
    inversion Hv; subst.
    apply spec_andthen; [apply eval_spec; auto|].
    apply spec_mseq. eapply Forall_impl; [exact Hts|]. apply store_spec.
  - destruct H as ((_ & H) & _). apply eval_spec; auto.
  - destruct H as ((_ & H) & _).
    apply spec_andthen; [|apply spec_finish_returned].
    apply spec_mopt. intros a ->. simpl in H.
    rewrite app_nil_r in H. apply eval_spec; auto.
  - destruct H as ((H & _) & _). apply ps_top in H. discriminate H.
  - destruct H as ((_ & Ht & Hi) & Hb).
    apply spec_andthen; [apply eval_spec; auto|].
    apply spec_andthen; [apply spec_operation|].
    apply spec_decide_trips. intros n.
    apply spec_andthen; [|apply spec_operation].
    apply spec_repeat.
    apply spec_andthen; [apply spec_operation|].
    apply spec_andthen; [apply store_spec; auto|].
    apply spec_block; auto using good_block.
  - destruct H as ((_ & Hc) & Hb).
    apply spec_decide_trips. intros n.
    apply spec_andthen; [|apply eval_spec; auto].
    apply spec_repeat. apply spec_andthen; [apply eval_spec; auto|].
    apply spec_block; auto using good_block.
  - destruct H as ((_ & Hc) & Hb & Ho).
    apply spec_andthen; [apply eval_spec; auto|].
    apply spec_decide_choice.
    intros []; apply spec_block; auto using good_block.
  - destruct H as ((H & _) & _). apply ps_top in H. discriminate H.
  - destruct H as ((H & _) & _). apply ps_top in H. discriminate H.
  - destruct H as ((H & _) & _). apply ps_top in H.
    intros w Hd Hc. unfold define, post; simpl.
    unfold top_stmt in H; simpl in H.
    apply andb_true_iff in H as [Hf Hb].
    apply bool_decide_eq_true in Hf.
    repeat split; auto. constructor; auto.
  - destruct H as ((H & _) & _). apply ps_top in H. discriminate H.
Qed.

Lemma exec_block_spec b :
  forallb (node_ok ps pe) b = true -> spec (exec_block O callee b).
Proof.
  intros H. apply spec_mseq. apply Forall_forall. intros s Hs.
  apply exec_spec.
  rewrite forallb_forall in H. apply H. apply list_elem_of_In, Hs.
Qed.
End Interpreter.

Lemma lookup_def_elem_of g w fb :
  lookup_def g w = Some fb -> (g, fb) ∈ defs w.
Proof.
  unfold lookup_def.
  destruct (find _ (defs w)) as [[g' fb']|] eqn:E; [|discriminate].
  simpl. intros [= <-]. apply find_some in E as [Hin Heq].
  apply String.eqb_eq in Heq. simpl in Heq. subst.
  apply list_elem_of_In, Hin.
Qed.

(** A function body runs to an outcome whatever interprets the calls
    below it, because it makes none. *)
Lemma leaf_block_spec callee fb :
  leaf_block U fb = true -> spec (exec_block O callee fb).
Proof.
  apply exec_block_spec.
  - intros s. unfold leaf_stmt, top_stmt.
    destruct s; simpl; try tauto; rewrite ?andb_false_r; auto; discriminate.
  - intros g a k Hg w fb' Hd Hl. simpl in Hg.
    apply negb_true_iff, bool_decide_eq_false in Hg.
    apply lookup_def_elem_of in Hl. unfold defs_ok in Hd.
    rewrite Forall_forall in Hd. apply Hd in Hl as [? ?]. simpl in *. tauto.
Qed.

(** With two levels of call stack a module-level block runs to an
    outcome. *)
Lemma top_block_spec n b :
  top_block U b = true -> spec (run_block O (S (S n)) b).
Proof.
  simpl. apply exec_block_spec.
  - auto.
  - intros g a k _ w fb Hd Hl.
    apply lookup_def_elem_of in Hl. unfold defs_ok in Hd.
    rewrite Forall_forall in Hd. apply Hd in Hl as [? ?]. simpl in *.
    apply leaf_block_spec. auto.
Qed.
End PropagationFacts.

Section RunFacts.
Import Syntax Analysis Exec.

Lemma handler_free_run (O : oracle) (fuel : nat) (sc : script) :
  2 <= fuel -> handler_free sc = true -> propagated O (run O fuel sc).
Proof.
  intros Hfuel Hsc. destruct fuel as [|[|n]]; try lia.
  pose proof (top_block_spec O _ n _ Hsc initial) as H.
  unfold run. destruct (run_block O (S (S n)) (script_body sc) initial) as [o w].
  destruct H as (_ & _ & H).
  - constructor.
  - intros k Hk. simpl in Hk. lia.
  - unfold propagated; simpl in *. destruct o; auto.
    destruct H as (Hlt & Hc & c & Hf & ->).
    exists c. repeat split; auto; lia.
Qed.

Lemma propagated_stops_at (O : oracle) (r : outcome * world) (k c : nat) :
  propagated O r -> first_failure O k c -> stops_at k c r.
Proof.
  unfold propagated, stops_at, first_failure, clean.
  destruct r as [o w]; simpl. intros H [Hk Hbefore].
  destruct o; auto.
  - destruct (decide (ops w <= k)); [done|].
    rewrite H in Hk by lia. discriminate.
  - destruct (decide (ops w <= k)); [done|].
    rewrite H in Hk by lia. discriminate.
  - destruct H as (c' & -> & Hpos & Hc' & Hclean).
    destruct (decide (k < ops w - 1)) as [Hlt|Hge].
    { rewrite Hclean in Hk by done. discriminate. }
    destruct (decide (ops w - 1 < k)) as [Hgt|Hle].
    { rewrite Hbefore in Hc' by done. discriminate. }
    assert (k = ops w - 1) as -> by lia.
    rewrite Hk in Hc'. injection Hc' as ->. split; [done|]. lia.
Qed.
End RunFacts.

Section RunExamples.
Import Syntax Analysis Scripts Exec.

(** When nothing fails every script runs to its end. *)
Example quiet_runs_complete :
  map (fun sc => fst (run quiet 2 sc)) scripts
  = [Normal; Normal; Normal; Normal; Normal; Normal].
Proof. vm_compute. reflexivity. Qed.

(** A failure of operation 40 ends the imputation example at that
    operation, with the exception the operation raised. *)
Example failing_run_of_imputation :
  fst (run (failing_at 40 7) 2 plot_missing_values)
  = Raised (LibraryError 7)
  /\ ops (snd (run (failing_at 40 7) 2 plot_missing_values)) = 41.
Proof. split; vm_compute; reflexivity. Qed.

(** With one level of call stack the call of [get_results] cannot
    run. *)
Example one_level_is_not_enough :
  fst (run quiet 1 plot_missing_values) = OutOfFuel.
Proof. vm_compute. reflexivity. Qed.

(** A handler is what would break propagation: this block swallows the
    failure of its first operation. *)
Example a_handler_swallows_the_exception :
  run_block (failing_at 0 7) 2
            [Try [ExprStmt (Call (Name "fit") [] [])] [(None, [])] []] initial
  = (Normal, World 1 1 [])
  /\ ~ propagated (failing_at 0 7) (Normal, World 1 1 []).
Proof.
  split; [vm_compute; reflexivity|].
  unfold propagated, clean; simpl. intros H.
  specialize (H 0 ltac:(lia)). discriminate H.
Qed.
End RunExamples.

(** ** The imputation example *)

Section ImputeFacts.
Import Numpy Py Impute.

(** *** The fraction of corrupted samples *)

Lemma floor_missing_rate (n : Z) :
  Qfloor (inject_Z n * missing_rate) = (n * 75 / 100)%Z.
Proof. unfold missing_rate, Qfloor, Qmult, inject_Z; simpl. reflexivity. Qed.

Lemma floor_missing_rate_bounds (n : Z) :
  (0 <= n)%Z ->
  (0 <= Qfloor (inject_Z n * missing_rate) <= n)%Z.
Proof.
  intros Hn. rewrite floor_missing_rate. split.
  - apply Z.div_pos; lia.
  - apply Z.div_le_upper_bound; lia.
Qed.

(** *** The generator *)

Lemma swap_Permutation {A} (i j : nat) (l : list A) : swap i j l ≡ₚ l.
Proof.
  unfold swap. destruct (l !! i) as [a|] eqn:Ei; [|done].
  destruct (l !! j) as [b|] eqn:Ej; [|done].
  by apply Permutation_insert_swap.
Qed.

Lemma rk_interval_le (max : nat) (r : RandomState) :
  (rk_interval max r).1 <= max.
Proof.
  destruct max as [|max]; [done|]. unfold rk_interval.
  pose proof (search_le r (S max) (internal_state r)) as H.
  by destruct (search r (S max) (internal_state r)).
Qed.

Lemma shuffle_from_S {A} (i : nat) (l : list A) (r : RandomState) :
  shuffle_from (S i) l r
  = shuffle_from i (swap (S i) (rk_interval (S i) r).1 l)
                 (rk_interval (S i) r).2.
Proof.
  change (shuffle_from (S i) l r)
    with (let '(j, r') := rk_interval (S i) r in
          shuffle_from i (swap (S i) j l) r').
  by destruct (rk_interval (S i) r).
Qed.

Lemma shuffle_from_Permutation {A} (i : nat) (l : list A) (r : RandomState) :
  (shuffle_from i l r).1 ≡ₚ l.
Proof.
  revert l r. induction i as [|i IH]; intros l r; [done|].
  rewrite shuffle_from_S, IH. apply swap_Permutation.
Qed.

Lemma shuffle_Permutation {A} (l : list A) (r : RandomState) :
  (shuffle l r).1 ≡ₚ l.
Proof. apply shuffle_from_Permutation. Qed.

Lemma count_true_Permutation (l1 l2 : list bool) :
  l1 ≡ₚ l2 -> count_true l1 = count_true l2.
Proof. intros H. unfold count_true. by rewrite H. Qed.

Lemma count_true_app (l1 l2 : list bool) :
  count_true (l1 ++ l2) = count_true l1 + count_true l2.
Proof. unfold count_true. by rewrite fmap_app, list_sum_app. Qed.

Lemma count_true_replicate (n : nat) (b : bool) :
  count_true (replicate n b) = n * Nat.b2n b.
Proof.
  unfold count_true. induction n as [|n IH]; [done|].
  change (list_sum (Nat.b2n <$> replicate (S n) b))
    with (Nat.b2n b + list_sum (Nat.b2n <$> replicate n b)).
  rewrite IH. lia.
Qed.

Lemma draws_S (size max : nat) (r : RandomState) :
  draws (S size) max r
  = ((rk_interval max r).1 :: (draws size max (rk_interval max r).2).1,
     (draws size max (rk_interval max r).2).2).
Proof.
  change (draws (S size) max r)
    with (let '(x, r1) := rk_interval max r in
          let '(xs, r2) := draws size max r1 in (x :: xs, r2)).
  destruct (rk_interval max r) as [x r1]. simpl.
  by destruct (draws size max r1).
Qed.

Lemma draws_spec (size max : nat) (r : RandomState) :
  length (draws size max r).1 = size
  /\ Forall (fun x => x <= max) (draws size max r).1.
Proof.
  revert r. induction size as [|size IH]; intros r.
  - split; [done|constructor].
  - rewrite draws_S. destruct (IH (rk_interval max r).2) as [Hl Hb].
    split; [simpl; by rewrite Hl|].
    constructor; [apply rk_interval_le | exact Hb].
Qed.

Lemma randint_spec (low high size : Z) (r : RandomState) :
  (low < high)%Z -> (0 <= size)%Z ->
  exists xs r', randint low high size r = Ok (xs, r')
    /\ length xs = Z.to_nat size
    /\ Forall (fun x => low <= x < high)%Z xs.
Proof.
  intros Hlh Hs. unfold randint.
  destruct (Z.leb_spec high low); [lia|].
  destruct (Z.ltb_spec size 0); [lia|].
  pose proof (draws_spec (Z.to_nat size) (Z.to_nat (high - low - 1)) r) as H1.
  destruct (draws _ _ r) as [xs r']. simpl in H1.
  destruct H1 as (Hl & Hb).
  exists ((fun x => (low + Z.of_nat x)%Z) <$> xs), r'.
  repeat split; auto.
  - by rewrite length_fmap.
  - apply Forall_fmap. eapply Forall_impl; [exact Hb|].
    intros x Hx. simpl in *. lia.
Qed.

(** *** Index arrays *)

Lemma where_from_spec (i : Z) (mask : list bool) :
  length (where_from i mask) = count_true mask
  /\ Forall (fun k => i <= k < i + Z.of_nat (length mask))%Z (where_from i mask).
Proof.
  revert i. induction mask as [|b mask IH]; intros i; simpl.
  - split; [done|constructor].
  - destruct (IH (i + 1)%Z) as [Hl Hb]. split.
    + rewrite length_app, Hl. unfold count_true. simpl. by destruct b.
    + apply Forall_app. split.
      * destruct b; constructor; [lia|constructor].
      * eapply Forall_impl; [exact Hb|]. intros k Hk. simpl in Hk. lia.
Qed.

Lemma np_where_spec (mask : list bool) :
  length (np_where mask) = count_true mask
  /\ Forall (fun k => 0 <= k < Z.of_nat (length mask))%Z (np_where mask).
Proof. apply where_from_spec. Qed.

Lemma norm_index_in_range (n : nat) (i : Z) :
  (0 <= i < Z.of_nat n)%Z -> norm_index n i = Some (Z.to_nat i).
Proof. intros H. unfold norm_index. by rewrite bool_decide_eq_true_2. Qed.

Lemma setitem_pairs_ok {A} (a : ndarray A) (n d : nat)
    (rows cols : list Z) (v : A) :
  shape a = [n; d] ->
  length rows = length cols ->
  Forall (fun r => 0 <= r < Z.of_nat n)%Z rows ->
  Forall (fun c => 0 <= c < Z.of_nat d)%Z cols ->
  exists a', setitem_pairs a rows cols v = Ok a'
             /\ shape a' = [n; d] /\ length (data a') = length (data a).
Proof.
  intros Hs Hl Hr Hc. unfold setitem_pairs, broadcast_pairs. rewrite Hs.
  rewrite bool_decide_eq_true_2 by done.
  assert (exists offs, mapM (fun rc : Z * Z => r ← norm_index n rc.1;
                                       c ← norm_index d rc.2; Some (r * d + c))
                       (zip rows cols) = Some offs) as [offs Ho].
  { apply mapM_is_Some. apply Forall_forall. intros [r c] Hin.
    apply elem_of_zip_l in Hin as Hin1. apply elem_of_zip_r in Hin as Hin2.
    rewrite Forall_forall in Hr, Hc. simpl.
    rewrite (norm_index_in_range n r), (norm_index_in_range d c) by auto.
    simpl. eauto. }
  rewrite Ho. eexists. split; [reflexivity|]. simpl. split; [done|].
  clear. generalize (data a). induction offs as [|k offs IH]; intros l; simpl; [done|].
  rewrite IH. apply length_insert.
Qed.

(** *** Runs of [get_results] *)

Context {F Scores : Type} (zero : F).
Variable cross_val_score :
  estimator -> ndarray F -> ndarray F -> result Scores.
Variables mean std : Scores -> F.

#[local] Abbreviation state := (@state F).
#[local] Abbreviation M := (@M F).

Lemma bind_ok {A B} (m : M A) (f : A -> M B) st a st' :
  m st = Ok (a, st') -> (m ≫= f) st = f a st'.
Proof. unfold mbind, M_bind. by intros ->. Qed.

Lemma bind_error {A B} (m : M A) (f : A -> M B) st e :
  m st = Error e -> (m ≫= f) st = Error e.
Proof. unfold mbind, M_bind. by intros ->. Qed.

Lemma read_ok l a (st : state) :
  heap st !! l = Some a -> read l st = Ok (a, st).
Proof. unfold read. by intros ->. Qed.

Lemma shape_at_ok l a i n (st : state) :
  heap st !! l = Some a -> shape a !! i = Some n ->
  shape_at l i st = Ok (Z.of_nat n, st).
Proof.
  intros Hl Hi. unfold shape_at. rewrite (bind_ok _ _ _ _ _ (read_ok _ _ _ Hl)).
  by rewrite Hi.
Qed.

Lemma copy_ok l a (st : state) :
  heap st !! l = Some a ->
  copy l st = Ok (fresh (dom (heap st)),
                  State (rng st) (<[fresh (dom (heap st)) := a]> (heap st))
                        (cv_calls st)).
Proof.
  intros Hl. unfold copy. by rewrite (bind_ok _ _ _ _ _ (read_ok _ _ _ Hl)).
Qed.

Lemma setitem_ok l a a' rows cols v (st : state) :
  heap st !! l = Some a -> setitem_pairs a rows cols v = Ok a' ->
  setitem l rows cols v st
  = Ok (tt, State (rng st) (<[l := a']> (heap st)) (cv_calls st)).
Proof.
  intros Hl Ha. unfold setitem.
  rewrite (bind_ok _ _ _ _ _ (read_ok _ _ _ Hl)).
  unfold lift, write, mbind, M_bind. by rewrite Ha.
Qed.

Lemma call_cross_val_score_ok est lX ly X y scores (st : state) :
  heap st !! lX = Some X -> heap st !! ly = Some y ->
  cross_val_score est X y = Ok scores ->
  call_cross_val_score cross_val_score est lX ly st
  = Ok (scores, State (rng st) (heap st) (cv_calls st ++ [(est, X, y)])).
Proof.
  intros HX Hy Hcv. unfold call_cross_val_score.
  rewrite (bind_ok _ _ _ _ _ (read_ok _ _ _ HX)).
  rewrite (bind_ok _ _ _ _ _ (read_ok _ _ _ Hy)).
  unfold lift, mbind, M_bind. by rewrite Hcv.
Qed.

Lemma call_cross_val_score_error est lX ly X y e (st : state) :
  heap st !! lX = Some X -> heap st !! ly = Some y ->
  cross_val_score est X y = Error e ->
  call_cross_val_score cross_val_score est lX ly st = Error e.
Proof.
  intros HX Hy Hcv. unfold call_cross_val_score.
  rewrite (bind_ok _ _ _ _ _ (read_ok _ _ _ HX)).
  rewrite (bind_ok _ _ _ _ _ (read_ok _ _ _ Hy)).
  unfold lift, mbind, M_bind. by rewrite Hcv.
Qed.

Lemma lift_full_ok {A} (n : Z) (x : A) (st : state) :
  (0 <= n)%Z -> lift (np_full n x) st = Ok (replicate (Z.to_nat n) x, st).
Proof.
  intros Hn. unfold lift, np_full. by destruct (Z.ltb_spec n 0); [lia|].
Qed.

Lemma fresh_lookup_ne {A} (h : gmap loc A) l a :
  h !! l = Some a -> fresh (dom h) ≠ l.
Proof.
  intros Hl Heq. apply (is_fresh (dom h)). rewrite Heq.
  apply elem_of_dom. eauto.
Qed.

Lemma shuffled_mask (n : nat) (r : RandomState) :
  let m := Qfloor (inject_Z (Z.of_nat n) * missing_rate) in
  let mask := replicate (Z.to_nat (Z.of_nat n - m)) false
                ++ replicate (Z.to_nat m) true in
  length (shuffle mask r).1 = n
  /\ count_true (shuffle mask r).1 = Z.to_nat m.
Proof.
  intros m mask.
  pose proof (floor_missing_rate_bounds (Z.of_nat n) ltac:(lia)) as Hm.
  fold m in Hm. split.
  - rewrite shuffle_Permutation. unfold mask.
    rewrite length_app, !length_replicate. lia.
  - rewrite (count_true_Permutation _ _ (shuffle_Permutation _ _)).
    unfold mask. rewrite count_true_app, !count_true_replicate. simpl. lia.
Qed.

(** A run on two-dimensional data with a feature column: the indexed
    assignment goes through, and what the run comes to is decided by
    the three calls of [cross_val_score], in order. *)
Lemma get_results_run (dataset : Bunch) (st : state)
    (aX ay : ndarray F) (n d : nat) :
  heap st !! bunch_data dataset = Some aX ->
  heap st !! bunch_target dataset = Some ay ->
  shape aX = [n; d] -> 1 <= d ->
  let m := Qfloor (inject_Z (Z.of_nat n) * missing_rate) in
  let mask := replicate (Z.to_nat (Z.of_nat n - m)) false
                ++ replicate (Z.to_nat m) true in
  let ms := (shuffle mask (rng st)).1 in
  let r1 := (shuffle mask (rng st)).2 in
  exists mf r2 Xm,
    randint 0 (Z.of_nat d) m r1 = Ok (mf, r2)
    /\ corrupted zero aX ms mf = Ok Xm
    /\ match cross_val_score RandomForest aX ay with
       | Error e =>
           get_results zero cross_val_score mean std dataset st = Error e
       | Ok s1 =>
           match cross_val_score RandomForest Xm ay with
           | Error e =>
               get_results zero cross_val_score mean std dataset st = Error e
           | Ok s2 =>
               match cross_val_score ImputeThenForest Xm ay with
               | Error e =>
                   get_results zero cross_val_score mean std dataset st
                   = Error e
               | Ok s3 =>
                   exists st',
                     get_results zero cross_val_score mean std dataset st
                     = Ok (((mean s1, std s1), (mean s2, std s2),
                            (mean s3, std s3)), st')
                     /\ rng st' = r2
                     /\ cv_calls st'
                        = cv_calls st ++ [(RandomForest, aX, ay);
                                          (RandomForest, Xm, ay);
                                          (ImputeThenForest, Xm, ay)]
                     /\ (forall l a, heap st !! l = Some a ->
                                     heap st' !! l = Some a)
               end
           end
       end.
Proof.
  intros HX Hy Hs Hd m mask ms r1.
  pose proof (floor_missing_rate_bounds (Z.of_nat n) ltac:(lia)) as Hm.
  fold m in Hm.
  destruct (randint_spec 0 (Z.of_nat d) m r1 ltac:(lia) ltac:(lia))
    as (mf & r2 & Hri & Hmfl & Hmfb).
  destruct (shuffled_mask n (rng st)) as [Hmsl Hmsc].
  fold m mask ms in Hmsl, Hmsc.
  destruct (np_where_spec ms) as [Hwl Hwb]. rewrite Hmsl in Hwb.
  destruct (setitem_pairs_ok aX n d (np_where ms) mf zero Hs
              ltac:(lia) Hwb Hmfb) as (Xm & HXm & HsXm & _).
  exists mf, r2, Xm.
  split; [exact Hri|]. split; [exact HXm|].
  remember (get_results zero cross_val_score mean std dataset st) as out
    eqn:Hout.
  unfold get_results in Hout.
  rewrite (bind_ok _ _ _ _ _ (shape_at_ok _ aX 0 n _ HX ltac:(by rewrite Hs)))
    in Hout.
  rewrite (bind_ok _ _ _ _ _ (shape_at_ok _ aX 1 d _ HX ltac:(by rewrite Hs)))
    in Hout.
  destruct (cross_val_score RandomForest aX ay) as [s1|e] eqn:E1.
  2:{ rewrite Hout. apply bind_error.
      by apply (call_cross_val_score_error _ _ _ aX ay). }
  rewrite (bind_ok _ _ _ _ _ (call_cross_val_score_ok _ _ _ _ _ _ _ HX Hy E1))
    in Hout.
  fold m in Hout.
  rewrite (bind_ok _ _ _ _ _ (lift_full_ok (Z.of_nat n - m) false _ ltac:(lia)))
    in Hout.
  rewrite (bind_ok _ _ _ _ _ (lift_full_ok m true _ ltac:(lia))) in Hout.
  fold mask in Hout.
  rewrite (bind_ok (rng_shuffle mask) _ _ ms
             (State r1 (heap st) (cv_calls st ++ [(RandomForest, aX, ay)])))
    in Hout.
  2:{ unfold rng_shuffle; simpl. fold ms r1.
      by destruct (shuffle mask (rng st)). }
  rewrite (bind_ok (rng_randint 0 (Z.of_nat d) m) _ _ mf
             (State r2 (heap st) (cv_calls st ++ [(RandomForest, aX, ay)])))
    in Hout.
  2:{ unfold rng_randint; simpl. by rewrite Hri. }
  (* zero imputation *)
  set (calls1 := cv_calls st ++ [(RandomForest, aX, ay)]) in Hout.
  rewrite (bind_ok _ _ _ _ _ (copy_ok _ aX (State r2 (heap st) calls1) HX))
    in Hout; simpl in Hout.
  set (l1 := fresh (dom (heap st))) in Hout.
  assert (l1 ≠ bunch_data dataset) as Hl1X by (eapply fresh_lookup_ne; eauto).
  assert (l1 ≠ bunch_target dataset) as Hl1y by (eapply fresh_lookup_ne; eauto).
  rewrite (bind_ok _ _ _ _ _
             (setitem_ok l1 aX Xm _ _ _ (State r2 (<[l1:=aX]> (heap st)) calls1)
                         (lookup_insert_eq _ _ _) HXm)) in Hout; simpl in Hout.
  rewrite insert_insert_eq in Hout.
  set (h1 := <[l1 := Xm]> (heap st)) in Hout.
  assert (h1 !! l1 = Some Xm) as H11 by apply lookup_insert_eq.
  assert (forall l a, heap st !! l = Some a -> h1 !! l = Some a) as Hsub1.
  { intros l a Hl. unfold h1. rewrite lookup_insert_ne; [done|].
    eapply fresh_lookup_ne; eauto. }
  rewrite (bind_ok _ _ _ _ _
             (copy_ok _ ay (State r2 h1 calls1) (Hsub1 _ _ Hy))) in Hout;
    simpl in Hout.
  set (l2 := fresh (dom h1)) in Hout.
  set (h2 := <[l2 := ay]> h1) in Hout.
  assert (forall l a, h1 !! l = Some a -> h2 !! l = Some a) as Hsub2.
  { intros l a Hl. unfold h2. rewrite lookup_insert_ne; [done|].
    eapply fresh_lookup_ne; eauto. }
  destruct (cross_val_score RandomForest Xm ay) as [s2|e] eqn:E2.
  2:{ rewrite Hout. apply bind_error.
      apply (call_cross_val_score_error _ _ _ Xm ay); [|by apply lookup_insert_eq|done].
      by apply Hsub2. }
  rewrite (bind_ok _ _ _ _ _
             (call_cross_val_score_ok RandomForest l1 l2 Xm ay s2
                (State r2 h2 calls1) (Hsub2 _ _ H11) (lookup_insert_eq _ _ _) E2))
    in Hout; simpl in Hout.
  (* mean imputation *)
  set (calls2 := calls1 ++ [(RandomForest, Xm, ay)]) in Hout.
  rewrite (bind_ok _ _ _ _ _
             (copy_ok _ aX (State r2 h2 calls2) (Hsub2 _ _ (Hsub1 _ _ HX))))
    in Hout; simpl in Hout.
  set (l3 := fresh (dom h2)) in Hout.
  rewrite (bind_ok _ _ _ _ _
             (setitem_ok l3 aX Xm _ _ _ (State r2 (<[l3:=aX]> h2) calls2)
                         (lookup_insert_eq _ _ _) HXm)) in Hout; simpl in Hout.
  rewrite insert_insert_eq in Hout.
  set (h3 := <[l3 := Xm]> h2) in Hout.
  assert (h3 !! l3 = Some Xm) as H33 by apply lookup_insert_eq.
  assert (forall l a, h2 !! l = Some a -> h3 !! l = Some a) as Hsub3.
  { intros l a Hl. unfold h3. rewrite lookup_insert_ne; [done|].
    eapply fresh_lookup_ne; eauto. }
  rewrite (bind_ok _ _ _ _ _
             (copy_ok _ ay (State r2 h3 calls2)
                      (Hsub3 _ _ (Hsub2 _ _ (Hsub1 _ _ Hy))))) in Hout;
    simpl in Hout.
  set (l4 := fresh (dom h3)) in Hout.
  set (h4 := <[l4 := ay]> h3) in Hout.
  assert (forall l a, h3 !! l = Some a -> h4 !! l = Some a) as Hsub4.
  { intros l a Hl. unfold h4. rewrite lookup_insert_ne; [done|].
    eapply fresh_lookup_ne; eauto. }
  destruct (cross_val_score ImputeThenForest Xm ay) as [s3|e] eqn:E3.
  2:{ rewrite Hout. apply bind_error.
      apply (call_cross_val_score_error _ _ _ Xm ay); [|by apply lookup_insert_eq|done].
      by apply Hsub4. }
  rewrite (bind_ok _ _ _ _ _
             (call_cross_val_score_ok ImputeThenForest l3 l4 Xm ay s3
                (State r2 h4 calls2) (Hsub4 _ _ H33) (lookup_insert_eq _ _ _) E3))
    in Hout; simpl in Hout.
  unfold mret, M_ret in Hout.
  eexists. split; [exact Hout|]. simpl.
  split; [reflexivity|].
  split; [unfold calls2, calls1; by rewrite <- !app_assoc|].
  intros l a Hl. auto.
Qed.

(** What a run that returns has done, and where a run that raises has
    its exception from. *)
Lemma get_results_outcome (dataset : Bunch) (st : state)
    (aX ay : ndarray F) (n d : nat) :
  heap st !! bunch_data dataset = Some aX ->
  heap st !! bunch_target dataset = Some ay ->
  shape aX = [n; d] -> 1 <= d ->
  let m := Qfloor (inject_Z (Z.of_nat n) * missing_rate) in
  let mask := replicate (Z.to_nat (Z.of_nat n - m)) false
                ++ replicate (Z.to_nat m) true in
  let ms := (shuffle mask (rng st)).1 in
  let r1 := (shuffle mask (rng st)).2 in
  exists mf r2 Xm,
    randint 0 (Z.of_nat d) m r1 = Ok (mf, r2)
    /\ corrupted zero aX ms mf = Ok Xm
    /\ (forall res st',
          get_results zero cross_val_score mean std dataset st = Ok (res, st') ->
          rng st' = r2
          /\ cv_calls st' = cv_calls st ++ [(RandomForest, aX, ay);
                                            (RandomForest, Xm, ay);
                                            (ImputeThenForest, Xm, ay)]
          /\ (forall l a, heap st !! l = Some a -> heap st' !! l = Some a))
    /\ (forall e,
          get_results zero cross_val_score mean std dataset st = Error e ->
          cross_val_score RandomForest aX ay = Error e
          \/ cross_val_score RandomForest Xm ay = Error e
          \/ cross_val_score ImputeThenForest Xm ay = Error e)
    /\ ((forall est X, exists scores, cross_val_score est X ay = Ok scores) ->
        exists res st',
          get_results zero cross_val_score mean std dataset st = Ok (res, st')).
Proof.
  intros HX Hy Hs Hd m mask ms r1.
  destruct (get_results_run dataset st aX ay n d HX Hy Hs Hd)
    as (mf & r2 & Xm & Hri & HXm & Hrun).
  fold m mask ms r1 in Hri, HXm.
  exists mf, r2, Xm. split; [exact Hri|]. split; [exact HXm|].
  destruct (cross_val_score RandomForest aX ay) as [s1|e1] eqn:E1.
  2:{ split; [|split].
      - intros res st' H. rewrite H in Hrun. discriminate.
      - intros e H. rewrite H in Hrun. left. by injection Hrun as ->.
      - intros Hall. destruct (Hall RandomForest aX) as [s H]. congruence. }
  destruct (cross_val_score RandomForest Xm ay) as [s2|e2] eqn:E2.
  2:{ split; [|split].
      - intros res st' H. rewrite H in Hrun. discriminate.
      - intros e H. rewrite H in Hrun. right. left. by injection Hrun as ->.
      - intros Hall. destruct (Hall RandomForest Xm) as [s H]. congruence. }
  destruct (cross_val_score ImputeThenForest Xm ay) as [s3|e3] eqn:E3.
  2:{ split; [|split].
      - intros res st' H. rewrite H in Hrun. discriminate.
      - intros e H. rewrite H in Hrun. right. right. by injection Hrun as ->.
      - intros Hall. destruct (Hall ImputeThenForest Xm) as [s H]. congruence. }
  destruct Hrun as (st1 & Hrun & Hrng & Hcalls & Hheap).
  split; [|split].
  - intros res st' H. rewrite H in Hrun. injection Hrun as -> ->. done.
  - intros e H. rewrite H in Hrun. discriminate.
  - intros _. eauto.
Qed.
End ImputeFacts.

Section ImputeReturning.
Import Numpy Py Impute.
Context {F Scores : Type} (zero : F).
Variable cross_val_score : estimator -> ndarray F -> ndarray F -> Scores.
Variables mean std : Scores -> F.

(** The run when [cross_val_score] returns on every input. *)
Lemma get_results_returning (dataset : Bunch) (st : @state F)
    (aX ay : ndarray F) (n d : nat) :
  heap st !! bunch_data dataset = Some aX ->
  heap st !! bunch_target dataset = Some ay ->
  shape aX = [n; d] -> 1 <= d ->
  let m := Qfloor (inject_Z (Z.of_nat n) * missing_rate) in
  let mask := replicate (Z.to_nat (Z.of_nat n - m)) false
                ++ replicate (Z.to_nat m) true in
  let ms := (shuffle mask (rng st)).1 in
  let r1 := (shuffle mask (rng st)).2 in
  exists mf r2 Xm res st',
    randint 0 (Z.of_nat d) m r1 = Ok (mf, r2)
    /\ corrupted zero aX ms mf = Ok Xm
    /\ get_results zero (returning cross_val_score) mean std dataset st
       = Ok (res, st')
    /\ rng st' = r2
    /\ cv_calls st' = cv_calls st ++ [(RandomForest, aX, ay);
                                      (RandomForest, Xm, ay);
                                      (ImputeThenForest, Xm, ay)]
    /\ (forall l a, heap st !! l = Some a -> heap st' !! l = Some a)
    /\ res = ((mean (cross_val_score RandomForest aX ay),
               std (cross_val_score RandomForest aX ay)),
              (mean (cross_val_score RandomForest Xm ay),
               std (cross_val_score RandomForest Xm ay)),
              (mean (cross_val_score ImputeThenForest Xm ay),
               std (cross_val_score ImputeThenForest Xm ay))).
Proof.
  intros HX Hy Hs Hd m mask ms r1.
  destruct (get_results_run zero (returning cross_val_score) mean std
              dataset st aX ay n d HX Hy Hs Hd)
    as (mf & r2 & Xm & Hri & HXm & Hrun).
  cbv beta iota delta [returning] in Hrun.
  destruct Hrun as (st' & Hrun & Hrng & Hcalls & Hheap).
  exists mf, r2, Xm. do 2 eexists.
  split; [exact Hri|]. split; [exact HXm|]. split; [exact Hrun|].
  split; [exact Hrng|]. split; [exact Hcalls|]. split; [exact Hheap|].
  reflexivity.
Qed.
End ImputeReturning.

(** ** The caching section *)

Section CacheFacts.
Import Py Cache.

Lemma parent_snoc (dir : path) (name : string) :
  parent (dir ++ [name]) = dir.
Proof.
  unfold parent. rewrite length_app. simpl.
  replace (length dir + 1 - 1) with (length dir) by lia.
  by rewrite take_app_length.
Qed.

Lemma mkdir_ok (p : path) (fs fs' : gset path) :
  mkdir p fs = Ok fs' ->
  ¬ present fs p /\ present fs (parent p) /\ fs' = {[p]} ∪ fs.
Proof.
  unfold mkdir. repeat case_bool_decide; intros [=]. by subst.
Qed.

Lemma mkdtemp_try_ok (names : list string) (dir p : path)
    (fs fs' : gset path) :
  mkdtemp_try names dir fs = Ok (p, fs') ->
  exists name, name ∈ names /\ p = dir ++ [name]
               /\ ¬ present fs p /\ present fs dir /\ fs' = {[p]} ∪ fs.
Proof.
  induction names as [|name rest IH]; simpl; [discriminate|].
  destruct (mkdir (dir ++ [name]) fs) as [fs1|e] eqn:E.
  - intros [= <- <-]. apply mkdir_ok in E as (Hn & Hp & ->).
    rewrite parent_snoc in Hp. exists name. repeat split; auto. left.
  - destruct e; try discriminate. intros H. apply IH in H as (n & Hin & H).
    exists n. split; [by right|exact H].
Qed.

Lemma mkdtemp_try_fresh (names : list string) (dir : path)
    (fs : gset path) (name : string) :
  present fs dir -> name ∈ names -> ¬ present fs (dir ++ [name]) ->
  exists p fs', mkdtemp_try names dir fs = Ok (p, fs').
Proof.
  intros Hdir Hin Hfresh. induction names as [|n rest IH]; [by apply elem_of_nil in Hin|].
  simpl. unfold mkdir. rewrite parent_snoc.
  case_bool_decide as Hex.
  - apply IH. apply elem_of_cons in Hin as [->|]; [contradiction|done].
  - rewrite bool_decide_eq_true_2 by done. eauto.
Qed.

(** In a well-formed file system nothing lies below a path that does
    not exist. *)
Lemma nothing_below_absent (fs : gset path) (p q : path) :
  well_formed fs -> ¬ present fs p -> q ∈ fs -> ¬ p `prefix_of` q.
Proof.
  intros Hwf Hp Hq [k ->]. revert Hq.
  induction k as [|x k IH] using rev_ind; intros Hq.
  - rewrite app_nil_r in Hq. apply Hp. by right.
  - apply Hwf in Hq as [_ Hpar].
    rewrite app_assoc, parent_snoc in Hpar. destruct Hpar as [Hnil|Hin].
    + apply app_eq_nil in Hnil as [-> _]. apply Hp. by left.
    + by apply IH.
Qed.

(** In a well-formed file system the ancestors of a present path are
    present. *)
Lemma ancestors_present (fs : gset path) (p : path) (k : nat) :
  well_formed fs -> present fs p -> 1 <= k <= length p -> take k p ∈ fs.
Proof.
  intros Hwf Hp Hk.
  assert (forall j, j <= length p - k -> take (length p - j) p ∈ fs) as H.
  { induction j as [|j IH]; intros Hj.
    - rewrite Nat.sub_0_r, firstn_all.
      destruct Hp as [Hnil|Hin]; [|done]. rewrite Hnil in Hk. simpl in Hk. lia.
    - specialize (IH ltac:(lia)). apply Hwf in IH as [_ Hpar].
      unfold parent in Hpar. rewrite length_take in Hpar.
      rewrite take_take in Hpar.
      replace (((length p - j) `min` length p - 1) `min` (length p - j))
        with (length p - S j) in Hpar by lia.
      destruct Hpar as [Hnil|]; [|done].
      apply (f_equal length) in Hnil. rewrite length_take in Hnil.
      simpl in Hnil. lia. }
  specialize (H (length p - k) ltac:(lia)).
  by replace (length p - (length p - k)) with k in H by lia.
Qed.

Lemma elem_of_prefixes (p x : path) :
  x ∈ prefixes p <-> exists k, 1 <= k <= length p /\ x = take k p.
Proof.
  unfold prefixes. rewrite list_elem_of_fmap. split.
  - intros (k & -> & Hk). apply elem_of_seq in Hk. exists k. split; [lia|done].
  - intros (k & Hk & ->). exists k. split; [done|]. apply elem_of_seq. lia.
Qed.

(** What the library writes for a path below the cache directory [c]
    is below [c] or an ancestor of [c]. *)
Lemma elem_of_makedirs_below (c rel x : path) (fs : gset path) :
  x ∈ makedirs (c ++ rel) fs ->
  x ∈ fs \/ c `prefix_of` x \/ exists k, 1 <= k <= length c /\ x = take k c.
Proof.
  unfold makedirs. rewrite elem_of_union, elem_of_list_to_set, elem_of_prefixes.
  intros [(k & Hk & ->)|]; [|by left]. right.
  destruct (decide (k <= length c)) as [Hle|Hgt].
  - right. exists k. split; [lia|]. by rewrite take_app_le.
  - left. exists (take (k - length c) rel). rewrite take_app_ge by lia. done.
Qed.

Lemma makedirs_subseteq (p : path) (fs : gset path) : fs ⊆ makedirs p fs.
Proof. unfold makedirs. apply union_subseteq_r. Qed.

Variables (tempdir : path) (names : list string) (entries : list path).
Variable raises : library_call -> option error.

Lemma grown_makedirs (fs S : gset path) (name : string) (rel : path) :
  well_formed fs -> present fs tempdir ->
  grown fs (tempdir ++ [name]) S ->
  grown fs (tempdir ++ [name]) (makedirs ((tempdir ++ [name]) ++ rel) S).
Proof.
  intros Hwf Htmp (Hsub & Hc & Hnew). split; [|split].
  - etrans; [exact Hsub | apply makedirs_subseteq].
  - by apply makedirs_subseteq.
  - intros x Hx. apply elem_of_makedirs_below in Hx as [Hx|[Hx|(k & Hk & ->)]].
    + by apply Hnew.
    + by right.
    + rewrite length_app in Hk. simpl in Hk.
      destruct (decide (k = length tempdir + 1)) as [->|Hne].
      * right. rewrite take_ge by (rewrite length_app; simpl; lia). done.
      * left. rewrite take_app_le by lia.
        apply ancestors_present; auto. lia.
Qed.

Lemma grown_entries (fs S : gset path) (name : string) (base : path)
    (es : list path) :
  well_formed fs -> present fs tempdir ->
  grown fs (tempdir ++ [name]) S ->
  grown fs (tempdir ++ [name])
        (foldr (fun e => makedirs (((tempdir ++ [name]) ++ base) ++ e)) S es).
Proof.
  intros Hwf Htmp HS. induction es as [|e es IH]; simpl; [done|].
  rewrite <- app_assoc. by apply grown_makedirs.
Qed.

(** The file system after [mkdtemp], after [Memory] and after the
    search: it has grown below the cache directory only. *)
Lemma cache_grows (fs : gset path) (name : string) :
  well_formed fs -> present fs tempdir ->
  let c := tempdir ++ [name] in
  grown fs c ({[c]} ∪ fs)
  /\ grown fs c (makedirs (c ++ ["joblib"]) ({[c]} ∪ fs))
  /\ grown fs c (foldr (fun e => makedirs ((c ++ ["joblib"]) ++ e))
                       (makedirs (c ++ ["joblib"]) ({[c]} ∪ fs)) entries).
Proof.
  intros Hwf Htmp c.
  assert (grown fs c ({[c]} ∪ fs)) as H1.
  { split; [apply union_subseteq_r|].
    split; [apply elem_of_union_l, elem_of_singleton; done|].
    intros x [->%elem_of_singleton|Hx]%elem_of_union; [by right|by left]. }
  pose proof (grown_makedirs fs _ name ["joblib"] Hwf Htmp H1) as H2.
  fold c in H2.
  pose proof (grown_entries fs _ name ["joblib"] entries Hwf Htmp H2) as H3.
  fold c in H3. done.
Qed.

(** What the section does to the file system, step by step. *)
Lemma caching_section_steps (fs : gset path) :
  caching_section tempdir names entries raises fs
  = match mkdtemp_try (take TMP_MAX names) tempdir fs with
    | Error e => (Error e, fs)
    | Ok (c, fs1) =>
        match raises Memory_call with
        | Some e => (Error e, fs1)
        | None =>
            match raises load_digits_call with
            | Some e => (Error e, makedirs (c ++ ["joblib"]) fs1)
            | None =>
                match raises fit_call with
                | Some e =>
                    (Error e,
                     foldr (fun e => makedirs ((c ++ ["joblib"]) ++ e))
                           (makedirs (c ++ ["joblib"]) fs1) entries)
                | None =>
                    match rmtree_fs c
                            (foldr (fun e => makedirs ((c ++ ["joblib"]) ++ e))
                                   (makedirs (c ++ ["joblib"]) fs1) entries)
                    with
                    | Ok fs' => (Ok tt, fs')
                    | Error e =>
                        (Error e,
                         foldr (fun e => makedirs ((c ++ ["joblib"]) ++ e))
                               (makedirs (c ++ ["joblib"]) fs1) entries)
                    end
                end
            end
        end
    end.
Proof.
  unfold caching_section, mbind, M_bind, mkdtemp, Memory, load_digits, fit,
    rmtree, outcome_of.
  destruct (mkdtemp_try _ _ _) as [[c fs1]|e]; [|reflexivity].
  destruct (raises Memory_call); [reflexivity|].
  destruct (raises load_digits_call); [reflexivity|]. simpl.
  destruct (raises fit_call); reflexivity.
Qed.

(** In the file system the search leaves, [rmtree] removes what has
    grown. *)
Lemma rmtree_restores (fs S : gset path) (c : path) :
  well_formed fs -> ¬ present fs c -> grown fs c S ->
  rmtree_fs c S = Ok fs.
Proof.
  intros Hwf Hfresh (Hsub & Hc & Hnew). unfold rmtree_fs.
  rewrite bool_decide_eq_true_2 by exact Hc. f_equal.
  apply set_eq. intros x. rewrite elem_of_filter. split.
  - intros [Hnp Hx]. apply Hnew in Hx as [Hx|Hx]; [done|contradiction].
  - intros Hx. split; [|by apply Hsub].
    eapply nothing_below_absent; eauto.
Qed.

Lemma caching_section_restores (fs fs' : gset path) :
  well_formed fs ->
  caching_section tempdir names entries raises fs = (Ok tt, fs') -> fs' = fs.
Proof.
  intros Hwf. rewrite caching_section_steps.
  destruct (mkdtemp_try _ _ _) as [[c fs1]|e] eqn:Etmp; [|discriminate].
  apply mkdtemp_try_ok in Etmp as (name & _ & -> & Hfresh & Htmp & ->).
  destruct (cache_grows fs name Hwf Htmp) as (_ & _ & H3).
  destruct (raises Memory_call); [discriminate|].
  destruct (raises load_digits_call); [discriminate|].
  destruct (raises fit_call); [discriminate|].
  rewrite (rmtree_restores fs _ _ Hwf Hfresh H3). by intros [= <-].
Qed.

Lemma caching_section_completes (fs : gset path) (name : string) :
  well_formed fs -> present fs tempdir ->
  name ∈ take TMP_MAX names -> ¬ present fs (tempdir ++ [name]) ->
  (forall c, raises c = None) ->
  caching_section tempdir names entries raises fs = (Ok tt, fs).
Proof.
  intros Hwf Htmp Hin Hfresh Hnone. rewrite caching_section_steps.
  destruct (mkdtemp_try_fresh _ _ _ _ Htmp Hin Hfresh) as (c & fs1 & Etmp).
  rewrite Etmp.
  apply mkdtemp_try_ok in Etmp as (name' & _ & -> & Hfresh' & _ & ->).
  destruct (cache_grows fs name' Hwf Htmp) as (_ & _ & H3).
  rewrite !Hnone. by rewrite (rmtree_restores fs _ _ Hwf Hfresh' H3).
Qed.

End CacheFacts.

(** ** Parameter grids *)

Section GridFacts.
Import Syntax Analysis Grid.
Context {V : Type}.

Lemma length_flat_map_const {A B} (f : A -> list B) (l : list A) (n : nat) :
  (forall a, length (f a) = n) -> length (flat_map f l) = length l * n.
Proof.
  intros Hf. induction l as [|a l IH]; simpl; [done|].
  rewrite length_app, Hf, IH. lia.
Qed.

Lemma length_product (vals : list (list V)) :
  length (product vals) = foldr Nat.mul 1 (map length vals).
Proof.
  induction vals as [|v vals IH]; simpl; [done|].
  rewrite (length_flat_map_const _ _ (length (product vals))).
  - by rewrite IH.
  - intros a. apply length_map.
Qed.

Lemma insert_item_Permutation (kv : string * V) (l : list (string * V)) :
  insert_item kv l ≡ₚ kv :: l.
Proof.
  induction l as [|h t IH]; simpl; [done|].
  destruct (String.leb kv.1 h.1); [done|].
  rewrite IH. apply Permutation_swap.
Qed.

Lemma sorted_items_Permutation (p : list (string * V)) : sorted_items p ≡ₚ p.
Proof.
  induction p as [|kv p IH]; simpl; [done|].
  unfold sorted_items in *. simpl.
  by rewrite insert_item_Permutation, IH.
Qed.

Lemma product_of_sizes_Permutation (l1 l2 : list nat) :
  l1 ≡ₚ l2 -> foldr Nat.mul 1 l1 = foldr Nat.mul 1 l2.
Proof.
  induction 1 as [|x l1 l2 _ IH|x y l|l1 l2 l3 _ IH1 _ IH2]; simpl;
    [done | by rewrite IH | lia | congruence].
Qed.
End GridFacts.

Section GridSizeFacts.
Import Syntax Analysis Grid.
Context {V : Type}.

Lemma length_dict_points (p : list (string * list V)) :
  length (dict_points p) = foldr Nat.mul 1 (map (fun kv => length (snd kv)) p).
Proof.
  unfold dict_points. rewrite length_map, length_product, map_map.
  apply product_of_sizes_Permutation.
  apply (Permutation_map (fun kv : string * list V => length (snd kv))).
  apply sorted_items_Permutation.
Qed.

(** The grid has as many points as the sum, over its mappings, of the
    products of the numbers of values. *)
Lemma length_ParameterGrid (grid : list (list (string * list V))) :
  length (ParameterGrid grid) = grid_size grid.
Proof.
  unfold ParameterGrid, grid_size.
  induction grid as [|p grid IH]; simpl; [done|].
  by rewrite length_app, length_dict_points, IH.
Qed.
End GridSizeFacts.

(** ** The claims about the syntax of the scripts *)

Section SyntaxClaims.
Import Syntax Analysis Scripts.

Ltac by_computation :=
  refine (bool_decide_eq_true_1 _ _); vm_compute; reflexivity.

Lemma plot_missing_values_listed : plot_missing_values ∈ scripts.
Proof. apply list_elem_of_In. simpl. tauto. Qed.

(** C2, as stated, fails: the imputation example, one of the scripts,
    defines the function [get_results], so it is not a straight-line
    script in the sense of the claim (and [plot_gpc_isoprobability]
    defines [g]). *)
Lemma imputation_script_defines_a_function :
  plot_missing_values ∈ scripts
  /\ straight_line plot_missing_values = false
  /\ no_abstraction (script_body plot_missing_values) = false
  /\ defined_functions (script_body plot_missing_values) = ["get_results"].
Proof.
  split; [exact plot_missing_values_listed|].
  repeat split; vm_compute; reflexivity.
Qed.

(** C2, amended: no script contains a conditional (no [if] or [while]
    statement, no conditional expression), a handler ([try], [with] or
    [raise]) or a class; the only loops are [for] loops; and the
    functions the scripts define are exactly [g] in
    [plot_gpc_isoprobability] and [get_results] in the imputation
    example, the other four scripts defining none. *)
Theorem scripts_branch_free_with_two_helpers :
  Forall (fun sc =>
            no_branching (script_body sc) = true
            /\ no_error_handling (script_body sc) = true
            /\ defined_classes (script_body sc) = [])
         scripts
  /\ map (fun sc => (script_name sc, defined_functions (script_body sc)))
         scripts
     = [ ("plot_gpc_isoprobability", ["g"]);
         ("plot_gpc_iris", []);
         ("plot_feature_stacker", []);
         ("plot_missing_values", ["get_results"]);
         ("plot_compare_reduction", []);
         ("plot_optics", []) ]
  /\ map (fun sc => straight_line sc) scripts
     = [false; true; true; false; true; true].
Proof.
  split; [|split; vm_compute; reflexivity].
  repeat constructor; vm_compute; reflexivity.
Qed.

(** C6: every import of every script names a module of an external
    package (sklearn, numpy, matplotlib, tempfile, shutil, __future__)
    and none names a script of the repository; no script binds the name
    of one of the algorithms by a definition or an assignment; every
    call of an algorithm name is a call of a name imported from
    sklearn; every called name is imported, a builtin or one of the two
    helpers; and each of the algorithms is called by some script. *)
Theorem computations_are_library_calls :
  Forall (fun sc =>
            Forall (fun m => (root_package m ∈ external_packages)
                             /\ (m ∉ map script_name scripts)
                             /\ (root_package m ∉ map script_name scripts))
                   (imported_modules (script_body sc))
            /\ Forall (fun f => f ∉ algorithm_names)
                      (defined_functions (script_body sc)
                         ++ defined_classes (script_body sc)
                         ++ flat_map bound_names (all_stmts (script_body sc)))
            /\ Forall (fun f => f ∈ algorithm_names ->
                                is_from "sklearn"
                                        (origin_of (script_body sc) f) = true)
                      (called_names (script_body sc))
            /\ Forall (fun f => resolved (origin_of (script_body sc) f) = true)
                      (called_names (script_body sc)))
         scripts
  /\ Forall (fun a => Exists (fun sc => a ∈ called_names (script_body sc))
                             scripts)
            algorithm_names.
Proof. split; by_computation. Qed.

(** C7: the scripts that construct a grid search are
    [plot_feature_stacker], which passes no [n_jobs] (the library
    default), and [plot_compare_reduction], whose two constructions
    pass [n_jobs=1]; no script imports a module that starts threads or
    processes, imports or calls a constructor of one, so parallelism
    appears only as that constructor parameter. *)
Theorem parallelism_is_a_constructor_parameter :
  map (fun sc => (script_name sc,
                  map (fun c => keyword "n_jobs" (snd c))
                      (calls_to "GridSearchCV" (script_body sc))))
      scripts
  = [ ("plot_gpc_isoprobability", []);
      ("plot_gpc_iris", []);
      ("plot_feature_stacker", [None]);
      ("plot_missing_values", []);
      ("plot_compare_reduction", [Some (Num "1"); Some (Num "1")]);
      ("plot_optics", []) ]
  /\ Forall (fun sc =>
               Forall (fun m => root_package m ∉ concurrency_packages)
                      (imported_modules (script_body sc))
               /\ Forall (fun nm => fst nm ∉ concurrency_constructors)
                         (imported_names (script_body sc))
               /\ Forall (fun f => f ∉ concurrency_constructors)
                         (called_heads (script_body sc)))
            scripts.
Proof. split; [vm_compute; reflexivity | by_computation]. Qed.

(** C5, as stated, fails: in the imputation example the function
    [get_results] reads the module-level variable [rng] and calls its
    methods [shuffle] and [randint]. *)
Lemma get_results_uses_module_level_rng :
  plot_missing_values ∈ scripts
  /\ no_global_state plot_missing_values = false
  /\ "rng" ∈ module_variables (script_body plot_missing_values)
  /\ global_reads (script_body plot_missing_values) = [("get_results", "rng")]
  /\ global_method_calls (script_body plot_missing_values)
     = [ ("get_results", "rng", "shuffle");
         ("get_results", "rng", "randint") ].
Proof.
  split; [exact plot_missing_values_listed|].
  split; [vm_compute; reflexivity|].
  split; [by_computation|]. split; vm_compute; reflexivity.
Qed.
End SyntaxClaims.

(** ** The claims about grids and score tables *)

Section GridClaims.
Import Syntax Analysis Scripts Numpy Grid.

(** C1: the script of [plot_feature_stacker] constructs one grid search;
    its [param_grid] has 3 values of [features__pca__n_components], 2 of
    [features__univ_select__k] and 3 of [svm__C], hence 3 * 2 * 3 = 18
    distinct candidates; with the 3 folds of the default
    cross-validation the first line the search prints is the documented
    line "Fitting 3 folds for each of 18 candidates, totalling 54 fits",
    and the 54 lines announcing the fits are those of the page. *)
Theorem feature_stacker_documented_counts :
  exists gs : grid_search,
    grid_searches plot_feature_stacker_body = [Some gs]
    /\ map (map (fun kv => (fst kv, length (snd kv)))) (gs_param_grid gs)
       = [[ ("features__pca__n_components", 3);
            ("features__univ_select__k", 2);
            ("svm__C", 3) ]]
    /\ length (candidates gs) = grid_size (gs_param_grid gs)
    /\ grid_size (gs_param_grid gs) = 3 * 2 * 3
    /\ NoDup (map show_candidate (candidates gs))
    /\ gs_cv gs = 3
    /\ fit_message (gs_cv gs) (length (candidates gs)) = documented_header
    /\ documented_header
       = "Fitting 3 folds for each of 18 candidates, totalling 54 fits"
    /\ length (cv_start_lines gs) = 18 * 3
    /\ cv_start_lines gs = documented_cv_starts.
Proof.
  eexists. split; [vm_compute; reflexivity|].
  split; [vm_compute; reflexivity|].
  split; [apply length_ParameterGrid|].
  split; [vm_compute; reflexivity|].
  split; [refine (bool_decide_eq_true_1 _ _); vm_compute; reflexivity|].
  repeat split; vm_compute; reflexivity.
Qed.

(** A number of scores that the other two dimensions do not divide
    cannot be reshaped. *)
Example thirty_five_scores_do_not_reshape :
  labelled_scores Nat.max (seq 0 35) = None.
Proof. vm_compute. reflexivity. Qed.

(** C8: the grid of [plot_compare_reduction] has 2 * 3 * 4 + 1 * 3 * 4 =
    36 candidates; whatever their scores, reshaping the 36 scores to
    [(len(C_OPTIONS), -1, len(N_FEATURES_OPTIONS))] = (4, -1, 3) succeeds
    with shape (4, 3, 3), the maximum over axis 0 has shape (3, 3), and
    zipping its 3 rows with the 3 reducer labels pairs every label with
    a row and drops neither. *)
Theorem compare_reduction_score_table_shape
    (A : Type) (maxA : A -> A -> A) (score : list (string * expr) -> A) :
  exists gs : grid_search,
    grid_searches plot_compare_reduction_body !! 0 = Some (Some gs)
    /\ length (candidates gs) = grid_size (gs_param_grid gs)
    /\ grid_size (gs_param_grid gs) = 2 * 3 * 4 + 1 * 3 * 4
    /\ length C_OPTIONS = 4
    /\ length N_FEATURES_OPTIONS = 3
    /\ length reducer_labels = 3
    /\ exists (a m : ndarray A) (rows : list (ndarray A)),
         mean_scores_reshaped (map score (candidates gs)) = Some a
         /\ shape a = [4; 3; 3]
         /\ mean_scores_best maxA (map score (candidates gs)) = Some m
         /\ shape m = [3; 3]
         /\ iter_rows m = Some rows
         /\ length rows = length reducer_labels
         /\ labelled_scores maxA (map score (candidates gs))
            = Some (zip reducer_labels rows)
         /\ map fst (zip reducer_labels rows) = reducer_labels
         /\ map snd (zip reducer_labels rows) = rows.
Proof.
  eexists. split; [vm_compute; reflexivity|].
  split; [apply length_ParameterGrid|].
  do 4 (split; [vm_compute; reflexivity|]).
  do 3 eexists.
  split; [vm_compute; reflexivity|].
  split; [reflexivity|].
  split; [vm_compute; reflexivity|].
  split; [reflexivity|].
  split; [vm_compute; reflexivity|].
  repeat split; vm_compute; reflexivity.
Qed.
End GridClaims.

(** ** The claim about failures *)

Section FailureClaims.
Import Syntax Analysis Scripts Exec.

Lemma scripts_handler_free :
  Forall (fun sc => no_error_handling (script_body sc) = true
                    /\ handler_free sc = true) scripts.
Proof. repeat constructor; vm_compute; reflexivity. Qed.

(** C3: no script contains a handler ([try], [with]) or raises an
    exception of its own, and in every run of every script, whatever
    the library operations do, an exception ends the run exactly when a
    library operation raises one: the run ends with the exception of
    the first failing operation, unchanged, and performs no operation
    after it; a run that ends normally has met no failure.  Two levels
    of call stack are enough for every script to run to its end. *)
Theorem exceptions_propagate_unmodified (O : oracle) (fuel : nat) :
  2 <= fuel ->
  Forall (fun sc =>
            no_error_handling (script_body sc) = true
            /\ propagated O (run O fuel sc)
            /\ forall k c, first_failure O k c -> stops_at k c (run O fuel sc))
         scripts.
Proof.
  intros Hfuel. eapply Forall_impl; [apply scripts_handler_free|].
  intros sc [Hno Hfree]. simpl.
  pose proof (handler_free_run O fuel sc Hfuel Hfree) as Hrun.
  split; [exact Hno|]. split; [exact Hrun|].
  intros k c Hfirst. by apply propagated_stops_at with (O := O).
Qed.

Lemma exceptions_propagate_witness :
  2 <= 2
  /\ Forall (fun sc =>
               no_error_handling (script_body sc) = true
               /\ propagated (failing_at 40 7) (run (failing_at 40 7) 2 sc)
               /\ forall k c, first_failure (failing_at 40 7) k c ->
                              stops_at k c (run (failing_at 40 7) 2 sc))
            scripts.
Proof.
  split; [lia|]. apply (exceptions_propagate_unmodified (failing_at 40 7) 2).
  lia.
Defined.
End FailureClaims.

Section ImputeExamples.
Import Syntax Analysis Scripts Numpy Py Impute.

(** The calls of the source function, in source order.  The model
    [get_results] has one step for each call that touches the arrays or
    the generator, in the same order; the estimator constructors are
    the values [RandomForest] and [ImputeThenForest]. *)
Example get_results_source_calls :
  map (fun f => (fst (fst f), snd (fst f), called_heads (snd f)))
      (functions plot_missing_values_body)
  = [ ("get_results", ["dataset"],
       [ "RandomForestRegressor"; "cross_val_score"; "int"; "floor";
         "hstack"; "zeros"; "ones"; "shuffle"; "randint"; "copy"; "where";
         "copy"; "RandomForestRegressor"; "cross_val_score"; "copy";
         "where"; "copy"; "make_pipeline"; "make_union"; "SimpleImputer";
         "MissingIndicator"; "RandomForestRegressor"; "cross_val_score";
         "mean"; "std"; "mean"; "std"; "mean"; "std" ]) ].
Proof. vm_compute. reflexivity. Qed.

(** The run on the small dataset: three of the four samples lose one
    feature each, and both imputations see the same corrupted copy. *)
Example example_run_calls :
  (fun r => cv_calls (snd r)) <$>
    match example_run with Ok r => Some r | Error _ => None end
  = Some [ (RandomForest, example_X, example_y);
           (RandomForest,
            NdArray [4; 2] [11; 12; 0; 22; 31; 0; 0; 42]%Z, example_y);
           (ImputeThenForest,
            NdArray [4; 2] [11; 12; 0; 22; 31; 0; 0; 42]%Z, example_y) ].
Proof. vm_compute. reflexivity. Qed.

(** Without a feature there is nothing to draw from: [randint] raises. *)
Example no_feature_raises :
  get_results 0%Z (returning example_score) id (fun _ => 0%Z) example_dataset
    (State (rng example_state)
           (<[1%positive := NdArray [4; 0] []]> (heap example_state)) [])
  = Error ValueError.
Proof. vm_compute. reflexivity. Qed.

(** Index arrays of different lengths do not pair. *)
Example unequal_index_arrays_raise :
  setitem_pairs example_X [0; 1; 2]%Z [0; 1]%Z 0%Z = Error IndexError.
Proof. vm_compute. reflexivity. Qed.

(** An index outside the axis is refused before anything is written. *)
Example index_out_of_bounds_raises :
  setitem_pairs example_X [0; 4]%Z [0; 1]%Z 0%Z = Error IndexError.
Proof. vm_compute. reflexivity. Qed.
End ImputeExamples.

(** ** The claims about the imputation example *)

Section ImputeClaims.
Import Syntax Analysis Scripts Numpy Py Impute.
Context {F Scores : Type} (zero : F).
Variable cross_val_score :
  estimator -> ndarray F -> ndarray F -> result Scores.
Variables mean std : Scores -> F.

(** C9: for a dataset of [n >= 1] samples with [d >= 1] features, the
    number [m] of corrupted samples, the floor of [0.75 * n], lies
    between 0 and [n]; the shuffled mask has [n] entries of which
    exactly [m] are true; the drawn feature indices are [m] values in
    [[0, d)]; the row indices [np.where(mask)[0]] are as many and lie in
    [[0, n)]; so the indexed assignment succeeds.  These are the arrays
    of the run: a run of [get_results] that returns has left the
    generator as the draw of the features left it and has passed the
    array so assigned to both imputations, and a run that raises has
    its exception from a call of [cross_val_score], not from the
    assignment. *)
Theorem missing_value_injection_well_formed
    (dataset : Bunch) (st : @state F) (aX ay : ndarray F) (n d : nat) :
  heap st !! bunch_data dataset = Some aX ->
  heap st !! bunch_target dataset = Some ay ->
  shape aX = [n; d] ->
  1 <= n -> 1 <= d ->
  let n_missing_samples := Qfloor (inject_Z (Z.of_nat n) * missing_rate) in
  let mask := replicate (Z.to_nat (Z.of_nat n - n_missing_samples)) false
                ++ replicate (Z.to_nat n_missing_samples) true in
  let missing_samples := (shuffle mask (rng st)).1 in
  (0 <= n_missing_samples <= Z.of_nat n)%Z
  /\ length missing_samples = n
  /\ count_true missing_samples = Z.to_nat n_missing_samples
  /\ exists missing_features r2 X_missing,
       randint 0 (Z.of_nat d) n_missing_samples (shuffle mask (rng st)).2
       = Ok (missing_features, r2)
       /\ length missing_features = Z.to_nat n_missing_samples
       /\ Forall (fun c => 0 <= c < Z.of_nat d)%Z missing_features
       /\ length (np_where missing_samples) = length missing_features
       /\ Forall (fun r => 0 <= r < Z.of_nat n)%Z (np_where missing_samples)
       /\ setitem_pairs aX (np_where missing_samples) missing_features zero
          = Ok X_missing
       /\ shape X_missing = [n; d]
       /\ (forall res st',
             get_results zero cross_val_score mean std dataset st
             = Ok (res, st') ->
             rng st' = r2
             /\ cv_calls st'
                = cv_calls st ++ [ (RandomForest, aX, ay);
                                   (RandomForest, X_missing, ay);
                                   (ImputeThenForest, X_missing, ay) ])
       /\ (forall e,
             get_results zero cross_val_score mean std dataset st = Error e ->
             cross_val_score RandomForest aX ay = Error e
             \/ cross_val_score RandomForest X_missing ay = Error e
             \/ cross_val_score ImputeThenForest X_missing ay = Error e).
Proof.
  intros HX Hy Hs Hn Hd m mask ms.
  pose proof (floor_missing_rate_bounds (Z.of_nat n) ltac:(lia)) as Hm.
  fold m in Hm.
  destruct (shuffled_mask n (rng st)) as [Hmsl Hmsc].
  fold m mask ms in Hmsl, Hmsc.
  destruct (get_results_outcome zero cross_val_score mean std dataset st
              aX ay n d HX Hy Hs Hd)
    as (mf & r2 & Xm & Hri & HXm & Hok & Herr & _).
  fold m mask ms in Hri, HXm.
  destruct (randint_spec 0 (Z.of_nat d) m (shuffle mask (rng st)).2
              ltac:(lia) ltac:(lia))
    as (mf' & r2' & Hri' & Hmfl & Hmfb).
  rewrite Hri in Hri'. injection Hri' as <- <-.
  destruct (np_where_spec ms) as [Hwl Hwb]. rewrite Hmsl in Hwb.
  destruct (setitem_pairs_ok aX n d (np_where ms) mf zero Hs
              ltac:(lia) Hwb Hmfb) as (Xm' & HXm' & HsXm & _).
  unfold corrupted in HXm. rewrite HXm in HXm'. injection HXm' as <-.
  split; [exact Hm|]. split; [exact Hmsl|]. split; [exact Hmsc|].
  exists mf, r2, Xm.
  split; [exact Hri|]. split; [exact Hmfl|]. split; [exact Hmfb|].
  split; [lia|]. split; [exact Hwb|]. split; [exact HXm|].
  split; [exact HsXm|]. split; [|exact Herr].
  intros res st' Hrun. destruct (Hok res st' Hrun) as (Hrng & Hcalls & _).
  by split.
Qed.

(** C5, amended: in every script other than the imputation example no
    function reads, or calls a method of, a module-level variable; in
    the imputation example [get_results] reads the module-level
    generator [rng], the only module-level variable it touches, in the
    calls [rng.shuffle] and [rng.randint]. *)
Theorem global_state_is_the_generator :
  Forall (fun sc => script_name sc ≠ "plot_missing_values" ->
                    no_global_state sc = true) scripts
  /\ global_reads (script_body plot_missing_values) = [("get_results", "rng")]
  /\ global_method_calls (script_body plot_missing_values)
     = [ ("get_results", "rng", "shuffle");
         ("get_results", "rng", "randint") ].
Proof.
  split; [refine (bool_decide_eq_true_1 _ _); vm_compute; reflexivity|].
  split; vm_compute; reflexivity.
Qed.
End ImputeClaims.

Section ImputeReturningClaims.
Import Syntax Analysis Scripts Numpy Py Impute.
Context {F Scores : Type} (zero : F).
Variable cross_val_score : estimator -> ndarray F -> ndarray F -> Scores.
Variables mean std : Scores -> F.

(** C10: [get_results], when [cross_val_score] returns, calls it three
    times, on the full data and then, for the zero imputation and for
    the mean imputation, on corrupted copies that are equal element for
    element, with equal targets; the data of the dataset itself is left
    as it was. *)
Theorem imputations_scored_on_same_data
    (dataset : Bunch) (st : @state F) (aX ay : ndarray F) (n d : nat) :
  heap st !! bunch_data dataset = Some aX ->
  heap st !! bunch_target dataset = Some ay ->
  shape aX = [n; d] ->
  1 <= n -> 1 <= d ->
  let n_missing_samples := Qfloor (inject_Z (Z.of_nat n) * missing_rate) in
  let mask := replicate (Z.to_nat (Z.of_nat n - n_missing_samples)) false
                ++ replicate (Z.to_nat n_missing_samples) true in
  let missing_samples := (shuffle mask (rng st)).1 in
  exists missing_features r2 X_missing y_missing res st',
    randint 0 (Z.of_nat d) n_missing_samples (shuffle mask (rng st)).2
    = Ok (missing_features, r2)
    /\ corrupted zero aX missing_samples missing_features = Ok X_missing
    /\ y_missing = ay
    /\ get_results zero (returning cross_val_score) mean std dataset st
       = Ok (res, st')
    /\ cv_calls st'
       = cv_calls st ++ [ (RandomForest, aX, ay);
                          (RandomForest, X_missing, y_missing);
                          (ImputeThenForest, X_missing, y_missing) ]
    /\ heap st' !! bunch_data dataset = Some aX
    /\ heap st' !! bunch_target dataset = Some ay.
Proof.
  intros HX Hy Hs Hn Hd m mask ms.
  destruct (get_results_returning zero cross_val_score mean std dataset st
              aX ay n d HX Hy Hs Hd)
    as (mf & r2 & Xm & res & st' & Hri & HXm & Hrun & _ & Hcalls & Hheap & _).
  exists mf, r2, Xm, ay, res, st'. repeat split; auto.
Qed.
End ImputeReturningClaims.

Section ImputeWitnesses.
Import Syntax Analysis Scripts Numpy Py Impute.

Lemma missing_value_injection_witness :
  (heap example_state !! bunch_data example_dataset = Some example_X
   /\ heap example_state !! bunch_target example_dataset = Some example_y
   /\ shape example_X = [4; 2] /\ 1 <= 4 /\ 1 <= 2)
  /\ exists X_missing res st',
       example_run = Ok (res, st')
       /\ shape X_missing = [4; 2]
       /\ cv_calls st' = [ (RandomForest, example_X, example_y);
                           (RandomForest, X_missing, example_y);
                           (ImputeThenForest, X_missing, example_y) ].
Proof.
  split; [repeat split; lia|].
  destruct (missing_value_injection_well_formed
              0%Z (returning example_score) id (fun _ => 0%Z)
              example_dataset example_state example_X example_y 4 2)
    as (_ & _ & _ & mf & r2 & Xm & _ & _ & _ & _ & _ & _ & Hshape
        & Hok & Herr);
    [reflexivity | reflexivity | reflexivity | lia | lia |].
  destruct example_run as [[res st']|e] eqn:Hrun.
  - exists Xm, res, st'. split; [reflexivity|]. split; [exact Hshape|].
    exact (proj2 (Hok res st' Hrun)).
  - exfalso. destruct (Herr e Hrun) as [H|[H|H]]; discriminate H.
Defined.

Lemma imputations_same_data_witness :
  (heap example_state !! bunch_data example_dataset = Some example_X
   /\ heap example_state !! bunch_target example_dataset = Some example_y
   /\ shape example_X = [4; 2] /\ 1 <= 4 /\ 1 <= 2)
  /\ exists res st' X y,
       example_run = Ok (res, st')
       /\ cv_calls st' = [ (RandomForest, example_X, example_y);
                           (RandomForest, X, y);
                           (ImputeThenForest, X, y) ].
Proof.
  split; [repeat split; lia|].
  destruct (imputations_scored_on_same_data
              0%Z example_score id (fun _ => 0%Z)
              example_dataset example_state example_X example_y 4 2)
    as (mf & r2 & X & y & res & st' & _ & _ & _ & Hrun & Hcalls & _);
    [reflexivity | reflexivity | reflexivity | lia | lia |].
  exists res, st', X, y. split; [exact Hrun | exact Hcalls].
Defined.
End ImputeWitnesses.

(** ** The claim about the cache directory *)

Section CacheClaims.
Import Syntax Analysis Scripts Py Cache.

(** C4: in a file system where every path has its parent, whatever the
    temporary directory, the candidate names, the entries the cache
    stores and the library calls that raise, a run of the caching
    section that completes leaves the file system exactly as it found
    it: the directory made by [mkdtemp] and all that the pipeline
    cached below it are gone after [rmtree]; and the section does
    complete when the temporary directory exists, one of the candidate
    names is free and no library call raises.  No other script calls a
    function that creates files or directories. *)
Theorem cache_directory_removed_on_completion
    (tempdir : path) (names : list string) (entries : list path)
    (raises : library_call -> option error) (fs : gset path) :
  well_formed fs ->
  (forall fs',
     caching_section tempdir names entries raises fs = (Ok tt, fs') ->
     fs' = fs)
  /\ (forall name,
        present fs tempdir -> name ∈ take TMP_MAX names ->
        ¬ present fs (tempdir ++ [name]) ->
        (forall call, raises call = None) ->
        caching_section tempdir names entries raises fs = (Ok tt, fs))
  /\ Forall (fun sc =>
               Forall (fun f => f ∈ filesystem_writers ->
                                script_name sc = "plot_compare_reduction")
                      (called_heads (script_body sc)))
            scripts
  /\ filter (fun f => f ∈ filesystem_writers ++ ["rmtree"])
            (called_heads plot_compare_reduction_body)
     = ["mkdtemp"; "Memory"; "rmtree"].
Proof.
  intros Hwf. split; [|split; [|split]].
  - intros fs'. by apply caching_section_restores.
  - intros name. by apply caching_section_completes.
  - refine (bool_decide_eq_true_1 _ _); vm_compute; reflexivity.
  - vm_compute; reflexivity.
Qed.

(** The calls of the second and third code block of the page, in source
    order: those of [caching_section], then [plt.show()]. *)
Example caching_section_source_calls :
  called_heads (drop 31 plot_compare_reduction_body)
  = [ "mkdtemp"; "Memory"; "Pipeline"; "PCA"; "LinearSVC"; "GridSearchCV";
      "load_digits"; "fit"; "rmtree"; "show" ].
Proof. vm_compute. reflexivity. Qed.

(** Before [rmtree] the cache directory and its entries exist. *)
Example cache_before_rmtree :
  match (cachedir ← mkdtemp ["tmp"] example_names;
         memory ← Memory none_raises cachedir;
         fit example_entries none_raises
             {| estimator_of := {| memory_of := memory |} |} tt)
          example_fs with
  | (Ok _, fs) => size fs = 3 + 7 /\ ["tmp"; "tmpb"; "joblib"; "x"] ∈ fs
  | (Error _, _) => False
  end.
Proof.
  vm_compute. split; [reflexivity|].
  refine (bool_decide_eq_true_1 _ _). vm_compute. reflexivity.
Qed.

Lemma example_fs_well_formed : well_formed example_fs.
Proof.
  intros p Hp. unfold example_fs in Hp.
  apply elem_of_union in Hp as [Hp|Hp];
    [apply elem_of_union in Hp as [Hp|Hp]|];
    apply elem_of_singleton in Hp; subst p;
    (split; [discriminate|]); unfold present, parent; simpl; auto.
  right. unfold example_fs.
  apply elem_of_union_l, elem_of_union_l, elem_of_singleton. reflexivity.
Qed.

Lemma cache_directory_witness :
  well_formed example_fs
  /\ caching_section ["tmp"] example_names example_entries none_raises
       example_fs
     = (Ok tt, example_fs).
Proof.
  split; [exact example_fs_well_formed|].
  destruct (cache_directory_removed_on_completion
              ["tmp"] example_names example_entries none_raises example_fs
              example_fs_well_formed) as (_ & H & _).
  apply (H "tmpb").
  - right. unfold example_fs.
    apply elem_of_union_l, elem_of_union_l, elem_of_singleton. reflexivity.
  - refine (bool_decide_eq_true_1 _ _); vm_compute; reflexivity.
  - refine (bool_decide_eq_true_1 _ _); vm_compute; reflexivity.
  - reflexivity.
Defined.
End CacheClaims.

(** ** The imputation example, continued *)

Section ImputeMore.
Import Syntax Numpy Py Impute ImputePlot.

(** *** Cells written by an indexed assignment *)









Lemma offset_unique (d r c r' c' : nat) :
  c < d -> c' < d -> r * d + c = r' * d + c' -> r = r' /\ c = c'.
Proof.
  intros Hc Hc' H. destruct (decide (r = r')) as [->|Hne]; [split; [done|lia]|].
  exfalso. destruct (decide (r < r')).
  - assert ((r + 1) * d <= r' * d) by (apply Nat.mul_le_mono_r; lia). lia.
  - assert ((r' + 1) * d <= r * d) by (apply Nat.mul_le_mono_r; lia). lia.
Qed.


(** *** Runs of [get_results], continued *)

Section Outcomes.
Context {F Scores : Type} (zero : F).
Variable cross_val_score :
  estimator -> ndarray F -> ndarray F -> result Scores.
Variables mean std : Scores -> F.

(** X1: what a call of [get_results] comes to, by the shape of the
    data.  An array of fewer than two dimensions is refused with
    [IndexError] at [X_full.shape], before anything is scored.  On
    two-dimensional data of at least two samples without a feature
    column the call ends in the exception of the first
    [cross_val_score], or, if that returns, in the [ValueError] of
    [rng.randint(0, 0, ...)].  On two-dimensional data with a feature
    column the function raises nothing of its own: an exception it ends
    with is one a call of [cross_val_score] raised, and it returns when
    [cross_val_score] returns on the targets. *)
Theorem get_results_outcome_by_shape (dataset : Bunch) (st : @state F)
    (aX ay : ndarray F) :
  heap st !! bunch_data dataset = Some aX ->
  heap st !! bunch_target dataset = Some ay ->
  (length (shape aX) < 2 ->
   get_results zero cross_val_score mean std dataset st = Error IndexError)
  /\ (forall n, shape aX = [n; 0] -> 2 <= n ->
        get_results zero cross_val_score mean std dataset st
        = match cross_val_score RandomForest aX ay with
          | Ok _ => Error ValueError
          | Error e => Error e
          end)
  /\ (forall n d, shape aX = [n; d] -> 1 <= d ->
        (forall e,
           get_results zero cross_val_score mean std dataset st = Error e ->
           exists est X, cross_val_score est X ay = Error e)
        /\ ((forall est X, exists scores,
               cross_val_score est X ay = Ok scores) ->
            exists res st',
              get_results zero cross_val_score mean std dataset st
              = Ok (res, st'))).
Proof.
  intros HX Hy. split; [|split].
  - intros Hlen. unfold get_results.
    destruct (shape aX) as [|n [|d rest]] eqn:Hs; [| |simpl in Hlen; lia].
    + apply bind_error. unfold shape_at.
      rewrite (bind_ok _ _ _ _ _ (read_ok _ _ _ HX)). by rewrite Hs.
    + rewrite (bind_ok _ _ _ _ _
                 (shape_at_ok _ aX 0 n _ HX ltac:(by rewrite Hs))).
      apply bind_error. unfold shape_at.
      rewrite (bind_ok _ _ _ _ _ (read_ok _ _ _ HX)). by rewrite Hs.
  - intros n Hs Hn. unfold get_results.
    pose proof (floor_missing_rate_bounds (Z.of_nat n) ltac:(lia)) as Hm.
    set (m := Qfloor (inject_Z (Z.of_nat n) * missing_rate)) in *.
    rewrite (bind_ok _ _ _ _ _ (shape_at_ok _ aX 0 n _ HX ltac:(by rewrite Hs))).
    rewrite (bind_ok _ _ _ _ _ (shape_at_ok _ aX 1 0 _ HX ltac:(by rewrite Hs))).
    destruct (cross_val_score RandomForest aX ay) as [s1|e] eqn:E1.
    2:{ apply bind_error.
        by apply (call_cross_val_score_error _ _ _ _ aX ay). }
    rewrite (bind_ok _ _ _ _ _
               (call_cross_val_score_ok _ _ _ _ _ _ _ _ HX Hy E1)).
    rewrite (bind_ok _ _ _ _ _ (lift_full_ok (Z.of_nat n - m) false _ ltac:(lia))).
    rewrite (bind_ok _ _ _ _ _ (lift_full_ok m true _ ltac:(lia))).
    set (mask := replicate _ false ++ replicate _ true).
    set (st1 := State _ _ _).
    rewrite (bind_ok (rng_shuffle mask) _ st1 (shuffle mask (rng st)).1
               (State (shuffle mask (rng st)).2 (heap st) (cv_calls st1))).
    2:{ unfold rng_shuffle; simpl. by destruct (shuffle mask (rng st)). }
    apply bind_error. reflexivity.
  - intros n d Hs Hd.
    destruct (get_results_outcome zero cross_val_score mean std dataset st
                aX ay n d HX Hy Hs Hd)
      as (mf & r2 & Xm & _ & _ & _ & Herr & Hret).
    split; [|exact Hret].
    intros e Hrun. destruct (Herr e Hrun) as [H|[H|H]]; eauto.
Qed.
End Outcomes.

Context {F Scores : Type} (zero : F).
Variable cross_val_score : estimator -> ndarray F -> ndarray F -> Scores.
Variables mean std : Scores -> F.

Lemma get_results_effect (dataset : Bunch) (st : @state F)
    (aX ay : ndarray F) (n d : nat) :
  heap st !! bunch_data dataset = Some aX ->
  heap st !! bunch_target dataset = Some ay ->
  shape aX = [n; d] -> 1 <= d ->
  let m := Qfloor (inject_Z (Z.of_nat n) * missing_rate) in
  let mask := replicate (Z.to_nat (Z.of_nat n - m)) false
                ++ replicate (Z.to_nat m) true in
  let ms := (shuffle mask (rng st)).1 in
  exists mf Xm st',
    get_results zero (returning cross_val_score) mean std dataset st
    = Ok (scores_of cross_val_score mean std aX Xm ay, st')
    /\ length ms = n /\ count_true ms = Z.to_nat m
    /\ length mf = count_true ms
    /\ Forall (fun c => 0 <= c < Z.of_nat d)%Z mf
    /\ corrupted zero aX ms mf = Ok Xm
    /\ randint 0 (Z.of_nat d) m (shuffle mask (rng st)).2 = Ok (mf, rng st')
    /\ cv_calls st' = cv_calls st ++ [(RandomForest, aX, ay);
                                      (RandomForest, Xm, ay);
                                      (ImputeThenForest, Xm, ay)]
    /\ (forall l a, heap st !! l = Some a -> heap st' !! l = Some a).
Proof.
  intros HX Hy Hs Hd m mask ms.
  pose proof (floor_missing_rate_bounds (Z.of_nat n) ltac:(lia)) as Hm.
  fold m in Hm.
  destruct (get_results_returning zero cross_val_score mean std dataset st
              aX ay n d HX Hy Hs Hd)
    as (mf & r2 & Xm & res & st' & Hri & HXm & Hrun & Hrng & Hcalls & Hheap & ->).
  fold m mask ms in Hri, HXm.
  destruct (randint_spec 0 (Z.of_nat d) m (shuffle mask (rng st)).2
              ltac:(lia) ltac:(lia))
    as (mf' & r2' & Hri' & Hmfl & Hmfb).
  rewrite Hri in Hri'. injection Hri' as <- <-.
  destruct (shuffled_mask n (rng st)) as [Hmsl Hmsc].
  fold m mask ms in Hmsl, Hmsc.
  exists mf, Xm, st'.
  split; [exact Hrun|]. split; [exact Hmsl|]. split; [exact Hmsc|].
  split; [lia|]. split; [exact Hmfb|]. split; [exact HXm|].
  split; [by rewrite Hrng|]. split; [exact Hcalls | exact Hheap].
Qed.


Lemma both_results_run (diabetes boston : Bunch) (st : @state F)
    (aX1 ay1 aX2 ay2 : ndarray F) (n1 d1 n2 d2 : nat) :
  heap st !! bunch_data diabetes = Some aX1 ->
  heap st !! bunch_target diabetes = Some ay1 ->
  heap st !! bunch_data boston = Some aX2 ->
  heap st !! bunch_target boston = Some ay2 ->
  shape aX1 = [n1; d1] -> 1 <= d1 ->
  shape aX2 = [n2; d2] -> 1 <= d2 ->
  let m1 := Qfloor (inject_Z (Z.of_nat n1) * missing_rate) in
  let mask1 := replicate (Z.to_nat (Z.of_nat n1 - m1)) false
                 ++ replicate (Z.to_nat m1) true in
  let m2 := Qfloor (inject_Z (Z.of_nat n2) * missing_rate) in
  let mask2 := replicate (Z.to_nat (Z.of_nat n2 - m2)) false
                 ++ replicate (Z.to_nat m2) true in
  exists mf1 mf2 Xm1 Xm2 st1 st2,
    get_results zero (returning cross_val_score) mean std diabetes st
    = Ok (scores_of cross_val_score mean std aX1 Xm1 ay1, st1)
    /\ get_results zero (returning cross_val_score) mean std boston st1
       = Ok (scores_of cross_val_score mean std aX2 Xm2 ay2, st2)
    /\ randint 0 (Z.of_nat d1) m1 (shuffle mask1 (rng st)).2
       = Ok (mf1, rng st1)
    /\ corrupted zero aX1 (shuffle mask1 (rng st)).1 mf1 = Ok Xm1
    /\ randint 0 (Z.of_nat d2) m2 (shuffle mask2 (rng st1)).2
       = Ok (mf2, rng st2)
    /\ corrupted zero aX2 (shuffle mask2 (rng st1)).1 mf2 = Ok Xm2
    /\ cv_calls st2 = cv_calls st ++ [(RandomForest, aX1, ay1);
                                      (RandomForest, Xm1, ay1);
                                      (ImputeThenForest, Xm1, ay1);
                                      (RandomForest, aX2, ay2);
                                      (RandomForest, Xm2, ay2);
                                      (ImputeThenForest, Xm2, ay2)].
Proof.
  intros HX1 Hy1 HX2 Hy2 Hs1 Hd1 Hs2 Hd2 m1 mask1 m2 mask2.
  destruct (get_results_effect diabetes st aX1 ay1 n1 d1 HX1 Hy1 Hs1 Hd1)
    as (mf1 & Xm1 & st1 & Hrun1 & _ & _ & _ & _ & HXm1 & Hri1
        & Hcalls1 & Hheap1).
  destruct (get_results_effect boston st1 aX2 ay2 n2 d2
              (Hheap1 _ _ HX2) (Hheap1 _ _ Hy2) Hs2 Hd2)
    as (mf2 & Xm2 & st2 & Hrun2 & _ & _ & _ & _ & HXm2 & Hri2
        & Hcalls2 & _).
  exists mf1, mf2, Xm1, Xm2, st1, st2.
  split; [exact Hrun1|]. split; [exact Hrun2|]. split; [exact Hri1|].
  split; [exact HXm1|]. split; [exact Hri2|]. split; [exact HXm2|].
  rewrite Hcalls2, Hcalls1, <- app_assoc. reflexivity.
Qed.

(** X3: the two calls of the script share the generator.  With both
    datasets in the store, each two-dimensional with a feature column,
    and [cross_val_score] returning, [both_results] returns both
    results.  The call on the second dataset shuffles its mask and
    draws its features with the generator as the call on the first
    dataset left it, after the shuffle and the draw for the first
    dataset.  [cross_val_score] has been called six times, three per
    dataset, in order. *)
Theorem both_results_share_generator (diabetes boston : Bunch)
    (st : @state F) (aX1 ay1 aX2 ay2 : ndarray F) (n1 d1 n2 d2 : nat) :
  heap st !! bunch_data diabetes = Some aX1 ->
  heap st !! bunch_target diabetes = Some ay1 ->
  heap st !! bunch_data boston = Some aX2 ->
  heap st !! bunch_target boston = Some ay2 ->
  shape aX1 = [n1; d1] -> 1 <= d1 ->
  shape aX2 = [n2; d2] -> 1 <= d2 ->
  let m1 := Qfloor (inject_Z (Z.of_nat n1) * missing_rate) in
  let mask1 := replicate (Z.to_nat (Z.of_nat n1 - m1)) false
                 ++ replicate (Z.to_nat m1) true in
  let m2 := Qfloor (inject_Z (Z.of_nat n2) * missing_rate) in
  let mask2 := replicate (Z.to_nat (Z.of_nat n2 - m2)) false
                 ++ replicate (Z.to_nat m2) true in
  exists res1 st1 res2 st2 mf1 mf2 Xm1 Xm2,
    get_results zero (returning cross_val_score) mean std diabetes st
    = Ok (res1, st1)
    /\ get_results zero (returning cross_val_score) mean std boston st1
       = Ok (res2, st2)
    /\ both_results zero (returning cross_val_score) mean std
         diabetes boston st
       = Ok ((res1, res2), st2)
    /\ randint 0 (Z.of_nat d1) m1 (shuffle mask1 (rng st)).2
       = Ok (mf1, rng st1)
    /\ corrupted zero aX1 (shuffle mask1 (rng st)).1 mf1 = Ok Xm1
    /\ randint 0 (Z.of_nat d2) m2 (shuffle mask2 (rng st1)).2
       = Ok (mf2, rng st2)
    /\ corrupted zero aX2 (shuffle mask2 (rng st1)).1 mf2 = Ok Xm2
    /\ cv_calls st2 = cv_calls st ++ [(RandomForest, aX1, ay1);
                                      (RandomForest, Xm1, ay1);
                                      (ImputeThenForest, Xm1, ay1);
                                      (RandomForest, aX2, ay2);
                                      (RandomForest, Xm2, ay2);
                                      (ImputeThenForest, Xm2, ay2)].
Proof.
  intros HX1 Hy1 HX2 Hy2 Hs1 Hd1 Hs2 Hd2 m1 mask1 m2 mask2.
  destruct (both_results_run diabetes boston st aX1 ay1 aX2 ay2 n1 d1 n2 d2
              HX1 Hy1 HX2 Hy2 Hs1 Hd1 Hs2 Hd2)
    as (mf1 & mf2 & Xm1 & Xm2 & st1 & st2 & Hrun1 & Hrun2 & Hri1 & HXm1
        & Hri2 & HXm2 & Hcalls).
  exists (scores_of cross_val_score mean std aX1 Xm1 ay1), st1,
         (scores_of cross_val_score mean std aX2 Xm2 ay2), st2,
         mf1, mf2, Xm1, Xm2.
  split; [exact Hrun1|]. split; [exact Hrun2|]. split.
  { unfold both_results.
    rewrite (bind_ok _ _ _ _ _ Hrun1). by rewrite (bind_ok _ _ _ _ _ Hrun2). }
  split; [exact Hri1|]. split; [exact HXm1|]. split; [exact Hri2|].
  split; [exact HXm2 | exact Hcalls].
Qed.

(** X4: the figure shows each score under its own label.  With both
    datasets in the store and [cross_val_score] returning, the
    module-level statements return; on each
    pair of axes the bars are at 0, 1 and 2 and show, in this order,
    minus the mean score (with the standard deviation as error bar) of
    the forest on the full data, of the forest on the corrupted copy
    and of the imputing pipeline on the corrupted copy, in the colours
    r, g and b; the labels of the first axes, Full data, Zero imputation
    and Mean Imputation, are as many as the bars.  The fourth colour is
    not used. *)
Theorem figure_bars_match_labels (neg : F -> F) (diabetes boston : Bunch)
    (st : @state F) (aX1 ay1 aX2 ay2 : ndarray F) (n1 d1 n2 d2 : nat) :
  heap st !! bunch_data diabetes = Some aX1 ->
  heap st !! bunch_target diabetes = Some ay1 ->
  heap st !! bunch_data boston = Some aX2 ->
  heap st !! bunch_target boston = Some ay2 ->
  shape aX1 = [n1; d1] -> 1 <= d1 ->
  shape aX2 = [n2; d2] -> 1 <= d2 ->
  exists Xm1 Xm2 ax1 ax2 st',
    figure zero (returning cross_val_score) mean std neg diabetes boston st
    = Ok ((ax1, ax2), st')
    /\ cv_calls st' = cv_calls st ++ [(RandomForest, aX1, ay1);
                                      (RandomForest, Xm1, ay1);
                                      (ImputeThenForest, Xm1, ay1);
                                      (RandomForest, aX2, ay2);
                                      (RandomForest, Xm2, ay2);
                                      (ImputeThenForest, Xm2, ay2)]
    /\ yticks ax1 = map bar_y (bars ax1)
    /\ length (yticklabels ax1) = length (bars ax1)
    /\ zip (yticklabels ax1) (bars ax1)
       = [ (Str "Full data",
            Bar 0 (neg (mean (cross_val_score RandomForest aX1 ay1)))
                (std (cross_val_score RandomForest aX1 ay1)) (Str "r"));
           (Str "Zero imputation",
            Bar 1 (neg (mean (cross_val_score RandomForest Xm1 ay1)))
                (std (cross_val_score RandomForest Xm1 ay1)) (Str "g"));
           (Str "Mean Imputation",
            Bar 2 (neg (mean (cross_val_score ImputeThenForest Xm1 ay1)))
                (std (cross_val_score ImputeThenForest Xm1 ay1)) (Str "b")) ]
    /\ yticks ax2 = map bar_y (bars ax2)
    /\ length (yticklabels ax2) = length (bars ax2)
    /\ bars ax2
       = [ Bar 0 (neg (mean (cross_val_score RandomForest aX2 ay2)))
               (std (cross_val_score RandomForest aX2 ay2)) (Str "r");
           Bar 1 (neg (mean (cross_val_score RandomForest Xm2 ay2)))
               (std (cross_val_score RandomForest Xm2 ay2)) (Str "g");
           Bar 2 (neg (mean (cross_val_score ImputeThenForest Xm2 ay2)))
               (std (cross_val_score ImputeThenForest Xm2 ay2)) (Str "b") ].
Proof.
  intros HX1 Hy1 HX2 Hy2 Hs1 Hd1 Hs2 Hd2.
  destruct (both_results_run diabetes boston st aX1 ay1 aX2 ay2 n1 d1 n2 d2
              HX1 Hy1 HX2 Hy2 Hs1 Hd1 Hs2 Hd2)
    as (mf1 & mf2 & Xm1 & Xm2 & st1 & st2 & Hrun1 & Hrun2 & _ & _ & _ & _
        & Hcalls).
  exists Xm1, Xm2. do 2 eexists. exists st2.
  split.
  { unfold figure. rewrite (bind_ok _ _ _ _ _ Hrun1).
    unfold scores_of at 1 2. simpl np_array.
    rewrite (bind_ok _ _ st1 _ st1 eq_refl).
    rewrite (bind_ok _ _ st1 _ st1 eq_refl).
    rewrite (bind_ok _ _ _ _ _ Hrun2).
    reflexivity. }
  split; [exact Hcalls|]. repeat split; reflexivity.
Qed.
End ImputeMore.

Section ImputeMoreWitnesses.
Import Syntax Numpy Py Impute ImputePlot.

Lemma get_results_outcome_witness :
  (heap example_flat_state !! bunch_data example_dataset = Some example_flat_X
   /\ heap example_flat_state !! bunch_target example_dataset = Some example_y
   /\ length (shape example_flat_X) < 2)
  /\ get_results 0%Z (returning example_score) id (fun _ => 0%Z)
       example_dataset example_flat_state = Error IndexError.
Proof.
  split; [repeat split; simpl; lia|].
  apply (get_results_outcome_by_shape 0%Z (returning example_score) id
           (fun _ => 0%Z)
           example_dataset example_flat_state example_flat_X example_y);
    [reflexivity | reflexivity | simpl; lia].
Defined.


Lemma both_results_witness :
  (heap example_two_state !! bunch_data example_dataset = Some example_X
   /\ heap example_two_state !! bunch_target example_dataset = Some example_y
   /\ heap example_two_state !! bunch_data example_boston
      = Some example_boston_X
   /\ heap example_two_state !! bunch_target example_boston
      = Some example_boston_y
   /\ shape example_X = [4; 2] /\ 1 <= 2
   /\ shape example_boston_X = [2; 3] /\ 1 <= 3)
  /\ exists res (st1 st' : @state Z) missing_features,
       both_results 0%Z (returning example_score) id (fun _ => 0%Z)
         example_dataset example_boston example_two_state = Ok (res, st')
       /\ randint 0 3 1 (shuffle [false; true] (rng st1)).2
          = Ok (missing_features, rng st').
Proof.
  split; [repeat split; lia|].
  destruct (both_results_share_generator
              0%Z example_score id (fun _ => 0%Z)
              example_dataset example_boston example_two_state
              example_X example_y example_boston_X example_boston_y 4 2 2 3)
    as (res1 & st1 & res2 & st2 & mf1 & mf2 & Xm1 & Xm2 & _ & _ & Hrun & _
        & _ & Hri2 & _);
    [reflexivity | reflexivity | reflexivity | reflexivity
     | reflexivity | lia | reflexivity | lia |].
  exists (res1, res2), st1, st2, mf2. split; [exact Hrun | exact Hri2].
Defined.

Lemma figure_bars_witness :
  (heap example_two_state !! bunch_data example_dataset = Some example_X
   /\ heap example_two_state !! bunch_target example_dataset = Some example_y
   /\ heap example_two_state !! bunch_data example_boston
      = Some example_boston_X
   /\ heap example_two_state !! bunch_target example_boston
      = Some example_boston_y
   /\ shape example_X = [4; 2] /\ 1 <= 2
   /\ shape example_boston_X = [2; 3] /\ 1 <= 3)
  /\ exists ax1 ax2 st',
       figure 0%Z (returning example_score) id (fun _ => 0%Z) Z.opp
         example_dataset example_boston example_two_state
       = Ok ((ax1, ax2), st')
       /\ yticks ax1 = map bar_y (bars ax1)
       /\ length (yticklabels ax1) = length (bars ax1).
Proof.
  split; [repeat split; lia|].
  destruct (figure_bars_match_labels
              0%Z example_score id (fun _ => 0%Z) Z.opp
              example_dataset example_boston example_two_state
              example_X example_y example_boston_X example_boston_y 4 2 2 3)
    as (Xm1 & Xm2 & ax1 & ax2 & st' & Hrun & _ & Hticks & Hlen & _);
    [reflexivity | reflexivity | reflexivity | reflexivity
     | reflexivity | lia | reflexivity | lia |].
  exists ax1, ax2, st'. split; [exact Hrun|]. split; [exact Hticks|exact Hlen].
Defined.
End ImputeMoreWitnesses.

(** ** The score table of [plot_compare_reduction], continued *)

Section ScoreTable.
Import Syntax Analysis Scripts Numpy Grid.

(** X5: which candidates each cell of the plotted table is the maximum
    of.  The scores come in grid order: the 24 candidates of the first
    mapping ([C] slowest, then the reducer, then the number of
    components), then the 12 of the second.  Reshaped to (4, 3, 3) and
    maximised over the first axis, cell [(r, n)] is the maximum of the
    candidates at positions [3 r + n], [9 + 3 r + n], [18 + 3 r + n] and
    [27 + 3 r + n]: the row paired with the label PCA takes its maximum
    over PCA at C = 1 and C = 1000, NMF at C = 10 and SelectKBest at
    C = 10, and likewise for the other two rows; in every cell the four
    candidates have the number of features of the cell's column. *)
Theorem compare_reduction_table_cells
    (A : Type) (maxA : A -> A -> A) (score : list (string * expr) -> A) :
  let pca := Call (Name "PCA") [] [("iterated_power", Num "7")] in
  let nmf := Call (Name "NMF") [] [] in
  let kbest := Call (Name "SelectKBest") [Name "chi2"] [] in
  let components := "reduce_dim__n_components" in
  let k := "reduce_dim__k" in
  let s := fun C reducer key n =>
             score [("classify__C", Num C); ("reduce_dim", reducer);
                    (key, Num n)] in
  let best := fun a b c d => maxA (maxA (maxA a b) c) d in
  exists gs : grid_search,
    grid_searches plot_compare_reduction_body !! 0 = Some (Some gs)
    /\ labelled_scores maxA (map score (candidates gs))
       = Some
           [ (Str "PCA",
              NdArray [3]
                [ best (s "1" pca components "2") (s "10" nmf components "2")
                       (s "1000" pca components "2") (s "10" kbest k "2");
                  best (s "1" pca components "4") (s "10" nmf components "4")
                       (s "1000" pca components "4") (s "10" kbest k "4");
                  best (s "1" pca components "8") (s "10" nmf components "8")
                       (s "1000" pca components "8") (s "10" kbest k "8") ]);
             (Str "NMF",
              NdArray [3]
                [ best (s "1" nmf components "2") (s "100" pca components "2")
                       (s "1000" nmf components "2") (s "100" kbest k "2");
                  best (s "1" nmf components "4") (s "100" pca components "4")
                       (s "1000" nmf components "4") (s "100" kbest k "4");
                  best (s "1" nmf components "8") (s "100" pca components "8")
                       (s "1000" nmf components "8") (s "100" kbest k "8") ]);
             (Str "KBest(chi2)",
              NdArray [3]
                [ best (s "10" pca components "2") (s "100" nmf components "2")
                       (s "1" kbest k "2") (s "1000" kbest k "2");
                  best (s "10" pca components "4") (s "100" nmf components "4")
                       (s "1" kbest k "4") (s "1000" kbest k "4");
                  best (s "10" pca components "8") (s "100" nmf components "8")
                       (s "1" kbest k "8") (s "1000" kbest k "8") ]) ].
Proof.
  intros pca nmf kbest components k s best.
  eexists. split; [vm_compute; reflexivity|].
  vm_compute. reflexivity.
Qed.
End ScoreTable.

(** ** The caching section, continued *)

Section CacheFailures.
Import Py Cache.


End CacheFailures.

(** ** Meshes *)

Section MeshFacts.
Import Numpy Mesh.
Context {A : Type}.

#[local] Abbreviation pairs := (flat_map (fun p : A * A => [fst p; snd p])).

Lemma lookup_omap_seq {B} (f : nat -> option B) (s n k : nat) :
  (forall j, s <= j < s + n -> is_Some (f j)) -> k < n ->
  omap f (seq s n) !! k = f (s + k).
Proof.
  revert s k. induction n as [|n IH]; intros s k Hf Hk; [lia|].
  simpl. destruct (Hf s ltac:(lia)) as [y Hy]. rewrite Hy.
  destruct k as [|k]; simpl.
  - by rewrite Nat.add_0_r.
  - rewrite IH; [f_equal; lia | | lia]. intros j Hj. apply Hf. lia.
Qed.

Lemma length_omap_seq {B} (f : nat -> option B) (s n : nat) :
  (forall j, s <= j < s + n -> is_Some (f j)) ->
  length (omap f (seq s n)) = n.
Proof.
  revert s. induction n as [|n IH]; intros s Hf; [done|].
  simpl. destruct (Hf s ltac:(lia)) as [y Hy]. rewrite Hy. simpl.
  rewrite IH; [done|]. intros j Hj. apply Hf. lia.
Qed.

(** Collecting one element per index. *)
Lemma flat_map_take_drop (l' l : list A) (phi : nat -> nat) (s n : nat) :
  length l = n ->
  (forall r, r < n -> l' !! phi (s + r) = l !! r) ->
  flat_map (fun r => take 1 (drop (phi r) l')) (seq s n) = l.
Proof.
  revert s l. induction n as [|n IH]; intros s l Hl Hphi.
  - by destruct l.
  - destruct l as [|x l]; [done|]. simpl.
    pose proof (Hphi 0 ltac:(lia)) as H0. rewrite Nat.add_0_r in H0.
    simpl in H0. rewrite (drop_S _ _ _ H0). simpl. f_equal.
    apply IH; [simpl in Hl; lia|].
    intros r Hr. specialize (Hphi (S r) ltac:(lia)).
    by replace (s + S r) with (S s + r) in Hphi by lia.
Qed.

Lemma length_pairs (pts : list (A * A)) : length (pairs pts) = length pts * 2.
Proof. induction pts as [|p pts IH]; simpl; [done|]. rewrite IH. lia. Qed.

Lemma lookup_pairs (pts : list (A * A)) (r : nat) :
  pairs pts !! (r * 2) = fst <$> pts !! r
  /\ pairs pts !! (r * 2 + 1) = snd <$> pts !! r.
Proof.
  revert r. induction pts as [|p pts IH]; intros r; [done|].
  destruct r as [|r]; [done|].
  change (S r * 2) with (S (S (r * 2))).
  change (S (S (r * 2)) + 1) with (S (S (r * 2 + 1))).
  apply IH.
Qed.

Lemma getitem_col_pairs (pts : list (A * A)) :
  getitem_col (array_of_pairs pts) 0 = Some (NdArray [length pts] (fst <$> pts))
  /\ getitem_col (array_of_pairs pts) 1
     = Some (NdArray [length pts] (snd <$> pts)).
Proof.
  unfold getitem_col, array_of_pairs. simpl.
  split; do 2 f_equal.
  - apply flat_map_take_drop with (phi := fun r => (r * 2 + 0) * 1);
      [by rewrite length_fmap|].
    intros r _. simpl. rewrite Nat.mul_1_r, Nat.add_0_r.
    rewrite list_lookup_fmap. apply lookup_pairs.
  - apply flat_map_take_drop with (phi := fun r => (r * 2 + 1) * 1);
      [by rewrite length_fmap|].
    intros r _. simpl. rewrite Nat.mul_1_r.
    rewrite list_lookup_fmap. apply lookup_pairs.
Qed.

Lemma zip_with_fmap_same {B C D} (f : B -> C -> D) (h1 : A -> B) (h2 : A -> C)
    (l : list A) :
  zip_with f (h1 <$> l) (h2 <$> l) = (fun x => f (h1 x) (h2 x)) <$> l.
Proof. induction l as [|x l IH]; csimpl; [done|]. by f_equal. Qed.

(** *** Reshaping to a given shape *)

Lemma filter_Forall_id {B} (P : B -> Prop) `{!forall x, Decision (P x)}
    (l : list B) :
  Forall P l -> filter P l = l.
Proof.
  induction 1 as [|x l Hx Hl IH]; [done|].
  rewrite filter_cons_True by done. by rewrite IH.
Qed.

Lemma infer_shape_exact (n : nat) (newshape : list nat) :
  size_of newshape = n ->
  infer_shape n (Z.of_nat <$> newshape) = Some newshape.
Proof.
  intros Hn. unfold infer_shape.
  assert (filter (fun d : Z => d ≠ (-1)%Z) (Z.of_nat <$> newshape)
          = Z.of_nat <$> newshape) as ->.
  { apply filter_Forall_id. apply Forall_fmap, Forall_forall. intros x _.
    simpl. lia. }
  rewrite bool_decide_eq_true_2.
  2:{ apply Forall_fmap, Forall_forall. intros x _. simpl. lia. }
  rewrite Nat.sub_diag.
  assert (map Z.to_nat (Z.of_nat <$> newshape) = newshape) as ->.
  { clear. induction newshape as [|x l IH]; [done|].
    change (map Z.to_nat (Z.of_nat <$> x :: l))
      with (Z.to_nat (Z.of_nat x) :: map Z.to_nat (Z.of_nat <$> l)).
    by rewrite Nat2Z.id, IH. }
  by rewrite bool_decide_eq_true_2.
Qed.

Lemma reshape_exact (a : ndarray A) (newshape : list nat) :
  size_of newshape = length (data a) ->
  reshape a (Z.of_nat <$> newshape) = Some (NdArray newshape (data a)).
Proof.
  intros H. unfold reshape. by rewrite infer_shape_exact.
Qed.

(** *** Transposition of a two-dimensional array *)

Lemma transposed_index (r c k : nat) :
  ravel_index [r; c] (reverse (unravel_index [c; r] k))
  = (k `mod` r) * c + k `div` r.
Proof.
  change (unravel_index [c; r] k)
    with [k `div` (r * 1); (k `mod` (r * 1)) `div` 1].
  change (ravel_index [r; c] (reverse [k `div` (r * 1);
                                       (k `mod` (r * 1)) `div` 1]))
    with ((k `mod` (r * 1)) `div` 1 * (c * 1) + (k `div` (r * 1) * 1 + 0)).
  rewrite !Nat.mul_1_r, Nat.add_0_r, Nat.div_1_r. reflexivity.
Qed.

Lemma T_2d (a : ndarray A) (r c : nat) :
  shape a = [r; c] -> length (data a) = r * c ->
  shape (T a) = [c; r] /\ length (data (T a)) = c * r
  /\ forall i j, i < r -> j < c ->
       data (T a) !! (j * r + i) = data a !! (i * c + j).
Proof.
  intros Hs Hlen. unfold T. rewrite Hs.
  change (reverse [r; c]) with [c; r].
  change (size_of [c; r]) with (c * (r * 1)). rewrite Nat.mul_1_r.
  cbn [shape data].
  assert (forall k, k < c * r ->
            (k `mod` r) * c + k `div` r < r * c) as Hin.
  { intros k Hk. assert (0 < r) by (destruct r; lia).
    pose proof (Nat.mod_upper_bound k r ltac:(lia)).
    assert (k `div` r < c) by (apply Nat.Div0.div_lt_upper_bound; lia).
    nia. }
  assert (forall j, 0 <= j < 0 + c * r ->
            is_Some (data a !! ravel_index [r; c]
                                 (reverse (unravel_index [c; r] j)))) as Hsome.
  { intros k Hk. rewrite transposed_index. apply lookup_lt_is_Some.
    rewrite Hlen. apply Hin. lia. }
  split; [done|]. split; [by apply length_omap_seq|].
  intros i j Hi Hj.
  rewrite lookup_omap_seq; [|exact Hsome|nia].
  rewrite transposed_index. simpl.
  assert ((j * r + i) `mod` r = i) as ->.
  { rewrite Nat.add_comm, Nat.Div0.mod_add. by apply Nat.mod_small. }
  assert ((j * r + i) `div` r = j) as ->; [|done].
  rewrite Nat.div_add_l by lia. rewrite Nat.div_small by done. lia.
Qed.

(** Two one-dimensional arrays stacked and transposed are the array of
    the pairs of their elements. *)
Lemma T_vstack_pair (a b : list A) (n : nat) :
  length a = n -> length b = n ->
  exists v, vstack [NdArray [n] a; NdArray [n] b] = Some v
            /\ T v = NdArray [n; 2] (pairs (zip a b)).
Proof.
  intros Ha Hb. eexists. split.
  { unfold vstack. simpl. rewrite bool_decide_eq_true_2; [reflexivity|].
    by repeat constructor. }
  simpl. rewrite app_nil_r.
  set (v := NdArray [2; n] (a ++ b)).
  destruct (T_2d v 2 n eq_refl) as (Hshape & Hlen & Hlook).
  { simpl. rewrite length_app. lia. }
  destruct (T v) as [shp dat]. simpl in *. subst shp. f_equal.
  assert (length (zip a b) = n) as Hz.
  { rewrite length_zip_with. lia. }
  apply (list_eq_same_length _ _ (n * 2)); [by rewrite length_pairs, Hz|done|].
  intros k x y Hk Hx Hy.
  assert (exists q c, k = q * 2 + c /\ q < n /\ c < 2) as (q & c & -> & Hq & Hc).
  { exists (k `div` 2), (k `mod` 2).
    pose proof (Nat.div_mod_eq k 2).
    pose proof (Nat.mod_upper_bound k 2 ltac:(lia)).
    split; [lia|]. split; [|lia]. apply Nat.Div0.div_lt_upper_bound. lia. }
  rewrite (Hlook c q Hc Hq) in Hx.
  destruct (lookup_pairs (zip a b) q) as [Hp0 Hp1].
  destruct (zip a b !! q) as [[u w]|] eqn:E.
  2:{ apply lookup_ge_None in E. lia. }
  apply lookup_zip_with_Some in E as (u' & w' & [= <- <-] & Hu & Hw).
  destruct c as [|[|c]]; [| |lia].
  - rewrite Nat.add_0_r in Hy. rewrite Hp0 in Hy. simpl in Hx, Hy.
    rewrite lookup_app_l in Hx by lia. congruence.
  - rewrite Hp1 in Hy. simpl in Hx, Hy.
    rewrite Nat.add_0_r, lookup_app_r in Hx by lia.
    replace (n + q - length a) with q in Hx by lia. congruence.
Qed.

(** *** The mesh *)

Lemma length_mesh (x y : list A) : length (mesh x y) = length y * length x.
Proof.
  unfold mesh. induction y as [|v y IH]; simpl; [done|].
  by rewrite length_app, length_fmap, IH.
Qed.

Lemma fmap_fst_mesh (x y : list A) :
  fst <$> mesh x y = concat (replicate (length y) x).
Proof.
  unfold mesh. induction y as [|v y IH]; simpl; [done|].
  rewrite fmap_app, IH. f_equal.
  rewrite <- list_fmap_compose. clear. induction x as [|u x IH]; csimpl; [done|].
  by f_equal.
Qed.

Lemma fmap_snd_mesh (x y : list A) :
  snd <$> mesh x y = flat_map (replicate (length x)) y.
Proof.
  unfold mesh. induction y as [|v y IH]; simpl; [done|].
  rewrite fmap_app, IH. f_equal.
  rewrite <- list_fmap_compose. clear. induction x as [|u x IH]; csimpl; [done|].
  by f_equal.
Qed.

Lemma meshgrid_mesh (x y : list A) :
  meshgrid x y = (NdArray [length y; length x] (fst <$> mesh x y),
                  NdArray [length y; length x] (snd <$> mesh x y)).
Proof. unfold meshgrid. by rewrite fmap_fst_mesh, fmap_snd_mesh. Qed.

Lemma size_of_mesh (x y : list A) :
  size_of [length y; length x] = length (mesh x y).
Proof.
  rewrite length_mesh. change (size_of [length y; length x])
    with (length y * (length x * 1)). lia.
Qed.

(** *** Rows selected by a mask *)

Lemma omap_where_pairs (h : A * A -> bool) (c : nat) (pre pts : list (A * A)) :
  c < 2 ->
  omap (fun r => pairs (pre ++ pts) !! (Z.to_nat r * 2 + c))
       (Impute.where_from (Z.of_nat (length pre)) (h <$> pts))
  = (fun p => if decide (c = 0) then fst p else snd p)
      <$> filter (fun p => h p = true) pts.
Proof.
  intros Hc. revert pre. induction pts as [|p pts IH]; intros pre; [done|].
  change (Impute.where_from (Z.of_nat (length pre)) (h <$> p :: pts))
    with ((if h p then [Z.of_nat (length pre)] else [])
          ++ Impute.where_from (Z.of_nat (length pre) + 1) (h <$> pts)).
  assert (omap (fun r => pairs (pre ++ p :: pts) !! (Z.to_nat r * 2 + c))
               (Impute.where_from (Z.of_nat (length pre) + 1) (h <$> pts))
          = (fun p => if decide (c = 0) then fst p else snd p)
              <$> filter (fun p => h p = true) pts) as Hrest.
  { specialize (IH (pre ++ [p])). rewrite <- app_assoc in IH. simpl in IH.
    rewrite <- IH. f_equal. rewrite length_app. simpl. f_equal. lia. }
  rewrite omap_app, Hrest. clear Hrest IH.
  destruct (h p) eqn:Hp.
  - rewrite filter_cons_True by done.
    destruct (lookup_pairs (pre ++ p :: pts) (length pre)) as [H0 H1].
    rewrite list_lookup_middle in H0, H1 by done.
    change (omap (fun r => pairs (pre ++ p :: pts) !! (Z.to_nat r * 2 + c))
                 [Z.of_nat (length pre)])
      with (match pairs (pre ++ p :: pts)
                  !! (Z.to_nat (Z.of_nat (length pre)) * 2 + c) with
            | Some v => [v]
            | None => []
            end).
    rewrite Nat2Z.id.
    destruct c as [|[|c]]; [| |lia].
    + rewrite Nat.add_0_r, H0. reflexivity.
    + rewrite H1. reflexivity.
  - rewrite filter_cons_False by (rewrite Hp; done). reflexivity.
Qed.

Lemma getitem_mask_col_pairs (h : A * A -> bool) (pts : list (A * A)) :
  getitem_mask_col (array_of_pairs pts) (h <$> pts) 0
  = Some (array1 (fst <$> filter (fun p => h p = true) pts))
  /\ getitem_mask_col (array_of_pairs pts) (h <$> pts) 1
     = Some (array1 (snd <$> filter (fun p => h p = true) pts)).
Proof.
  unfold getitem_mask_col, array_of_pairs. simpl.
  rewrite bool_decide_eq_true_2 by (by rewrite length_fmap).
  split; simpl; do 2 f_equal.
  - apply (omap_where_pairs h 0 [] pts). lia.
  - apply (omap_where_pairs h 1 [] pts). lia.
Qed.
End MeshFacts.

Section MeshTheorems.
Import Numpy Mesh.
Context {A : Type}.
Variables sub mul pow : A -> A -> A.
Variables five half two : A.
Variable positive : A -> bool.
Variable linspace : nat -> list A.

#[local] Abbreviation g_at := (g_at sub mul pow five half two).
#[local] Abbreviation g := (g sub mul pow five half two).

Lemma g_pairs (pts : list (A * A)) :
  g (array_of_pairs pts) = Some (NdArray [length pts] (g_at <$> pts)).
Proof.
  unfold Mesh.g. destruct (getitem_col_pairs pts) as [-> ->]. simpl.
  do 2 f_equal. by rewrite (zip_with_fmap_same _ snd fst).
Qed.

(** X7: the true values lie on the mesh.  For a [linspace] of [res]
    points, [x1] and [x2] hold the two coordinates of the [res * res]
    mesh points row by row, [xx], the stacked and transposed flat
    coordinates, is the array of these points in the same order, and
    the reshaped [y_true] has the shape of [x1] and [x2] and holds, at
    every position, [g] of the point whose coordinates [x1] and [x2]
    hold there. *)
Theorem true_values_on_mesh (res : nat) :
  length (linspace res) = res ->
  let m := mesh (linspace res) (linspace res) in
  true_values sub mul pow five half two linspace res
  = Some (NdArray [res; res] (fst <$> m), NdArray [res; res] (snd <$> m),
          array_of_pairs m, NdArray [res; res] (g_at <$> m)).
Proof.
  intros Hres m. unfold true_values. rewrite meshgrid_mesh, Hres. fold m.
  assert (length m = res * res) as Hm.
  { unfold m. by rewrite length_mesh, Hres. }
  assert (size_of [res; res] = length m) as Hsize.
  { rewrite Hm. change (size_of [res; res]) with (res * (res * 1)). lia. }
  unfold size. cbn [shape].
  rewrite (reshape_exact (NdArray [res; res] (fst <$> m)) [size_of [res; res]]).
  2:{ cbn [data]. rewrite length_fmap.
      change (size_of [size_of [res; res]]) with (size_of [res; res] * 1). lia. }
  rewrite (reshape_exact (NdArray [res; res] (snd <$> m)) [size_of [res; res]]).
  2:{ cbn [data]. rewrite length_fmap.
      change (size_of [size_of [res; res]]) with (size_of [res; res] * 1). lia. }
  cbn [data mbind option_bind].
  destruct (T_vstack_pair (fst <$> m) (snd <$> m) (size_of [res; res]))
    as (v & Hv & HT); [by rewrite length_fmap | by rewrite length_fmap |].
  rewrite Hv. cbn [mbind option_bind]. cbv zeta. rewrite HT, zip_fst_snd, Hsize.
  change (NdArray [length m; 2] (flat_map (fun p : A * A => [fst p; snd p]) m))
    with (array_of_pairs m).
  rewrite g_pairs. cbn [mbind option_bind].
  rewrite (reshape_exact (NdArray [length m] (g_at <$> m)) [res; res]).
  2:{ cbn [data]. by rewrite length_fmap. }
  reflexivity.
Qed.

(** X8: the design points are drawn once each, by class.  For a design
    given as a list of points, the coordinates drawn in red are those
    of the points where [g] is not positive, the coordinates drawn in
    blue those of the points where it is, both in the order of the
    design; together the two groups are the design. *)
Theorem design_points_split_by_class (pts : list (A * A)) :
  let red := filter (fun p => positive (g_at p) = false) pts in
  let blue := filter (fun p => positive (g_at p) = true) pts in
  design_points sub mul pow five half two positive (array_of_pairs pts)
  = Some (array1 (fst <$> red), array1 (snd <$> red),
          (array1 (fst <$> blue), array1 (snd <$> blue)))
  /\ red ++ blue ≡ₚ pts.
Proof.
  intros red blue. split.
  - unfold design_points, observations. rewrite g_pairs.
    cbn [mbind option_bind data].
    rewrite <- !list_fmap_compose.
    destruct (getitem_mask_col_pairs
                ((fun t => bool_decide (t <= 0)%Z)
                   ∘ (fun t => if positive t then 1%Z else 0%Z) ∘ g_at) pts)
      as [-> ->].
    destruct (getitem_mask_col_pairs
                ((fun t => bool_decide (0 < t)%Z)
                   ∘ (fun t => if positive t then 1%Z else 0%Z) ∘ g_at) pts)
      as [-> ->].
    cbn [mbind option_bind].
    assert (filter (fun p => ((fun t => bool_decide (t <= 0)%Z)
                   ∘ (fun t => if positive t then 1%Z else 0%Z) ∘ g_at) p
                             = true) pts = red) as ->.
    { apply list_filter_iff. intros p. simpl.
      destruct (positive (g_at p)); split; intros H; done. }
    assert (filter (fun p => ((fun t => bool_decide (0 < t)%Z)
                   ∘ (fun t => if positive t then 1%Z else 0%Z) ∘ g_at) p
                             = true) pts = blue) as ->.
    { apply list_filter_iff. intros p. simpl.
      destruct (positive (g_at p)); split; intros H; done. }
    reflexivity.
  - unfold red, blue. clear. induction pts as [|p pts IH]; [done|].
    destruct (positive (g_at p)) eqn:Hp.
    + rewrite (filter_cons_False _ p) by (rewrite Hp; done).
      rewrite (filter_cons_True _ p) by done.
      rewrite <- Permutation_middle. by constructor.
    + rewrite (filter_cons_True _ p) by done.
      rewrite (filter_cons_False _ p) by (rewrite Hp; done).
      simpl. by constructor.
Qed.
End MeshTheorems.

Section IrisTheorems.
Import Numpy Mesh.
Context {A : Type}.
Variable predict_proba : ndarray A -> ndarray A.

(** X9: the probabilities fit the mesh.  For a mesh over [x] and [y] of
    any lengths, the points handed to [predict_proba] are the mesh
    points row by row, and when it returns three probabilities for
    every point, the reshape to
    [(xx.shape[0], xx.shape[1], 3)] succeeds with the shape
    [(len(y), len(x), 3)] and keeps the order of the points. *)
Theorem iris_probabilities_fit_mesh (x y : list A) :
  let q := array_of_pairs (mesh x y) in
  length (data (predict_proba q)) = length y * length x * 3 ->
  probabilities predict_proba x y
  = Some (q, NdArray [length y; length x; 3] (data (predict_proba q))).
Proof.
  intros q Hq. unfold probabilities. rewrite meshgrid_mesh.
  unfold c_, ravel, size. cbn [shape data].
  rewrite bool_decide_eq_true_2 by done.
  cbn [mbind option_bind]. rewrite zip_fst_snd, size_of_mesh.
  change (NdArray [length (mesh x y); 2]
            (flat_map (fun p : A * A => [fst p; snd p]) (mesh x y))) with q.
  cbn [lookup list_lookup mbind option_bind].
  change [Z.of_nat (length y); Z.of_nat (length x); 3%Z]
    with (Z.of_nat <$> [length y; length x; 3]).
  rewrite (reshape_exact (predict_proba q) [length y; length x; 3]).
  2:{ rewrite Hq. change (size_of [length y; length x; 3])
        with (length y * (length x * (3 * 1))). lia. }
  reflexivity.
Qed.
End IrisTheorems.

Section MeshWitnesses.
Import Numpy Mesh.

Lemma true_values_witness :
  length (linspace_Q 3) = 3
  /\ exists x1 x2 xx y_true,
       true_values Qminus Qmult pow_Q 5%Q 0.5%Q 2%Q linspace_Q 3
       = Some (x1, x2, xx, y_true)
       /\ shape x1 = [3; 3] /\ shape y_true = [3; 3].
Proof.
  split; [reflexivity|]. do 4 eexists.
  split; [apply (true_values_on_mesh Qminus Qmult pow_Q 5%Q 0.5%Q 2%Q
                   linspace_Q 3); reflexivity|].
  split; reflexivity.
Defined.

Lemma iris_probabilities_witness :
  length (data (sure_of_first (array_of_pairs (mesh [0; 1] [0; 1; 2]))))%Z
  = 3 * 2 * 3
  /\ exists q Z,
       probabilities sure_of_first [0; 1]%Z [0; 1; 2]%Z = Some (q, Z)
       /\ shape Z = [3; 2; 3].
Proof.
  split; [reflexivity|]. do 2 eexists.
  split; [apply (iris_probabilities_fit_mesh sure_of_first
                   [0; 1]%Z [0; 1; 2]%Z); reflexivity|].
  reflexivity.
Defined.
End MeshWitnesses.

(** ** The reference lines of [plot_optics] *)

Section OpticsFacts.
Import Numpy Optics.

Lemma truncate_small (v : Q) : (-1 < v)%Q -> (v < 1)%Q -> truncate v = 0%Z.
Proof.
  intros Hlo Hhi. unfold truncate. destruct v as [num den].
  unfold Qlt in Hlo, Hhi. simpl in *. case_bool_decide as Hsign.
  - unfold Qfloor. apply Z.div_small. lia.
  - unfold Qceiling, Qfloor, Qopp. simpl.
    assert ((- num) `div` Z.pos den = 0)%Z as ->; [|done].
    apply Z.div_small. lia.
Qed.

(** X10: the reference lines of the reachability plot lie at zero.
    [space], made by [np.arange] from an integer, is an integer array;
    [np.full_like] keeps that type, so the values 0.75 and 0.25 are
    stored as their integral part: whatever the number of points, both
    lines have as many entries as [space], all zero, and coincide. *)
Theorem reference_lines_at_zero (len_X : nat) :
  let '(space, line_075, line_025) := reference_lines len_X in
  dtype_of space = Int64
  /\ line_075
     = TypedArray Int64 (NdArray [len_X] (replicate len_X 0%Q))
  /\ line_025 = line_075.
Proof.
  unfold reference_lines, full_like, arange. cbn [dtype_of values shape data].
  unfold array1. cbn [shape data]. rewrite !length_fmap, !length_seq.
  unfold cast. rewrite !truncate_small by done.
  repeat split; reflexivity.
Qed.
End OpticsFacts.

(** ** The bar chart of [plot_compare_reduction] *)

Section LayoutFacts.
Import Layout.

Lemma bar_position_lookup (n_options n_labels i k : nat) (p : Q) :
  bar_positions n_options n_labels i !! k = Some p ->
  k < n_options
  /\ (p == inject_Z (Z.of_nat (k * (n_labels + 1) + i)) + 0.5)%Q.
Proof.
  unfold bar_positions, bar_offsets. rewrite !list_lookup_fmap.
  destruct (seq 0 n_options !! k) as [k'|] eqn:E; [|done].
  apply lookup_seq in E as [-> Hk]. simpl. intros [= <-]. split; [done|].
  repeat first [ rewrite Nat2Z.inj_add | rewrite Nat2Z.inj_mul
               | rewrite inject_Z_plus | rewrite inject_Z_mult ].
  ring.
Qed.

Lemma bars_apart (n_options n_labels i i' k k' : nat) (p p' : Q) :
  i < n_labels -> i' < n_labels ->
  bar_positions n_options n_labels i !! k = Some p ->
  bar_positions n_options n_labels i' !! k' = Some p' ->
  (i, k) ≠ (i', k') ->
  (p + 1 <= p')%Q \/ (p' + 1 <= p)%Q.
Proof.
  intros Hi Hi' Hp Hp' Hne.
  apply bar_position_lookup in Hp as [Hk Hp].
  apply bar_position_lookup in Hp' as [Hk' Hp'].
  set (N := k * (n_labels + 1) + i) in *.
  set (N' := k' * (n_labels + 1) + i') in *.
  assert (N ≠ N') as HN.
  { intros Heq. apply Hne.
    destruct (offset_unique (n_labels + 1) k i k' i') as [-> ->];
      [lia | lia | exact Heq | done]. }
  destruct (decide (N < N')) as [Hlt|Hge]; [left|right]; rewrite Hp, Hp'.
  - assert (inject_Z (Z.of_nat N) + 1 <= inject_Z (Z.of_nat N'))%Q as H.
    { rewrite <- (inject_Z_plus _ 1). rewrite <- Zle_Qle. lia. }
    assert (inject_Z (Z.of_nat N) + 0.5 + 1
            == inject_Z (Z.of_nat N) + 1 + 0.5)%Q as -> by ring.
    apply Qplus_le_compat; [exact H | apply Qle_refl].
  - assert (inject_Z (Z.of_nat N') + 1 <= inject_Z (Z.of_nat N))%Q as H.
    { rewrite <- (inject_Z_plus _ 1). rewrite <- Zle_Qle. lia. }
    assert (inject_Z (Z.of_nat N') + 0.5 + 1
            == inject_Z (Z.of_nat N') + 1 + 0.5)%Q as -> by ring.
    apply Qplus_le_compat; [exact H | apply Qle_refl].
Qed.

Lemma bar_calls_lookup {A} (n_options : nat) (labels : list Syntax.expr)
    (rows : list (list A)) (colors : string) calls (i : nat) ps hs label c :
  bar_calls n_options labels rows colors = Some calls ->
  calls !! i = Some (ps, hs, label, c) ->
  labels !! i = Some label /\ rows !! i = Some hs
  /\ String.get i colors = Some c
  /\ ps = bar_positions n_options (length labels) i.
Proof.
  unfold bar_calls. intros Hcalls Hi.
  apply mapM_Some_1 in Hcalls.
  destruct (Forall2_lookup_r _ _ _ _ _ Hcalls Hi) as ([j [l r]] & Hj & Hf).
  rewrite list_lookup_imap in Hj.
  destruct (zip labels rows !! i) as [[l' r']|] eqn:E; [|done].
  injection Hj as <- <- <-.
  apply lookup_zip_with_Some in E as (l0 & r0 & [= <- <-] & Hl & Hr).
  simpl in Hf. destruct (String.get i colors) as [c'|]; [|done].
  injection Hf as <- <- <- <-. done.
Qed.

(** X11: the bars of the chart.  When the loop over
    [enumerate(zip(reducer_labels, mean_scores))] completes, its [i]-th
    call of [plt.bar] carries the [i]-th label, the [i]-th row of
    scores and the [i]-th colour; and, for any number of feature options
    and of reducers, two bars drawn by the loop, in whichever calls and
    groups, are at least one unit apart unless they are the same bar
    (a bar is 0.8 wide). *)
Theorem bars_labelled_and_apart {A} (n_options : nat)
    (labels : list Syntax.expr) (rows : list (list A)) (colors : string)
    calls (i i' k k' : nat) ps ps' hs hs' label label' c c' (p p' : Q) :
  bar_calls n_options labels rows colors = Some calls ->
  calls !! i = Some (ps, hs, label, c) ->
  calls !! i' = Some (ps', hs', label', c') ->
  ps !! k = Some p -> ps' !! k' = Some p' ->
  (labels !! i = Some label /\ rows !! i = Some hs
   /\ String.get i colors = Some c)
  /\ ((i, k) ≠ (i', k') -> (p + 1 <= p')%Q \/ (p' + 1 <= p)%Q).
Proof.
  intros Hcalls Hi Hi' Hp Hp'.
  destruct (bar_calls_lookup _ _ _ _ _ _ _ _ _ _ Hcalls Hi)
    as (Hl & Hr & Hc & ->).
  destruct (bar_calls_lookup _ _ _ _ _ _ _ _ _ _ Hcalls Hi')
    as (Hl' & _ & _ & ->).
  split; [done|]. intros Hne.
  apply lookup_lt_Some in Hl, Hl'.
  by apply (bars_apart n_options (length labels) i i' k k').
Qed.
End LayoutFacts.

Section LayoutWitness.
Import Syntax Layout.

Lemma bars_witness :
  (bar_calls 3 Grid.reducer_labels [[1; 2; 3]; [4; 5; 6]; [7; 8; 9]] "bgrcmyk"
   = Some [ ([0.5; 4.5; 8.5]%Q, [1; 2; 3], Str "PCA", "b"%char);
            ([1.5; 5.5; 9.5]%Q, [4; 5; 6], Str "NMF", "g"%char);
            ([2.5; 6.5; 10.5]%Q, [7; 8; 9], Str "KBest(chi2)", "r"%char) ])
  /\ ((0, 2) ≠ (1, 0) -> (8.5 + 1 <= 1.5)%Q \/ (1.5 + 1 <= 8.5)%Q).
Proof.
  assert (bar_calls 3 Grid.reducer_labels [[1; 2; 3]; [4; 5; 6]; [7; 8; 9]]
            "bgrcmyk"
          = Some [ ([0.5; 4.5; 8.5]%Q, [1; 2; 3], Str "PCA", "b"%char);
                   ([1.5; 5.5; 9.5]%Q, [4; 5; 6], Str "NMF", "g"%char);
                   ([2.5; 6.5; 10.5]%Q, [7; 8; 9], Str "KBest(chi2)",
                    "r"%char) ]) as Hcalls.
  { vm_compute. reflexivity. }
  split; [exact Hcalls|].
  apply (bars_labelled_and_apart 3 Grid.reducer_labels
           [[1; 2; 3]; [4; 5; 6]; [7; 8; 9]] "bgrcmyk" _ 0 1 2 0
           _ _ _ _ _ _ _ _ _ _ Hcalls eq_refl eq_refl eq_refl eq_refl).
Defined.
End LayoutWitness.

(** ** The documented cache log *)

Section CacheLogFacts.
Import Syntax Analysis Scripts Grid CacheLog.


End CacheLogFacts.

(** ** The documented scores *)

Section ScoresFacts.
Import Syntax Analysis Scripts Grid Scores.

(** X13: the estimator printed on the page of [plot_feature_stacker]
    is the one the documented scores select.  The 54 lines that report
    a finished fit name, three by three, the 18 candidates in grid
    order; the first candidate with the highest mean score, whether the
    folds count equally or by their sizes 51, 51 and 48, sets 2
    components, 2 selected features and C = 1; and the printed
    estimator shows [n_components=2] for the PCA and [k=2] for the
    selection. *)
Theorem documented_best_estimator_has_best_score :
  exists (gs : grid_search) (best : list (string * expr)),
    grid_searches plot_feature_stacker_body = [Some gs]
    /\ fmap fst <$> mapM reported documented_cv_ends
       = Some (flat_map (fun c => replicate (gs_cv gs) (show_candidate c))
                        (candidates gs))
    /\ best_candidate gs [1; 1; 1]%Q documented_cv_ends = Some best
    /\ best_candidate gs [51; 51; 48]%Q documented_cv_ends = Some best
    /\ show_candidate best
       = "features__pca__n_components=2, features__univ_select__k=2, svm__C=1"
    /\ (fun v => prints documented_best_estimator "PCA" "n_components"
                        (show_literal v))
         <$> keyword "features__pca__n_components" best = Some true
    /\ (fun v => prints documented_best_estimator "SelectKBest" "k"
                        (show_literal v))
         <$> keyword "features__univ_select__k" best = Some true.
Proof.
  do 2 eexists. split; [vm_compute; reflexivity|].
  split; [vm_compute; reflexivity|].
  split; [vm_compute; reflexivity|].
  repeat split; vm_compute; reflexivity.
Qed.
End ScoresFacts.

(** ** Names *)

Section NamesFacts.
Import Syntax Analysis Scripts Names.
Local Open Scope names_scope.

Lemma sim_ret : sim ret ret.
Proof. intros sa sc H. simpl. eauto. Qed.

Lemma sim_andthen (m1a m1c m2a m2c : M) :
  sim m1a m1c -> sim m2a m2c -> sim (m1a ;; m2a) (m1c ;; m2c).
Proof.
  intros H1 H2 sa sc HR. unfold andthen. specialize (H1 sa sc HR).
  destruct (m1a sa) as [sa1|sa1| |]; try done.
  - destruct H1 as (sc1 & -> & HR1 & Hmono1). specialize (H2 sa1 sc1 HR1).
    destruct (m2a sa1) as [sa2|sa2| |]; try done.
    destruct H2 as (sc2 & -> & HR2 & Hmono2). exists sc2.
    split; [done|]. split; [done|]. by etrans.
  - destruct H1 as (sc1 & ->). eauto.
Qed.

Lemma sim_mseq {A} (fa fc : A -> M) (l : list A) :
  Forall (fun a => sim (fa a) (fc a)) l -> sim (mseq fa l) (mseq fc l).
Proof.
  induction 1 as [|a l Ha Hl IH]; simpl; [apply sim_ret|].
  by apply sim_andthen.
Qed.

Lemma reads_Normal (xs : list string) (st : state) :
  Forall (fun x => x ∈ env st) xs -> reads xs st = Normal st.
Proof.
  intros H. unfold reads.
  destruct (find _ xs) as [x|] eqn:E; [|done].
  apply find_some in E as [Hin Hx]. apply list_elem_of_In in Hin.
  rewrite Forall_forall in H. specialize (H x Hin).
  apply negb_true_iff, bool_decide_eq_false in Hx. contradiction.
Qed.

Lemma reads_inv (xs : list string) (st st' : state) :
  reads xs st = Normal st' -> st' = st /\ Forall (fun x => x ∈ env st) xs.
Proof.
  unfold reads. destruct (find _ xs) as [x|] eqn:E; [done|].
  intros [= <-]. split; [done|]. apply Forall_forall. intros x Hx.
  apply list_elem_of_In in Hx.
  pose proof (find_none _ _ E x Hx) as Hn. simpl in Hn.
  apply negb_false_iff, bool_decide_eq_true in Hn. done.
Qed.

Lemma sim_reads (xs : list string) : sim (reads xs) (reads xs).
Proof.
  intros sa sc HR. destruct (reads xs sa) as [sa'| | |] eqn:E; try done.
  - apply reads_inv in E as [-> Hall]. exists sc.
    split; [|done]. apply reads_Normal.
    eapply Forall_impl; [exact Hall|]. intros x Hx. by apply HR.
  - unfold reads in E. by destruct (find _ xs).
Qed.

Lemma sim_binds (xs : list string) : sim (binds xs) (binds xs).
Proof.
  intros sa sc HR. simpl. eexists. split; [reflexivity|]. simpl. split.
  - intros x [Hx|Hx]%elem_of_app; apply elem_of_app; [by left|right; by apply HR].
  - intros x Hx. apply elem_of_app. by right.
Qed.

Lemma sim_Returned : sim Returned Returned.
Proof. intros sa sc HR. eauto. Qed.

Lemma sim_Unsupported (m : M) : sim (fun _ => Unsupported) m.
Proof. by intros sa sc HR. Qed.

(** A loop checked once covers every number of iterations. *)
Lemma sim_loop (trips : nat -> nat) (ba bc : M) :
  sim ba bc -> sim (once ba) (iterate trips bc).
Proof.
  intros Hb sa sc HR. unfold once, iterate.
  destruct (ba sa) as [sa'| | |] eqn:E; try done.
  generalize (trips (decisions sc)). intros n.
  assert (forall sc0, env sa ⊆ env sc0 ->
            exists sc', repeat_m n bc sc0 = Normal sc'
                        /\ env sa ⊆ env sc' /\ env sc0 ⊆ env sc') as Hn.
  { induction n as [|n IH]; intros sc0 H0; simpl.
    - exists sc0. done.
    - unfold andthen. specialize (Hb sa sc0 H0). rewrite E in Hb.
      destruct Hb as (sc1 & -> & _ & Hmono).
      destruct (IH sc1 ltac:(by etrans)) as (sc' & -> & H1 & H2).
      exists sc'. split; [done|]. split; [done|]. by etrans. }
  destruct (Hn (State (env sc) (S (decisions sc))) HR) as (sc' & -> & H1 & H2).
  exists sc'. done.
Qed.

Section Interpreter.
Variable fns : list (string * list string * list stmt).
Variable trips : nat -> nat.
Variables callee_a callee_c : list stmt -> M.
Hypothesis callee_sim : forall b, sim (callee_a b) (callee_c b).

Lemma sim_call (g : string) : sim (call fns callee_a g) (call fns callee_c g).
Proof.
  unfold call. destruct (lookup_fn fns g) as [[ps body]|]; [|apply sim_ret].
  intros sa sc HR.
  assert (env (State (ps ++ filter (fun x => x ∉ local_names ps body) (env sa))
                     (decisions sa))
          ⊆ env (State (ps ++ filter (fun x => x ∉ local_names ps body) (env sc))
                       (decisions sc))) as Hin.
  { simpl. intros x [Hx|Hx]%elem_of_app; apply elem_of_app; [by left|right].
    apply list_elem_of_filter in Hx as [H1 H2]. apply list_elem_of_filter.
    split; [done|]. by apply HR. }
  specialize (callee_sim body _ _ Hin).
  destruct (callee_a body _) as [sa'|sa'| |]; try done.
  - destruct callee_sim as (sc' & -> & _). eexists. split; [reflexivity|].
    simpl. done.
  - destruct callee_sim as (sc' & ->). eexists. split; [reflexivity|].
    simpl. done.
Qed.

Lemma sim_eval (e : expr) :
  sim (eval fns callee_a e) (eval fns callee_c e).
Proof.
  unfold eval. apply sim_andthen; [apply sim_reads|].
  apply sim_mseq, Forall_forall. intros g _. apply sim_call.
Qed.

Lemma sim_evals (l : list expr) :
  sim (mseq (eval fns callee_a) l) (mseq (eval fns callee_c) l).
Proof. apply sim_mseq, Forall_forall. intros e _. apply sim_eval. Qed.

Lemma sim_exec (s : stmt) :
  sim (exec fns once callee_a s) (exec fns (iterate trips) callee_c s).
Proof.
  induction s as [ | | | | | | | t i b IH | | | | | | ];
    try apply sim_ret; try apply sim_binds; try apply sim_Unsupported.
  - simpl. apply sim_andthen; [apply sim_eval|].
    apply sim_andthen; [apply sim_evals | apply sim_binds].
  - apply sim_eval.
  - simpl. apply sim_andthen; [apply sim_evals | apply sim_Returned].
  - simpl. apply sim_andthen; [apply sim_eval|]. apply sim_loop.
    apply sim_andthen; [apply sim_evals|].
    apply sim_andthen; [apply sim_binds|].
    apply sim_mseq. clear -IH.
    induction IH as [|s Hs b Hb IHb]; constructor; done.
Qed.

Lemma sim_exec_block (b : list stmt) :
  sim (exec_block fns once callee_a b)
      (exec_block fns (iterate trips) callee_c b).
Proof. apply sim_mseq, Forall_forall. intros s _. apply sim_exec. Qed.
End Interpreter.

Lemma sim_run_block fns trips (b : list stmt) :
  sim (check_block fns b) (run_block fns trips b).
Proof.
  apply sim_exec_block. intros body. apply sim_exec_block.
  intros body'. apply sim_Unsupported.
Qed.

(** A script the check accepts runs to its end whatever the loops do. *)
Lemma check_sound (trips : nat -> nat) (sc : script) :
  completes (check sc) = true -> completes (run trips sc) = true.
Proof.
  unfold check, run. intros H.
  pose proof (sim_run_block (functions (script_body sc)) trips
                (script_body sc) initial initial ltac:(done)) as Hs.
  destruct (check_block _ _ initial); try done.
  by destruct Hs as (sc' & -> & _).
Qed.

(** The second code block of [plot_compare_reduction] does not run on
    its own: it uses [Pipeline], which the first block imports. *)
Example caching_block_alone_raises (trips : nat -> nat) :
  run_block [] trips (drop 31 plot_compare_reduction_body) initial
  = NameError "Pipeline".
Proof. vm_compute. reflexivity. Qed.

(** X14: no script reads a name that is not bound.  In each of the six
    scripts, every name read at module level has been bound before by an
    import, an assignment, a loop or a definition, or is predefined;
    inside [g] and [get_results] every name is a parameter, assigned
    before in the function, or bound at module level when the function
    is called; and this does not depend on how often the loops iterate:
    every run ends without [NameError]. *)
Theorem scripts_read_only_bound_names (trips : nat -> nat) :
  Forall (fun sc => completes (run trips sc) = true) scripts.
Proof.
  repeat constructor; apply check_sound; vm_compute; reflexivity.
Qed.
End NamesFacts.
